(** * Prompt management backend: versions, scoring engine, recommendations

    A shallow embedding of the Flask backend:
    - [ai_engine.py]   : the rule-based [PromptEvaluator];
    - [models.py]      : the relational tables and the helper queries;
    - [routes/prompts.py], [routes/versions.py], [routes/evaluation.py] :
      the request handlers that change or read versions and evaluations.

    Conventions of the embedding.
    - Python [float] is IEEE binary64, i.e. Rocq's primitive [float].
    - Python [str] is a byte string (UTF-8); character classes ([isspace],
      [isupper], [lower], the regular expression classes) are the ASCII
      ones, so the text functions are exact on ASCII text (plus the bullet
      character, which the source names explicitly).
    - A table is the list of its rows in insertion order; a query without
      ORDER BY returns rows in that order.
    - A lookup by key is read for keys the store can hold (below 2^63);
      the driver refuses a larger key before it looks up any row.
    - [round(x, 2)] is read for the scores of the engine, whose hundredths
      stay far below 2^63.
    - A raised Python exception is the [Raise] branch of the [exc] monad.
    - [textstat] and [TextBlob] are third-party libraries: they are taken
      as parameters ([TextLibs]). *)

From Stdlib Require Import ZArith List String Ascii Bool Lia.
From Stdlib Require Import Permutation Sorted.
From Stdlib Require Import DecimalString.
From Stdlib Require Import Floats.PrimFloat Floats.SpecFloat Floats.FloatOps Uint63.
Import ListNotations.

Set Warnings "-inexact-float".

Local Open Scope string_scope.
Local Open Scope list_scope.
Local Open Scope Z_scope.

(* ===================================================================== *)
(** * Python built-ins used by the source                                *)
(* ===================================================================== *)

Module Py.

(** Exceptions: [Ok v] is a normal return, [Raise e] an exception named [e]. *)
Inductive exc (A : Type) : Type :=
| Ok (a : A)
| Raise (e : string).
Arguments Ok {A} a.
Arguments Raise {A} e.

Definition bind {A B} (m : exc A) (k : A -> exc B) : exc B :=
  match m with
  | Ok a => k a
  | Raise e => Raise e
  end.

(** [try: m except Exception: h] *)
Definition try_except {A} (m : exc A) (h : A) : A :=
  match m with
  | Ok a => a
  | Raise _ => h
  end.

Declare Scope exc_scope.
Delimit Scope exc_scope with exc.
Notation "x <- m ;; k" := (bind m (fun x => k))
  (at level 61, m at next level, right associativity) : exc_scope.

(** ** Characters *)

Definition code (c : ascii) : Z := Z.of_nat (nat_of_ascii c).

(** [str.isspace] on one ASCII character: TAB, LF, VT, FF, CR, FS, GS, RS,
    US and the space. *)
Definition isspace (c : ascii) : bool :=
  let n := code c in
  ((9 <=? n) && (n <=? 13)) || ((28 <=? n) && (n <=? 32)).

(** [\d] of [re] (ASCII digits). *)
Definition isdigit (c : ascii) : bool :=
  let n := code c in (48 <=? n) && (n <=? 57).

(** [c.isupper()] for one character. *)
Definition isupper (c : ascii) : bool :=
  let n := code c in (65 <=? n) && (n <=? 90).

Definition lower_char (c : ascii) : ascii :=
  if isupper c then ascii_of_nat (nat_of_ascii c + 32) else c.

(** ** Strings *)

(** [s.lower()] *)
Fixpoint lower (s : string) : string :=
  match s with
  | EmptyString => EmptyString
  | String c t => String (lower_char c) (lower t)
  end.

(** [sub in s] *)
Fixpoint contains (sub s : string) : bool :=
  String.prefix sub s ||
  match s with
  | EmptyString => false
  | String _ t => contains sub t
  end.

(** [c in s] for a single character. *)
Fixpoint has_char (p : ascii -> bool) (s : string) : bool :=
  match s with
  | EmptyString => false
  | String c t => p c || has_char p t
  end.

Fixpoint lstrip (s : string) : string :=
  match s with
  | EmptyString => EmptyString
  | String c t => if isspace c then lstrip t else s
  end.

Fixpoint drop_spaces (l : list ascii) : list ascii :=
  match l with
  | [] => []
  | c :: t => if isspace c then drop_spaces t else l
  end.

Definition rstrip (s : string) : string :=
  string_of_list_ascii (rev (drop_spaces (rev (list_ascii_of_string s)))).

(** [s.strip()] *)
Definition strip (s : string) : string := rstrip (lstrip s).

(** [s.split()]: the maximal runs of non-space characters. [word] is the
    run being read. *)
Fixpoint split_from (word : option string) (s : string) : list string :=
  match s with
  | EmptyString => match word with Some w => [w] | None => [] end
  | String c t =>
      if isspace c then
        match word with
        | Some w => w :: split_from None t
        | None => split_from None t
        end
      else
        split_from (Some (match word with
                          | Some w => (w ++ String c EmptyString)%string
                          | None => String c EmptyString
                          end)) t
  end.

Definition split (s : string) : list string := split_from None s.

(** [len(s)]: the number of code points of the UTF-8 text, i.e. of the
    bytes that are not continuation bytes. *)
Fixpoint len (s : string) : Z :=
  match s with
  | EmptyString => 0
  | String c t =>
      (if (128 <=? code c) && (code c <? 192) then 0 else 1) + len t
  end.

(** [sum(1 for c in s if p(c))] *)
Fixpoint count_chars (p : ascii -> bool) (s : string) : Z :=
  match s with
  | EmptyString => 0
  | String c t => (if p c then 1 else 0) + count_chars p t
  end.

(** [sep.join(l)] *)
Definition join (sep : string) (l : list string) : string :=
  String.concat sep l.

(** [str(n)] / [f"{n}"] for an integer. *)
Definition str_int (n : Z) : string :=
  NilZero.string_of_int (Z.to_int n).

(** ** Regular expressions: [re.search] tries the pattern at every offset. *)
Fixpoint re_search (here : string -> bool) (s : string) : bool :=
  here s ||
  match s with
  | EmptyString => false
  | String _ t => re_search here t
  end.

Fixpoint skip_digits (s : string) : string :=
  match s with
  | EmptyString => EmptyString
  | String c t => if isdigit c then skip_digits t else s
  end.

(** [\s] at the head of [s]. *)
Definition space_here (s : string) : bool :=
  match s with
  | String c _ => isspace c
  | EmptyString => false
  end.

(** The three alternatives of [(\d+\.|•|-)]: each gives the rest of the
    text after the alternative, when it matches at the head. *)
Definition alt_number_dot (s : string) : option string :=
  match s with
  | String c t =>
      if isdigit c then
        match skip_digits t with
        | String "."%char r => Some r
        | _ => None
        end
      else None
  | EmptyString => None
  end.

(** The bullet U+2022 is the three bytes E2 80 A2. *)
Definition bullet : string :=
  String (ascii_of_nat 226) (String (ascii_of_nat 128)
    (String (ascii_of_nat 162) EmptyString)).

Definition alt_literal (lit s : string) : option string :=
  if String.prefix lit s
  then Some (String.substring (String.length lit)
               (String.length s - String.length lit) s)
  else None.

Definition then_space (r : option string) : bool :=
  match r with
  | Some rest => space_here rest
  | None => false
  end.

(** [(\d+\.|•|-)\s] anchored at the head of [s]. *)
Definition list_marker_here (s : string) : bool :=
  then_space (alt_number_dot s) ||
  then_space (alt_literal bullet s) ||
  then_space (alt_literal "-" s).

(** [\d+] anchored at the head of [s]. *)
Definition digits_here (s : string) : bool :=
  match s with
  | String c _ => isdigit c
  | EmptyString => false
  end.

(** ** Numbers *)

(** [float(n)] for an integer [0 <= n < 2^53]. *)
Definition float_of_nonneg (n : Z) : float := of_uint63 (Uint63.of_Z n).

Definition float_of_int (n : Z) : float :=
  if n <? 0 then (- float_of_nonneg (- n))%float else float_of_nonneg n.

(** [a / b] on two integers (true division). *)
Definition int_div (a b : Z) : float :=
  (float_of_int a / float_of_int b)%float.

(** [min(a, b)] keeps [a] unless [b < a]; [max(a, b)] keeps [a] unless
    [b > a]. *)
Definition min (a b : float) : float := if (b <? a)%float then b else a.
Definition max (a b : float) : float := if (a <? b)%float then b else a.

(** The integer nearest to [n / d] for [d > 0], ties to even. *)
Definition round_half_even (n d : Z) : Z :=
  let q := n / d in
  let r := n mod d in
  match 2 * r ?= d with
  | Lt => q
  | Gt => q + 1
  | Eq => if Z.even q then q else q + 1
  end.

(** The exact value of [x], times 100, rounded to the nearest integer:
    what the two-decimal rendering of [x] shows, and what a NUMERIC(5,2)
    column keeps of it. *)
Definition hundredths (x : float) : Z :=
  match Prim2SF x with
  | S754_finite s m e =>
      let n := (if s then Z.neg m else Z.pos m) * 100 in
      if 0 <=? e then n * 2 ^ e else round_half_even n (2 ^ (- e))
  | _ => 0
  end.

(** [round(x, 2)] *)
Definition round2 (x : float) : float :=
  match Prim2SF x with
  | S754_finite _ _ _ => (float_of_int (hundredths x) / 100)%float
  | _ => x
  end.

End Py.

Import Py.

(* ===================================================================== *)
(** * ai_engine.py: the rule-based evaluator                             *)
(* ===================================================================== *)

Module AiEngine.

(** The two third-party text libraries. [textstat] calls sit inside a
    [try] in the source and may raise; [TextBlob(text).sentiment] gives
    the pair (polarity, subjectivity). *)
Record TextLibs : Type := {
  textstat_flesch_reading_ease : string -> exc float;
  textstat_text_standard : string -> exc string;
  textblob_sentiment : string -> float * float
}.

(** ** Configuration tables of [PromptEvaluator] *)

Definition VAGUE_KEYWORDS : list string :=
  ["something"; "stuff"; "thing"; "things"; "maybe"; "etc"; "whatever";
   "somehow"; "somewhere"; "anything"; "everything"; "nothing";
   "kind of"; "sort of"; "like"; "basically"; "actually"].

Definition CLEAR_ACTION_WORDS : list string :=
  ["create"; "generate"; "write"; "analyze"; "summarize"; "explain";
   "list"; "describe"; "compare"; "evaluate"; "implement"; "design";
   "calculate"; "find"; "search"; "extract"; "convert"; "translate";
   "review"; "optimize"; "debug"; "test"; "validate"; "format"].

Definition DOMAIN_KEYWORDS : list (string * list string) :=
  [("healthcare",
    ["patient"; "diagnosis"; "treatment"; "medical"; "health";
     "symptom"; "disease"; "medication"; "clinical"; "doctor";
     "hospital"; "therapy"; "prescription"; "nursing"; "surgery"]);
   ("coding",
    ["function"; "code"; "debug"; "implement"; "api"; "class";
     "method"; "variable"; "algorithm"; "database"; "server";
     "frontend"; "backend"; "python"; "javascript"; "sql"]);
   ("education",
    ["teach"; "explain"; "learn"; "student"; "lesson"; "course";
     "curriculum"; "assignment"; "grade"; "exam"; "tutorial";
     "concept"; "theory"; "practice"; "exercise"; "quiz"]);
   ("business",
    ["revenue"; "profit"; "customer"; "market"; "strategy";
     "sales"; "product"; "service"; "growth"; "investment";
     "roi"; "kpi"; "analytics"; "report"; "presentation"]);
   ("creative",
    ["story"; "poem"; "character"; "plot"; "narrative";
     "fiction"; "dialogue"; "scene"; "imagination"; "creative";
     "artistic"; "style"; "voice"; "theme"; "metaphor"]);
   ("legal",
    ["contract"; "agreement"; "clause"; "terms"; "legal";
     "compliance"; "regulation"; "law"; "court"; "litigation";
     "policy"; "liability"; "rights"; "obligation"; "statute"])].

Definition TASK_INDICATORS : list (string * list string) :=
  [("generation",
    ["create"; "generate"; "write"; "produce"; "make"; "build";
     "compose"; "draft"; "construct"; "develop"; "design"]);
   ("analysis",
    ["analyze"; "evaluate"; "assess"; "review"; "examine";
     "investigate"; "study"; "inspect"; "critique"; "audit"]);
   ("summarization",
    ["summarize"; "condense"; "shorten"; "brief"; "synopsis";
     "overview"; "abstract"; "digest"; "recap"; "outline"]);
   ("translation",
    ["translate"; "convert"; "transform"; "adapt"; "localize";
     "interpret"; "render"; "transpose"]);
   ("classification",
    ["classify"; "categorize"; "sort"; "organize"; "group";
     "label"; "tag"; "identify"; "distinguish"]);
   ("extraction",
    ["extract"; "find"; "locate"; "identify"; "retrieve";
     "pull"; "get"; "fetch"; "obtain"; "gather"])].

Definition DEFAULT_WEIGHTS : list (string * float) :=
  [("clarity", 0.4%float); ("relevance", 0.4%float); ("length", 0.2%float)].

Definition MIN_WORDS : Z := 5.
Definition OPTIMAL_MIN_WORDS : Z := 15.
Definition OPTIMAL_MAX_WORDS : Z := 150.
Definition MAX_WORDS : Z := 300.

(** ** Dictionaries with string keys *)

(** [d.get(k)]: the first binding of [k]. *)
Fixpoint dict_get {V} (d : list (string * V)) (k : string) : option V :=
  match d with
  | [] => None
  | (k', v) :: rest => if String.eqb k' k then Some v else dict_get rest k
  end.

(** [d[k]]: raises [KeyError] on a missing key. *)
Definition dict_item {V} (d : list (string * V)) (k : string) : exc V :=
  match dict_get d k with
  | Some v => Ok v
  | None => Raise "KeyError"
  end.

(** ** The evaluator object *)

Record PromptEvaluator : Type := {
  weights : list (string * float)
}.

(** [__init__]: [self.weights = weights or self.DEFAULT_WEIGHTS]; an empty
    dictionary is falsy. *)
Definition __init__ (w : option (list (string * float))) : PromptEvaluator :=
  match w with
  | Some (b :: bs) => {| weights := b :: bs |}
  | _ => {| weights := DEFAULT_WEIGHTS |}
  end.

(** ** Result dictionaries *)

Record ClarityResult : Type := {
  clarity_score_of : float;
  clarity_notes : list string;
  action_words_found : list string;
  vague_words_found : list string
}.

Record RelevanceResult : Type := {
  relevance_score_of : float;
  relevance_notes : list string;
  domain_matches : list string;
  task_matches : list string
}.

Record LengthResult : Type := {
  length_score_of : float;
  length_notes : list string;
  word_count : Z;
  optimal_range : string
}.

Record ReadabilityResult : Type := {
  flesch_reading_ease : float;
  grade_level : string;
  readability_notes : list string
}.

Record SentimentResult : Type := {
  polarity : float;
  subjectivity : float;
  sentiment_notes : list string
}.

Record Details : Type := {
  d_clarity : ClarityResult;
  d_relevance : RelevanceResult;
  d_length : LengthResult;
  d_readability : ReadabilityResult;
  d_sentiment : SentimentResult
}.

Record EvaluationResult : Type := {
  clarity_score : float;
  relevance_score : float;
  length_score : float;
  final_score : float;
  evaluation_notes : string;
  details : Details
}.

(** ** Keyword loops

    [for keyword in keywords: if keyword in prompt_lower:
       found.append(keyword); score += delta] *)
Definition scan_keywords (keywords : list string) (prompt_lower : string)
    (delta : float) (score : float) : list string * float :=
  fold_left
    (fun (st : list string * float) keyword =>
       if contains keyword prompt_lower
       then (fst st ++ [keyword], (snd st + delta)%float)
       else st)
    keywords ([], score).

(** [notes.append(n)] when [b] holds. *)
Definition note_if (b : bool) (n : string) (notes : list string) : list string :=
  if b then notes ++ [n] else notes.

(** A non-empty list is truthy. *)
Definition truthy {A} (l : list A) : bool :=
  match l with [] => false | _ => true end.

(** A string option is truthy when it is a non-empty string. *)
Definition truthy_str (s : option string) : bool :=
  match s with
  | Some (String _ _) => true
  | _ => false
  end.

Section Evaluator.

Variable libs : TextLibs.
Variable self : PromptEvaluator.

(** ** Readability and sentiment *)

(** The body of the [try] block: both [textstat] calls. *)
Definition textstat_calls (prompt_text : string) : exc (float * string) :=
  (flesch_score <- textstat_flesch_reading_ease libs prompt_text ;;
   grade_level <- textstat_text_standard libs prompt_text ;;
   Ok (flesch_score, grade_level))%exc.

Definition _calculate_readability (prompt_text : string) : ReadabilityResult :=
  let '(flesch_score, grade) :=
    try_except (textstat_calls prompt_text) (50.0%float, "N/A") in
  let notes :=
    if (flesch_score <? 30)%float then ["Very difficult to read"]
    else if (90 <? flesch_score)%float then ["Very simple language"]
    else [] in
  {| flesch_reading_ease := flesch_score;
     grade_level := grade;
     readability_notes := notes |}.

Definition _analyze_sentiment (prompt_text : string) : SentimentResult :=
  let '(pol, subj) := textblob_sentiment libs prompt_text in
  let notes := note_if (0.7 <? subj)%float
                 "Highly subjective language detected" [] in
  {| polarity := round2 pol;
     subjectivity := round2 subj;
     sentiment_notes := notes |}.

(** ** Clarity *)

Definition _calculate_clarity_score (prompt_text : string) : ClarityResult :=
  let score := 100.0%float in
  let notes : list string := [] in
  let prompt_lower := lower prompt_text in
  (* Rule 1: vague keywords *)
  let '(vague_found, score) :=
    scan_keywords VAGUE_KEYWORDS prompt_lower (-8)%float score in
  let notes :=
    note_if (truthy vague_found)
      ("Vague terms found: " ++ join ", " (firstn 3 vague_found))%string
      notes in
  (* Rule 2: action words *)
  let '(action_found, score) :=
    scan_keywords CLEAR_ACTION_WORDS prompt_lower 5%float score in
  let score := if truthy action_found then score else (score - 15)%float in
  let notes :=
    note_if (negb (truthy action_found)) "Missing clear action verbs" notes in
  (* Rule 3: question mark *)
  let score :=
    if contains "?" prompt_text then (score + 5)%float else score in
  (* Rule 4: numbered lists or bullet points *)
  let has_list := re_search list_marker_here prompt_text in
  let score := if has_list then (score + 10)%float else score in
  let notes := note_if has_list "Well-structured with lists" notes in
  (* Rule 5: digits *)
  let score :=
    if re_search digits_here prompt_text then (score + 5)%float else score in
  (* Rule 6: capital letters *)
  let caps_ratio :=
    int_div (count_chars isupper prompt_text) (Z.max (len prompt_text) 1) in
  let shouting := (0.5 <? caps_ratio)%float in
  let score := if shouting then (score - 10)%float else score in
  let notes := note_if shouting "Too many capital letters" notes in
  (* Clamp *)
  let score := Py.max 0 (Py.min 100 score) in
  {| clarity_score_of := score;
     clarity_notes := notes;
     action_words_found := action_found;
     vague_words_found := vague_found |}.

(** ** Relevance *)

(** [tag and tag.lower() in table]: the tag as given and the keyword list
    of its lower-cased form, when the tag is a non-empty string and a key
    of the table. *)
Definition known_tag (table : list (string * list string))
    (tag : option string) : option (string * list string) :=
  match tag with
  | Some t =>
      if truthy_str tag then
        match dict_get table (lower t) with
        | Some keywords => Some (t, keywords)
        | None => None
        end
      else None
  | None => None
  end.

Definition any_in (words : list string) (prompt_lower : string) : bool :=
  existsb (fun word => contains word prompt_lower) words.

Definition _calculate_relevance_score (prompt_text : string)
    (task_type domain : option string) : RelevanceResult :=
  let score := 50.0%float in
  let notes : list string := [] in
  let prompt_lower := lower prompt_text in
  (* Rule 1: domain keywords *)
  let '(domain_found, score, notes) :=
    match known_tag DOMAIN_KEYWORDS domain with
    | Some (d, domain_keywords) =>
        let '(found, score) :=
          scan_keywords domain_keywords prompt_lower 5%float score in
        if negb (truthy found)
        then (found, (score - 10)%float,
              notes ++ [("Low relevance to " ++ d ++ " domain")%string])
        else (found, score,
              notes ++ [("Matches " ++ d ++ ": "
                         ++ join ", " (firstn 3 found))%string])
    | None => ([], score, notes)
    end in
  (* Rule 2: task type *)
  let '(task_found, score, notes) :=
    match known_tag TASK_INDICATORS task_type with
    | Some (t, task_keywords) =>
        let '(found, score) :=
          scan_keywords task_keywords prompt_lower 8%float score in
        if negb (truthy found)
        then (found, (score - 15)%float,
              notes ++ [("Doesn't align with " ++ t ++ " task")%string])
        else (found, score,
              notes ++ [("Good " ++ t ++ " indicators")%string])
    | None => ([], score, notes)
    end in
  (* Rule 3: context *)
  let context_words := ["for"; "about"; "regarding"; "concerning"; "related to"] in
  let has_context := any_in context_words prompt_lower in
  let score := if has_context then (score + 10)%float else score in
  (* Rule 4: output format *)
  let format_words :=
    ["json"; "list"; "table"; "bullet"; "paragraph"; "code"; "markdown"] in
  let has_format := any_in format_words prompt_lower in
  let score := if has_format then (score + 10)%float else score in
  let notes := note_if has_format "Specifies output format" notes in
  (* Clamp *)
  let score := Py.max 0 (Py.min 100 score) in
  {| relevance_score_of := score;
     relevance_notes := notes;
     domain_matches := domain_found;
     task_matches := task_found |}.

(** ** Length *)

Definition _calculate_length_score (prompt_text : string) : LengthResult :=
  let n := Z.of_nat (List.length (split prompt_text)) in
  let words := (" (" ++ str_int n ++ " words)")%string in
  let '(score, note) :=
    if n <? MIN_WORDS then
      ((int_div n MIN_WORDS * 30)%float, ("Too short" ++ words)%string)
    else if n <? OPTIMAL_MIN_WORDS then
      ((50 + int_div (n - MIN_WORDS) (OPTIMAL_MIN_WORDS - MIN_WORDS) * 30)%float,
       ("Could be more detailed" ++ words)%string)
    else if n <=? OPTIMAL_MAX_WORDS then
      (100%float, ("Optimal length" ++ words)%string)
    else if n <=? MAX_WORDS then
      let excess := n - OPTIMAL_MAX_WORDS in
      let max_excess := MAX_WORDS - OPTIMAL_MAX_WORDS in
      ((100 - int_div excess max_excess * 30)%float, ("Slightly long" ++ words)%string)
    else
      (Py.max 0 (70 - int_div (n - MAX_WORDS) 50 * 10)%float,
       ("Too long" ++ words)%string) in
  {| length_score_of := Py.max 0 (Py.min 100 score);
     length_notes := [note];
     word_count := n;
     optimal_range :=
       (str_int OPTIMAL_MIN_WORDS ++ "-" ++ str_int OPTIMAL_MAX_WORDS)%string |}.

(** ** The main method *)

Definition evaluate (prompt_text : string) (task_type domain : option string)
  : exc EvaluationResult :=
  let clarity_result := _calculate_clarity_score prompt_text in
  let relevance_result :=
    _calculate_relevance_score prompt_text task_type domain in
  let length_result := _calculate_length_score prompt_text in
  let readability_result := _calculate_readability prompt_text in
  let sentiment_result := _analyze_sentiment prompt_text in
  (w_clarity <- dict_item (weights self) "clarity" ;;
   w_relevance <- dict_item (weights self) "relevance" ;;
   w_length <- dict_item (weights self) "length" ;;
   let final :=
     (clarity_score_of clarity_result * w_clarity +
      relevance_score_of relevance_result * w_relevance +
      length_score_of length_result * w_length)%float in
   let all_notes :=
     clarity_notes clarity_result ++ relevance_notes relevance_result ++
     length_notes length_result ++ readability_notes readability_result ++
     sentiment_notes sentiment_result in
   Ok {| clarity_score := round2 (clarity_score_of clarity_result);
         relevance_score := round2 (relevance_score_of relevance_result);
         length_score := round2 (length_score_of length_result);
         final_score := round2 final;
         evaluation_notes :=
           if truthy all_notes then join " | " all_notes
           else "No issues found.";
         details :=
           {| d_clarity := clarity_result;
              d_relevance := relevance_result;
              d_length := length_result;
              d_readability := readability_result;
              d_sentiment := sentiment_result |} |})%exc.

(** ** Suggestions *)

Definition get_improvement_suggestions (evaluation_result : EvaluationResult)
    (prompt_text : string) : list string :=
  let s1 :=
    if (clarity_score evaluation_result <? 70)%float then
      ["Add clear action verbs like 'create', 'analyze', or 'summarize'"] ++
      (if truthy (vague_words_found (d_clarity (details evaluation_result)))
       then ["Replace vague words with specific terms"] else [])
    else [] in
  let s2 :=
    if (relevance_score evaluation_result <? 70)%float then
      ["Include more domain-specific keywords";
       "Specify the expected output format"]
    else [] in
  let s3 :=
    if (length_score evaluation_result <? 70)%float then
      if word_count (d_length (details evaluation_result)) <? OPTIMAL_MIN_WORDS
      then [("Expand the prompt to at least " ++ str_int OPTIMAL_MIN_WORDS
             ++ " words")%string]
      else [("Condense the prompt to under " ++ str_int OPTIMAL_MAX_WORDS
             ++ " words")%string]
    else [] in
  s1 ++ s2 ++ s3.

End Evaluator.

(** The module-level singleton and the two convenience functions. *)
Definition evaluator : PromptEvaluator := __init__ None.

Definition evaluate_prompt (libs : TextLibs) (prompt_text : string)
    (task_type domain : option string) : exc EvaluationResult :=
  evaluate libs evaluator prompt_text task_type domain.

Definition get_suggestions (evaluation_result : EvaluationResult)
    (prompt_text : string) : list string :=
  get_improvement_suggestions evaluation_result prompt_text.

End AiEngine.

(* ===================================================================== *)
(** * models.py: tables and helper queries                               *)
(* ===================================================================== *)

Module Models.

(** Rows. Identifiers, version numbers and timestamps are integers; a
    NUMERIC(5,2) score is kept as its number of hundredths. The [User]
    table and the timestamps of [Prompt] play no part in the handlers
    below and are left out. *)

Record PromptTag : Type := {
  t_id : Z;
  t_name : string
}.

Record Prompt : Type := {
  p_id : Z;
  p_user_id : Z;
  p_title : string;
  p_description : string;
  p_task_type : string;
  p_domain : option string;
  p_is_public : bool;
  p_tags : list PromptTag
}.

Record PromptVersion : Type := {
  v_id : Z;
  v_prompt_id : Z;
  v_version_number : Z;
  v_prompt_text : string;
  v_change_notes : string;
  v_is_current : bool;
  v_created_at : Z
}.

Record PromptEvaluation : Type := {
  e_id : Z;
  e_version_id : Z;
  e_clarity_score : Z;
  e_relevance_score : Z;
  e_length_score : Z;
  e_final_score : Z;
  e_evaluation_notes : string;
  e_evaluated_at : Z
}.

(** The database: one list of rows per table, in insertion order. *)
Record DB : Type := {
  prompts : list Prompt;
  prompt_versions : list PromptVersion;
  prompt_evaluations : list PromptEvaluation;
  prompt_tags : list PromptTag
}.

Definition empty_db : DB :=
  {| prompts := []; prompt_versions := [];
     prompt_evaluations := []; prompt_tags := [] |}.

(** The key given to a new row of an [INTEGER PRIMARY KEY] column: one
    more than the largest key in the table. *)
Definition next_id (ids : list Z) : Z := 1 + fold_right Z.max 0 ids.

(** ** Query building blocks *)

(** [ORDER BY key DESC]: a stable insertion sort. *)
Fixpoint insert_desc {A} (key : A -> Z) (x : A) (l : list A) : list A :=
  match l with
  | [] => [x]
  | y :: ys =>
      if key y <=? key x then x :: y :: ys
      else y :: insert_desc key x ys
  end.

Definition order_by_desc {A} (key : A -> Z) (l : list A) : list A :=
  fold_right (insert_desc key) [] l.

(** Descending order of the keys: [b] may follow [a]. *)
Definition desc {A} (key : A -> Z) (a b : A) : Prop := key b <= key a.

(** [.first()] *)
Definition first {A} (l : list A) : option A := hd_error l.

(** [.count()] *)
Definition count {A} (l : list A) : Z := Z.of_nat (List.length l).

(** [filter_by(prompt_id=pid)] on versions. *)
Definition versions_of (db : DB) (pid : Z) : list PromptVersion :=
  filter (fun v => v_prompt_id v =? pid) (prompt_versions db).

(** [PromptVersion.query.get(version_id)] *)
Definition get_version (db : DB) (version_id : Z) : option PromptVersion :=
  find (fun v => v_id v =? version_id) (prompt_versions db).

(** [Prompt.query.filter_by(id=prompt_id, user_id=user_id).first()] *)
Definition get_prompt_of_user (db : DB) (prompt_id user_id : Z)
  : option Prompt :=
  find (fun p => (p_id p =? prompt_id) && (p_user_id p =? user_id))
       (prompts db).

(** [version.prompt] *)
Definition prompt_of (db : DB) (v : PromptVersion) : option Prompt :=
  find (fun p => p_id p =? v_prompt_id v) (prompts db).

(** [e.version] *)
Definition version_of (db : DB) (e : PromptEvaluation)
  : option PromptVersion :=
  get_version db (e_version_id e).

(** [Prompt.get_current_version] *)
Definition get_current_version (db : DB) (p : Prompt)
  : option PromptVersion :=
  first (filter (fun v => (v_prompt_id v =? p_id p) && v_is_current v)
                (prompt_versions db)).

(** [Prompt.get_latest_version] *)
Definition get_latest_version (db : DB) (p : Prompt)
  : option PromptVersion :=
  first (order_by_desc v_version_number (versions_of db (p_id p))).

(** [PromptVersion.get_latest_evaluation] *)
Definition get_latest_evaluation (db : DB) (v : PromptVersion)
  : option PromptEvaluation :=
  first (order_by_desc e_evaluated_at
           (filter (fun e => e_version_id e =? v_id v)
                   (prompt_evaluations db))).

(** ** Writes *)

(** Assigning [is_current] on a loaded version: an UPDATE of the row with
    that primary key. *)
Definition with_is_current (b : bool) (v : PromptVersion) : PromptVersion :=
  {| v_id := v_id v; v_prompt_id := v_prompt_id v;
     v_version_number := v_version_number v;
     v_prompt_text := v_prompt_text v;
     v_change_notes := v_change_notes v;
     v_is_current := b;
     v_created_at := v_created_at v |}.

Definition set_is_current (version_id : Z) (b : bool)
    (vs : list PromptVersion) : list PromptVersion :=
  map (fun v => if v_id v =? version_id then with_is_current b v else v) vs.

(** [PromptVersion.query.filter_by(prompt_id=pid).update({'is_current': False})] *)
Definition unset_current_of (pid : Z) (vs : list PromptVersion)
  : list PromptVersion :=
  map (fun v => if v_prompt_id v =? pid then with_is_current false v else v) vs.

Definition with_versions (db : DB) (vs : list PromptVersion) : DB :=
  {| prompts := prompts db; prompt_versions := vs;
     prompt_evaluations := prompt_evaluations db;
     prompt_tags := prompt_tags db |}.

Definition with_prompts (db : DB) (ps : list Prompt) : DB :=
  {| prompts := ps; prompt_versions := prompt_versions db;
     prompt_evaluations := prompt_evaluations db;
     prompt_tags := prompt_tags db |}.

Definition with_evaluations (db : DB) (es : list PromptEvaluation) : DB :=
  {| prompts := prompts db; prompt_versions := prompt_versions db;
     prompt_evaluations := es;
     prompt_tags := prompt_tags db |}.

(** Deleting a version: the row goes, and with it (cascade) its
    evaluations. *)
Definition delete_version_row (db : DB) (version_id : Z) : DB :=
  {| prompts := prompts db;
     prompt_versions :=
       filter (fun v => negb (v_id v =? version_id)) (prompt_versions db);
     prompt_evaluations :=
       filter (fun e => negb (e_version_id e =? version_id))
              (prompt_evaluations db);
     prompt_tags := prompt_tags db |}.

(** Deleting a prompt: the row goes, and with it (cascade) its versions
    and their evaluations. *)
Definition delete_prompt_row (db : DB) (pid : Z) : DB :=
  {| prompts := filter (fun p => negb (p_id p =? pid)) (prompts db);
     prompt_versions :=
       filter (fun v => negb (v_prompt_id v =? pid)) (prompt_versions db);
     prompt_evaluations :=
       filter (fun e =>
                 negb (existsb (fun v => (v_id v =? e_version_id e) &&
                                         (v_prompt_id v =? pid))
                               (prompt_versions db)))
              (prompt_evaluations db);
     prompt_tags := prompt_tags db |}.

(** ** [to_dict] *)

Record VersionDict : Type := {
  vd_version : PromptVersion;
  vd_evaluation : option PromptEvaluation
}.

Definition version_to_dict (db : DB) (include_evaluation : bool)
    (v : PromptVersion) : VersionDict :=
  {| vd_version := v;
     vd_evaluation :=
       if include_evaluation then get_latest_evaluation db v else None |}.

Record PromptDict : Type := {
  pd_prompt : Prompt;
  pd_version_count : Z;
  pd_current_version : option VersionDict;
  pd_versions : option (list VersionDict)
}.

Definition prompt_to_dict (db : DB) (include_versions : bool) (p : Prompt)
  : PromptDict :=
  {| pd_prompt := p;
     pd_version_count := count (versions_of db (p_id p));
     pd_current_version :=
       option_map (version_to_dict db true) (get_current_version db p);
     pd_versions :=
       if include_versions
       then Some (map (version_to_dict db true)
                      (order_by_desc v_version_number
                                     (versions_of db (p_id p))))
       else None |}.

End Models.

(* ===================================================================== *)
(** * The request handlers                                               *)
(* ===================================================================== *)

Module Routes.

Import Models.

(** A handler maps the database to the committed database and a response:
    a status code with either a body or an error message. A handler that
    returns before [db.session.commit()] leaves the database as it was. *)
Inductive Response (A : Type) : Type :=
| Success (status : Z) (body : A)
| Failure (status : Z) (error : string).
Arguments Success {A} status body.
Arguments Failure {A} status error.

Definition status_of {A} (r : Response A) : Z :=
  match r with
  | Success s _ => s
  | Failure s _ => s
  end.

(** The JSON object of a create or update request: every key is optional. *)
Record PromptData : Type := {
  d_title : option string;
  d_description : option string;
  d_task_type : option string;
  d_domain : option string;
  d_prompt_text : option string;
  d_change_notes : option string;
  d_is_public : option bool;
  d_tags : option (list Z)
}.

(** [data.get(key, default)] *)
Definition get_or {A} (field : option A) (default : A) : A :=
  match field with
  | Some x => x
  | None => default
  end.

(** [not s] for a string. *)
Definition empty_str (s : string) : bool :=
  match s with
  | EmptyString => true
  | String _ _ => false
  end.

(** [s or None] *)
Definition or_none (s : string) : option string :=
  if empty_str s then None else Some s.

(** [not data] for a JSON object: it has no key. *)
Definition no_keys (data : PromptData) : bool :=
  match data with
  | {| d_title := None; d_description := None; d_task_type := None;
       d_domain := None; d_prompt_text := None; d_change_notes := None;
       d_is_public := None; d_tags := None |} => true
  | _ => false
  end.

(** [PromptTag.query.filter(PromptTag.id.in_(tag_ids)).all()] *)
Definition tags_in (db : DB) (tag_ids : list Z) : list PromptTag :=
  filter (fun t => existsb (Z.eqb (t_id t)) tag_ids) (prompt_tags db).

(** ** routes/prompts.py *)

Record CreateBody : Type := {
  cb_message : string;
  cb_prompt : PromptDict
}.

Definition create_prompt (now user_id : Z) (data : option PromptData)
    (db : DB) : DB * Response CreateBody :=
  match data with
  | None => (db, Failure 400 "No data provided")
  | Some data =>
      if no_keys data then (db, Failure 400 "No data provided") else
      let title := strip (get_or (d_title data) "") in
      if empty_str title then (db, Failure 400 "Title is required") else
      let task_type := strip (get_or (d_task_type data) "") in
      if empty_str task_type then (db, Failure 400 "Task type is required") else
      let prompt_text := strip (get_or (d_prompt_text data) "") in
      if empty_str prompt_text then (db, Failure 400 "Prompt text is required") else
      let tag_ids := get_or (d_tags data) [] in
      let prompt :=
        {| p_id := next_id (map p_id (prompts db));
           p_user_id := user_id;
           p_title := title;
           p_description := strip (get_or (d_description data) "");
           p_task_type := task_type;
           p_domain := or_none (strip (get_or (d_domain data) ""));
           p_is_public := get_or (d_is_public data) false;
           p_tags := match tag_ids with
                     | [] => []
                     | _ => tags_in db tag_ids
                     end |} in
      let version :=
        {| v_id := next_id (map v_id (prompt_versions db));
           v_prompt_id := p_id prompt;
           v_version_number := 1;
           v_prompt_text := prompt_text;
           v_change_notes := "Initial version";
           v_is_current := true;
           v_created_at := now |} in
      let db :=
        {| prompts := prompts db ++ [prompt];
           prompt_versions := prompt_versions db ++ [version];
           prompt_evaluations := prompt_evaluations db;
           prompt_tags := prompt_tags db |} in
      (db, Success 201
             {| cb_message := "Prompt created successfully";
                cb_prompt := prompt_to_dict db true prompt |})
  end.

Record UpdateBody : Type := {
  ub_message : string;
  ub_prompt : PromptDict;
  ub_new_version : option VersionDict
}.

(** The metadata assignments at the head of [update_prompt]. *)
Definition update_metadata (db : DB) (data : PromptData) (prompt : Prompt)
  : Prompt :=
  {| p_id := p_id prompt;
     p_user_id := p_user_id prompt;
     p_title := match d_title data with
                | Some t => strip t
                | None => p_title prompt
                end;
     p_description := match d_description data with
                      | Some t => strip t
                      | None => p_description prompt
                      end;
     p_task_type := match d_task_type data with
                    | Some t => strip t
                    | None => p_task_type prompt
                    end;
     p_domain := match d_domain data with
                 | Some t => or_none (strip t)
                 | None => p_domain prompt
                 end;
     p_is_public := match d_is_public data with
                    | Some b => b
                    | None => p_is_public prompt
                    end;
     p_tags := match d_tags data with
               | Some tag_ids => tags_in db tag_ids
               | None => p_tags prompt
               end |}.

Definition save_prompt (prompt : Prompt) (ps : list Prompt) : list Prompt :=
  map (fun p => if p_id p =? p_id prompt then prompt else p) ps.

(** The versioning block of [update_prompt]: the new table of versions and
    the version created, if any. *)
Definition new_version_if_changed (now : Z) (data : PromptData)
    (db : DB) (prompt : Prompt) : DB * option PromptVersion :=
  match d_prompt_text data with
  | Some text =>
      if empty_str (strip text) then (db, None) else
      let current := get_current_version db prompt in
      let changed :=
        match current with
        | None => true
        | Some c => negb (String.eqb (v_prompt_text c) (strip text))
        end in
      if changed then
        (* mark the old version as not current *)
        let db :=
          match current with
          | Some c =>
              with_versions db (set_is_current (v_id c) false (prompt_versions db))
          | None => db
          end in
        (* next version number *)
        let latest := get_latest_version db prompt in
        let next_version :=
          match latest with
          | Some l => v_version_number l + 1
          | None => 1
          end in
        let new_version :=
          {| v_id := next_id (map v_id (prompt_versions db));
             v_prompt_id := p_id prompt;
             v_version_number := next_version;
             v_prompt_text := strip text;
             v_change_notes :=
               get_or (d_change_notes data)
                      ("Version " ++ str_int next_version)%string;
             v_is_current := true;
             v_created_at := now |} in
        (with_versions db (prompt_versions db ++ [new_version]),
         Some new_version)
      else (db, None)
  | None => (db, None)
  end.

Definition update_prompt (now user_id prompt_id : Z) (data : PromptData)
    (db : DB) : DB * Response UpdateBody :=
  match get_prompt_of_user db prompt_id user_id with
  | None => (db, Failure 404 "Prompt not found")
  | Some prompt =>
      let prompt := update_metadata db data prompt in
      let db := with_prompts db (save_prompt prompt (prompts db)) in
      let '(db, new_version) := new_version_if_changed now data db prompt in
      (db, Success 200
             {| ub_message := "Prompt updated successfully";
                ub_prompt := prompt_to_dict db true prompt;
                ub_new_version :=
                  option_map (version_to_dict db true) new_version |})
  end.

Definition delete_prompt (user_id prompt_id : Z) (db : DB)
  : DB * Response string :=
  match get_prompt_of_user db prompt_id user_id with
  | None => (db, Failure 404 "Prompt not found")
  | Some prompt =>
      (delete_prompt_row db (p_id prompt),
       Success 200 "Prompt deleted successfully")
  end.

(** ** routes/versions.py *)

Record SetCurrentBody : Type := {
  sb_message : string;
  sb_version : VersionDict
}.

Definition set_current_version (user_id version_id : Z) (db : DB)
  : DB * Response SetCurrentBody :=
  match get_version db version_id with
  | None => (db, Failure 404 "Version not found")
  | Some version =>
      match prompt_of db version with
      | None =>
          (* [prompt.user_id] on [None]: caught, rolled back *)
          (db, Failure 500 "Failed to update version. Please try again.")
      | Some prompt =>
          if negb (p_user_id prompt =? user_id)
          then (db, Failure 403 "Access denied") else
          (* unset all versions of this prompt *)
          let vs := unset_current_of (p_id prompt) (prompt_versions db) in
          (* set this version as current *)
          let vs := set_is_current (v_id version) true vs in
          let db := with_versions db vs in
          let version := with_is_current true version in
          (db, Success 200
                 {| sb_message :=
                      ("Version " ++ str_int (v_version_number version)
                       ++ " is now the current version")%string;
                    sb_version := version_to_dict db true version |})
      end
  end.

Definition delete_version (user_id version_id : Z) (db : DB)
  : DB * Response string :=
  match get_version db version_id with
  | None => (db, Failure 404 "Version not found")
  | Some version =>
      match prompt_of db version with
      | None =>
          (db, Failure 500 "Failed to delete version. Please try again.")
      | Some prompt =>
          if negb (p_user_id prompt =? user_id)
          then (db, Failure 403 "Access denied") else
          let version_count := count (versions_of db (p_id prompt)) in
          if version_count <=? 1
          then (db, Failure 400
                      "Cannot delete the only version. Delete the prompt instead.")
          else
          let was_current := v_is_current version in
          let version_number := v_version_number version in
          let db := delete_version_row db version_id in
          let db :=
            if was_current then
              (* the latest remaining version becomes current *)
              let new_current :=
                first (order_by_desc v_version_number
                         (filter (fun v => negb (v_id v =? version_id))
                                 (versions_of db (p_id prompt)))) in
              match new_current with
              | Some nc =>
                  with_versions db
                    (set_is_current (v_id nc) true (prompt_versions db))
              | None => db
              end
            else db in
          (db, Success 200
                 ("Version " ++ str_int version_number
                  ++ " deleted successfully")%string)
      end
  end.

(** ** routes/evaluation.py *)

Section Evaluation.

Variable libs : AiEngine.TextLibs.

(** The row built from the result dictionary of the engine. *)
Definition new_evaluation (now : Z) (db : DB) (version : PromptVersion)
    (result : AiEngine.EvaluationResult) : PromptEvaluation :=
  {| e_id := next_id (map e_id (prompt_evaluations db));
     e_version_id := v_id version;
     e_clarity_score := hundredths (AiEngine.clarity_score result);
     e_relevance_score := hundredths (AiEngine.relevance_score result);
     e_length_score := hundredths (AiEngine.length_score result);
     e_final_score := hundredths (AiEngine.final_score result);
     e_evaluation_notes := AiEngine.evaluation_notes result;
     e_evaluated_at := now |}.

Record EvaluateBody : Type := {
  eb_message : string;
  eb_evaluation : PromptEvaluation;
  eb_details : AiEngine.Details;
  eb_suggestions : list string;
  eb_version : VersionDict
}.

Definition evaluate_version (now user_id version_id : Z) (db : DB)
  : DB * Response EvaluateBody :=
  match get_version db version_id with
  | None => (db, Failure 404 "Version not found")
  | Some version =>
      match prompt_of db version with
      | None => (db, Failure 500 "Internal Server Error")
      | Some prompt =>
          if negb (p_user_id prompt =? user_id)
          then (db, Failure 403 "Access denied") else
          match AiEngine.evaluate_prompt libs (v_prompt_text version)
                  (Some (p_task_type prompt)) (p_domain prompt) with
          | Raise _ =>
              (db, Failure 500 "Evaluation failed. Please try again.")
          | Ok result =>
              let suggestions :=
                AiEngine.get_suggestions result (v_prompt_text version) in
              let evaluation := new_evaluation now db version result in
              let db :=
                with_evaluations db (prompt_evaluations db ++ [evaluation]) in
              (db, Success 200
                     {| eb_message := "Evaluation completed";
                        eb_evaluation := evaluation;
                        eb_details := AiEngine.details result;
                        eb_suggestions := suggestions;
                        eb_version := version_to_dict db false version |})
          end
      end
  end.

(** The loop of [evaluate_all_versions]: versions that have no evaluation
    yet get one; an exception abandons the whole request. *)
Fixpoint evaluate_missing (now : Z) (prompt : Prompt)
    (versions : list PromptVersion) (db : DB)
    (evaluations : list PromptEvaluation)
  : exc (DB * list PromptEvaluation) :=
  match versions with
  | [] => Ok (db, evaluations)
  | version :: rest =>
      match get_latest_evaluation db version with
      | Some _ => evaluate_missing now prompt rest db evaluations
      | None =>
          (result <- AiEngine.evaluate_prompt libs (v_prompt_text version)
                       (Some (p_task_type prompt)) (p_domain prompt) ;;
           let evaluation := new_evaluation now db version result in
           evaluate_missing now prompt rest
             (with_evaluations db (prompt_evaluations db ++ [evaluation]))
             (evaluations ++ [evaluation]))%exc
      end
  end.

Definition evaluate_all_versions (now user_id prompt_id : Z) (db : DB)
  : DB * Response (list PromptEvaluation) :=
  match get_prompt_of_user db prompt_id user_id with
  | None => (db, Failure 404 "Prompt not found")
  | Some prompt =>
      match evaluate_missing now prompt
              (order_by_desc v_version_number (versions_of db (p_id prompt)))
              db [] with
      | Raise e => (db, Failure 500 ("Evaluation failed: " ++ e)%string)
      | Ok (db, evaluations) => (db, Success 200 evaluations)
      end
  end.

End Evaluation.

(** *** Recommendation

    [join(PromptVersion).filter(PromptVersion.prompt_id == prompt_id)]:
    the evaluations whose version belongs to the prompt. *)
Definition evaluations_of_prompt (db : DB) (prompt_id : Z)
  : list PromptEvaluation :=
  filter (fun e =>
            existsb (fun v => (v_id v =? e_version_id e) &&
                              (v_prompt_id v =? prompt_id))
                    (prompt_versions db))
         (prompt_evaluations db).

Record AlternativeDict : Type := {
  ad_version_number : Z;
  ad_final_score : Z;
  ad_version_id : Z
}.

Record RecommendBody : Type := {
  rb_version : VersionDict;
  rb_evaluation : PromptEvaluation;
  rb_is_current : bool;
  rb_alternatives : list AlternativeDict;
  rb_prompt : Prompt
}.

Section Recommendation.

(** SQL leaves the relative order of rows with equal sort keys to the
    store. [row_order] is the order in which the store feeds the rows of a
    query to the sort; the handlers are read for every such order. *)
Variable row_order : list PromptEvaluation -> list PromptEvaluation.

(** [.order_by(PromptEvaluation.final_score.desc())] *)
Definition by_final_score_desc (rows : list PromptEvaluation)
  : list PromptEvaluation :=
  order_by_desc e_final_score (row_order rows).

(** The first query of [get_recommendation]. *)
Definition best_evaluation (db : DB) (prompt_id : Z)
  : option PromptEvaluation :=
  first (by_final_score_desc (evaluations_of_prompt db prompt_id)).

(** The second query of [get_recommendation]. *)
Definition alternative_evaluations (db : DB) (prompt_id : Z)
    (best : PromptEvaluation) : list PromptEvaluation :=
  firstn 5
    (by_final_score_desc
       (filter (fun e => negb (e_id e =? e_id best))
               (evaluations_of_prompt db prompt_id))).

(** [{'version_number': e.version.version_number, ...} for e in alternatives];
    an evaluation without a version would raise. *)
Fixpoint alternative_dicts (db : DB) (alternatives : list PromptEvaluation)
  : exc (list AlternativeDict) :=
  match alternatives with
  | [] => Ok []
  | e :: rest =>
      match version_of db e with
      | None => Raise "AttributeError"
      | Some v =>
          (ds <- alternative_dicts db rest ;;
           Ok ({| ad_version_number := v_version_number v;
                  ad_final_score := e_final_score e;
                  ad_version_id := e_version_id e |} :: ds))%exc
      end
  end.

Definition get_recommendation (user_id prompt_id : Z) (db : DB)
  : Response RecommendBody :=
  match get_prompt_of_user db prompt_id user_id with
  | None => Failure 404 "Prompt not found"
  | Some prompt =>
      match best_evaluation db prompt_id with
      | None =>
          Failure 404 "No evaluations found. Please evaluate versions first."
      | Some best =>
          let alternatives := alternative_evaluations db prompt_id best in
          match version_of db best, alternative_dicts db alternatives with
          | Some version, Ok alts =>
              Success 200
                {| rb_version := version_to_dict db false version;
                   rb_evaluation := best;
                   rb_is_current := v_is_current version;
                   rb_alternatives := alts;
                   rb_prompt := prompt |}
          | _, _ => Failure 500 "Internal Server Error"
          end
      end
  end.

End Recommendation.

(** ** Requests and runs *)

Inductive Request : Type :=
| CreatePrompt (user_id : Z) (data : option PromptData)
| UpdatePrompt (user_id prompt_id : Z) (data : PromptData)
| DeletePrompt (user_id prompt_id : Z)
| SetCurrentVersion (user_id version_id : Z)
| DeleteVersion (user_id version_id : Z)
| EvaluateVersion (user_id version_id : Z)
| EvaluateAllVersions (user_id prompt_id : Z).

(** The database after one request received at time [now]. *)
Definition handle (libs : AiEngine.TextLibs) (now : Z) (r : Request)
    (db : DB) : DB :=
  match r with
  | CreatePrompt u data => fst (create_prompt now u data db)
  | UpdatePrompt u pid data => fst (update_prompt now u pid data db)
  | DeletePrompt u pid => fst (delete_prompt u pid db)
  | SetCurrentVersion u vid => fst (set_current_version u vid db)
  | DeleteVersion u vid => fst (delete_version u vid db)
  | EvaluateVersion u vid => fst (evaluate_version libs now u vid db)
  | EvaluateAllVersions u pid => fst (evaluate_all_versions libs now u pid db)
  end.

(** The database after a sequence of timed requests. *)
Fixpoint run (libs : AiEngine.TextLibs) (rs : list (Z * Request)) (db : DB)
  : DB :=
  match rs with
  | [] => db
  | (now, r) :: rest => run libs rest (handle libs now r db)
  end.

End Routes.


(* ===================================================================== *)
(** * The read-only handlers                                             *)
(* ===================================================================== *)

Module Reads.

Import Models Routes.

(** ** routes/versions.py *)

Record ListVersionsBody : Type := {
  lv_prompt_id : Z;
  lv_prompt_title : string;
  lv_versions : list VersionDict;
  lv_total : Z
}.

Definition list_versions (user_id prompt_id : Z) (db : DB)
  : Response ListVersionsBody :=
  match get_prompt_of_user db prompt_id user_id with
  | None => Failure 404 "Prompt not found"
  | Some prompt =>
      let versions :=
        order_by_desc v_version_number (versions_of db prompt_id) in
      Success 200
        {| lv_prompt_id := prompt_id;
           lv_prompt_title := p_title prompt;
           lv_versions := map (version_to_dict db true) versions;
           lv_total := count versions |}
  end.

Record GetVersionBody : Type := {
  gv_version : VersionDict;
  gv_prompt : PromptDict
}.

Definition get_version (user_id version_id : Z) (db : DB)
  : Response GetVersionBody :=
  match Models.get_version db version_id with
  | None => Failure 404 "Version not found"
  | Some version =>
      match prompt_of db version with
      | None => Failure 500 "Internal Server Error"
      | Some prompt =>
          if negb (p_user_id prompt =? user_id)
          then Failure 403 "Access denied"
          else Success 200
                 {| gv_version := version_to_dict db true version;
                    gv_prompt := prompt_to_dict db false prompt |}
      end
  end.

(** [set(text.split())]: the distinct words, each once. *)
Definition word_set (text : string) : list string :=
  nodup string_dec (split text).

(** [w in s] for a set of words. *)
Definition in_set (s : list string) (w : string) : bool :=
  existsb (String.eqb w) s.

(** [len(a - b)] and [len(a & b)] *)
Definition difference_size (a b : list string) : Z :=
  count (filter (fun w => negb (in_set b w)) a).

Definition intersection_size (a b : list string) : Z :=
  count (filter (in_set b) a).

Record DiffDict : Type := {
  words_added : Z;
  words_removed : Z;
  words_unchanged : Z;
  length_change : Z
}.

Record CompareBody : Type := {
  cmp_version1 : VersionDict;
  cmp_version2 : VersionDict;
  cmp_diff : DiffDict
}.

(** [not x] for an optional integer query parameter: missing, or zero. *)
Definition missing_id (x : option Z) : bool :=
  match x with
  | None => true
  | Some n => n =? 0
  end.

Definition compare_versions (user_id : Z) (version1 version2 : option Z)
    (db : DB) : Response CompareBody :=
  if missing_id version1 || missing_id version2
  then Failure 400 "Both version1 and version2 are required" else
  match version1, version2 with
  | Some version1_id, Some version2_id =>
      match Models.get_version db version1_id,
            Models.get_version db version2_id with
      | Some v1, Some v2 =>
          match prompt_of db v1, prompt_of db v2 with
          | Some p1, Some p2 =>
              if negb (p_user_id p1 =? user_id) || negb (p_user_id p2 =? user_id)
              then Failure 403 "Access denied" else
              if negb (v_prompt_id v1 =? v_prompt_id v2)
              then Failure 400 "Versions must be from the same prompt" else
              let text1_words := word_set (v_prompt_text v1) in
              let text2_words := word_set (v_prompt_text v2) in
              Success 200
                {| cmp_version1 := version_to_dict db true v1;
                   cmp_version2 := version_to_dict db true v2;
                   cmp_diff :=
                     {| words_added := difference_size text2_words text1_words;
                        words_removed := difference_size text1_words text2_words;
                        words_unchanged :=
                          intersection_size text1_words text2_words;
                        length_change :=
                          len (v_prompt_text v2) - len (v_prompt_text v1) |} |}
          | _, _ => Failure 500 "Internal Server Error"
          end
      | _, _ => Failure 404 "One or both versions not found"
      end
  | _, _ => Failure 400 "Both version1 and version2 are required"
  end.

(** ** routes/prompts.py *)

Definition get_prompt (user_id prompt_id : Z) (db : DB)
  : Response PromptDict :=
  match get_prompt_of_user db prompt_id user_id with
  | None => Failure 404 "Prompt not found"
  | Some prompt => Success 200 (prompt_to_dict db true prompt)
  end.

(** ** routes/evaluation.py *)

Record VersionEvaluationBody : Type := {
  ve_evaluation : option PromptEvaluation;
  ve_message : option string;
  ve_version : VersionDict
}.

Definition get_version_evaluation (user_id version_id : Z) (db : DB)
  : Response VersionEvaluationBody :=
  match Models.get_version db version_id with
  | None => Failure 404 "Version not found"
  | Some version =>
      match prompt_of db version with
      | None => Failure 500 "Internal Server Error"
      | Some prompt =>
          if negb (p_user_id prompt =? user_id)
          then Failure 403 "Access denied" else
          match get_latest_evaluation db version with
          | None =>
              Success 200
                {| ve_evaluation := None;
                   ve_message := Some "No evaluation exists for this version";
                   ve_version := version_to_dict db false version |}
          | Some evaluation =>
              Success 200
                {| ve_evaluation := Some evaluation;
                   ve_message := None;
                   ve_version := version_to_dict db false version |}
          end
      end
  end.

Record RankedEvaluation : Type := {
  re_evaluation : PromptEvaluation;
  re_version_number : Z;
  re_prompt_text_preview : string
}.

(** [text[:n]]: the first [n] characters. As in [len], a character is a
    byte that is no UTF-8 continuation byte, with the continuation bytes
    that follow it. *)
Fixpoint slice_to (n : nat) (text : string) : string :=
  match text with
  | EmptyString => EmptyString
  | String c t =>
      if (128 <=? code c) && (code c <? 192) then String c (slice_to n t)
      else match n with
           | O => EmptyString
           | S m => String c (slice_to m t)
           end
  end.

(** [text[:100] + '...' if len(text) > 100 else text] *)
Definition preview (text : string) : string :=
  if 100 <? len text
  then (slice_to 100 text ++ "...")%string
  else text.

Fixpoint ranked (db : DB) (evaluations : list PromptEvaluation)
  : exc (list RankedEvaluation) :=
  match evaluations with
  | [] => Ok []
  | e :: rest =>
      match version_of db e with
      | None => Raise "AttributeError"
      | Some v =>
          (rs <- ranked db rest ;;
           Ok ({| re_evaluation := e;
                  re_version_number := v_version_number v;
                  re_prompt_text_preview := preview (v_prompt_text v) |}
               :: rs))%exc
      end
  end.

Record EvaluationsBody : Type := {
  ev_prompt_id : Z;
  ev_prompt_title : string;
  ev_evaluations : list RankedEvaluation
}.

Definition get_evaluations
    (row_order : list PromptEvaluation -> list PromptEvaluation)
    (user_id prompt_id : Z) (db : DB) : Response EvaluationsBody :=
  match get_prompt_of_user db prompt_id user_id with
  | None => Failure 404 "Prompt not found"
  | Some prompt =>
      let evaluations :=
        by_final_score_desc row_order (evaluations_of_prompt db prompt_id) in
      match ranked db evaluations with
      | Raise _ => Failure 500 "Internal Server Error"
      | Ok rows =>
          Success 200
            {| ev_prompt_id := prompt_id;
               ev_prompt_title := p_title prompt;
               ev_evaluations := rows |}
      end
  end.

(** The JSON object of a quick evaluation request. *)
Record QuickData : Type := {
  q_prompt_text : option string;
  q_task_type : option string;
  q_domain : option string
}.

Record QuickScores : Type := {
  qs_clarity_score : float;
  qs_relevance_score : float;
  qs_length_score : float;
  qs_final_score : float;
  qs_notes : string
}.

Record QuickBody : Type := {
  qb_evaluation : QuickScores;
  qb_details : AiEngine.Details;
  qb_suggestions : list string
}.

Definition quick_evaluate (libs : AiEngine.TextLibs) (data : option QuickData)
  : Response QuickBody :=
  match data with
  | None => Failure 400 "prompt_text is required"
  | Some data =>
      match q_prompt_text data with
      | None => Failure 400 "prompt_text is required"
      | Some text =>
          if empty_str text then Failure 400 "prompt_text is required" else
          match AiEngine.evaluate_prompt libs text
                  (q_task_type data) (q_domain data) with
          | Raise _ => Failure 500 "Internal Server Error"
          | Ok result =>
              Success 200
                {| qb_evaluation :=
                     {| qs_clarity_score := AiEngine.clarity_score result;
                        qs_relevance_score := AiEngine.relevance_score result;
                        qs_length_score := AiEngine.length_score result;
                        qs_final_score := AiEngine.final_score result;
                        qs_notes := AiEngine.evaluation_notes result |};
                   qb_details := AiEngine.details result;
                   qb_suggestions :=
                     AiEngine.get_suggestions result text |}
          end
      end
  end.

End Reads.

(* ===================================================================== *)
(** * Properties of the store                                            *)
(* ===================================================================== *)

Module Invariants.

Import Models Routes.

(** The constraints the schema puts on [prompt_versions]: [id] is the
    primary key, and [prompt_id] refers to a row of [prompts]. *)
Record well_formed (db : DB) : Prop := {
  version_ids_unique : NoDup (map v_id (prompt_versions db));
  version_prompt_exists :
    incl (map v_prompt_id (prompt_versions db)) (map p_id (prompts db))
}.

(** The rows of a version table that belong to a prompt, and those of
    them that are marked current. *)
Definition versions_in (pid : Z) (vs : list PromptVersion)
  : list PromptVersion :=
  filter (fun v => v_prompt_id v =? pid) vs.

Definition currents_in (pid : Z) (vs : list PromptVersion)
  : list PromptVersion :=
  filter v_is_current (versions_in pid vs).

(** The single-current property, on a version table. *)
Definition single_current_in (vs : list PromptVersion) : Prop :=
  forall pid, In pid (map v_prompt_id vs) ->
              List.length (currents_in pid vs) = 1%nat.

(** The table after [delete_version] has removed the row [v]. *)
Definition after_delete (v : PromptVersion) (vs : list PromptVersion)
  : list PromptVersion :=
  let rest := filter (fun x => negb (v_id x =? v_id v)) vs in
  if v_is_current v then
    match first (order_by_desc v_version_number
                   (filter (fun x => negb (v_id x =? v_id v))
                           (versions_in (v_prompt_id v) rest))) with
    | Some nc => set_is_current (v_id nc) true rest
    | None => rest
    end
  else rest.

(** The versions of a prompt that are marked current. *)
Definition current_versions (db : DB) (prompt_id : Z) : list PromptVersion :=
  filter v_is_current (versions_of db prompt_id).

(** Every prompt that has a version has exactly one current version. *)
Definition single_current (db : DB) : Prop :=
  forall prompt_id,
    versions_of db prompt_id <> [] ->
    List.length (current_versions db prompt_id) = 1%nat.

(** The same, as a test on the prompts a table mentions. *)
Definition single_currentb (db : DB) : bool :=
  forallb (fun v => (List.length (current_versions db (v_prompt_id v)) =? 1)%nat)
          (prompt_versions db).

(** The schema constraints, as a test. *)
Fixpoint distinct (l : list Z) : bool :=
  match l with
  | [] => true
  | x :: t => negb (existsb (Z.eqb x) t) && distinct t
  end.

Definition well_formedb (db : DB) : bool :=
  distinct (map v_id (prompt_versions db)) &&
  forallb (fun pid => existsb (Z.eqb pid) (map p_id (prompts db)))
          (map v_prompt_id (prompt_versions db)).

(** The (prompt, version number) pairs of a version table, row by row. *)
Definition numbers (vs : list PromptVersion) : list (Z * Z) :=
  map (fun v => (v_prompt_id v, v_version_number v)) vs.

(** What identifies a stored version and is never written again: its key,
    its prompt and its number. *)
Definition row_identity (v : PromptVersion) : Z * Z * Z :=
  (v_id v, v_prompt_id v, v_version_number v).

(** A key the store can hold. The routes take their keys through the
    [int] converter, which accepts no sign; an INTEGER column ends at
    2^63 - 1, and the driver refuses a larger key before any row is
    looked up. *)
Definition key_in_range (id : Z) : Prop := 0 <= id < 2 ^ 63.

(** [vs'] still holds, for each version of prompt [pid] in [vs], a version
    of that prompt with a number at least as large. *)
Definition dominated (pid : Z) (vs vs' : list PromptVersion) : Prop :=
  forall v, In v vs -> v_prompt_id v = pid ->
    exists v', In v' vs' /\ v_prompt_id v' = pid /\
               v_version_number v <= v_version_number v'.

(** [v] is a version of prompt [pid] and no version of [pid] in [db]
    carries a higher number. *)
Definition highest_numbered (db : DB) (pid : Z) (v : PromptVersion) : bool :=
  (v_prompt_id v =? pid) &&
  forallb (fun w => v_version_number w <=? v_version_number v)
          (versions_of db pid).

(** The row with the key of [v] is in [db]. *)
Definition still_stored (db : DB) (v : PromptVersion) : bool :=
  existsb (fun w => v_id w =? v_id v) (prompt_versions db).

(** Going from [db] to [db'] deleted no highest-numbered version of
    prompt [pid] (deleting the prompt deletes its versions with it). A
    request that is refused, or that deletes something else, passes. *)
Definition keeps_latest_version (pid : Z) (db db' : DB) : bool :=
  forallb (fun v => negb (highest_numbered db pid v) || still_stored db' v)
          (prompt_versions db).

(** No request of the run deleted the highest-numbered version that
    prompt [pid] had when the request arrived. *)
Fixpoint keep_latest_version (libs : AiEngine.TextLibs) (pid : Z)
    (rs : list (Z * Request)) (db : DB) : bool :=
  match rs with
  | [] => true
  | (now, r) :: rest =>
      keeps_latest_version pid db (handle libs now r db) &&
      keep_latest_version libs pid rest (handle libs now r db)
  end.

(** The choice of the best evaluation as the specification words it: the
    highest final score; among equal scores the most recent evaluation;
    among those the highest version number. [spec_no_better db e best]:
    by these rules [e] does not come before [best]. *)
Definition version_number_of (db : DB) (e : PromptEvaluation) : Z :=
  match version_of db e with
  | Some v => v_version_number v
  | None => 0
  end.

Definition spec_no_better (db : DB) (e best : PromptEvaluation) : Prop :=
  e_final_score e < e_final_score best \/
  (e_final_score e = e_final_score best /\
   (e_evaluated_at e < e_evaluated_at best \/
    (e_evaluated_at e = e_evaluated_at best /\
     version_number_of db e <= version_number_of db best))).

Definition spec_best (db : DB) (prompt_id : Z) (best : PromptEvaluation)
  : Prop :=
  In best (evaluations_of_prompt db prompt_id) /\
  forall e, In e (evaluations_of_prompt db prompt_id) ->
            spec_no_better db e best.

(** What every handler keeps. *)
Definition invariant (db : DB) : Prop := well_formed db /\ single_current db.

End Invariants.

(* ===================================================================== *)
(** * Further properties of the engine and of the store                  *)
(* ===================================================================== *)

Module Properties.

Import Models Routes.

(** A score lies between 0 and 100. *)
Definition in_bounds (score : float) : Prop :=
  (0 <=? score)%float = true /\ (score <=? 100)%float = true.

(** [tag and tag.lower() in table]: the tag is a non-empty string whose
    lower-case form is a key of the table. *)
Definition recognised (table : list (string * list string))
    (tag : option string) : bool :=
  match tag with
  | Some t =>
      negb (empty_str t) &&
      existsb (fun name => String.eqb name (lower t)) (map fst table)
  | None => false
  end.

(** The three weights [evaluate] looks up. *)
Definition has_weights (self : AiEngine.PromptEvaluator) : bool :=
  match AiEngine.dict_get (AiEngine.weights self) "clarity",
        AiEngine.dict_get (AiEngine.weights self) "relevance",
        AiEngine.dict_get (AiEngine.weights self) "length" with
  | Some _, Some _, Some _ => true
  | _, _, _ => false
  end.

(** Every evaluation belongs to a version of the store. *)
Definition evaluations_have_versions (db : DB) : Prop :=
  incl (map e_version_id (prompt_evaluations db))
       (map v_id (prompt_versions db)).

(** The constraint [unique_version_per_prompt]: no two versions carry the
    same (prompt_id, version_number). *)
Definition version_numbers_unique (db : DB) : Prop :=
  NoDup (Invariants.numbers (prompt_versions db)).

(** Every prompt has a version. *)
Definition every_prompt_has_version (db : DB) : Prop :=
  incl (map p_id (prompts db)) (map v_prompt_id (prompt_versions db)).

(** The user who sends a request. *)
Definition caller (r : Request) : Z :=
  match r with
  | CreatePrompt u _ | UpdatePrompt u _ _ | DeletePrompt u _
  | SetCurrentVersion u _ | DeleteVersion u _ | EvaluateVersion u _
  | EvaluateAllVersions u _ => u
  end.

(** The prompt a request is about: the one it names, or the one of the
    version it names. *)
Definition target_prompt (db : DB) (r : Request) : option Z :=
  match r with
  | CreatePrompt _ _ => None
  | UpdatePrompt _ pid _ | DeletePrompt _ pid | EvaluateAllVersions _ pid =>
      Some pid
  | SetCurrentVersion _ vid | DeleteVersion _ vid | EvaluateVersion _ vid =>
      option_map v_prompt_id (get_version db vid)
  end.

(** User [u] owns a prompt with key [pid]. *)
Definition owns (db : DB) (u pid : Z) : bool :=
  existsb (fun p => (p_id p =? pid) && (p_user_id p =? u)) (prompts db).

(** The status code a request is answered with. *)
Definition reply_status (libs : AiEngine.TextLibs) (now : Z) (r : Request)
    (db : DB) : Z :=
  match r with
  | CreatePrompt u data => status_of (snd (create_prompt now u data db))
  | UpdatePrompt u pid data =>
      status_of (snd (update_prompt now u pid data db))
  | DeletePrompt u pid => status_of (snd (delete_prompt u pid db))
  | SetCurrentVersion u vid =>
      status_of (snd (set_current_version u vid db))
  | DeleteVersion u vid => status_of (snd (delete_version u vid db))
  | EvaluateVersion u vid =>
      status_of (snd (evaluate_version libs now u vid db))
  | EvaluateAllVersions u pid =>
      status_of (snd (evaluate_all_versions libs now u pid db))
  end.

(** What [create_prompt] and [update_prompt] store as the text of a
    version: a non-empty string with no white space at either end. *)
Definition stripped_text (text : string) : Prop :=
  text <> "" /\ strip text = text.

Definition texts_stripped (db : DB) : Prop :=
  Forall stripped_text (map v_prompt_text (prompt_versions db)).

(** [version.get_latest_evaluation()] is not [None]. *)
Definition evaluated (db : DB) (v : PromptVersion) : bool :=
  match get_latest_evaluation db v with
  | Some _ => true
  | None => false
  end.

(** The versions of a prompt as [evaluate_all_versions] walks them. *)
Definition versions_newest_first (db : DB) (pid : Z) : list PromptVersion :=
  order_by_desc v_version_number (versions_of db pid).

End Properties.

(* ===================================================================== *)
(** * Concrete requests and stores                                       *)
(* ===================================================================== *)

Module Scenarios.

Import Models Routes.

(** Text libraries for concrete runs: a readability estimator that raises
    on every text, and a flat sentiment. *)
Definition plain_libs : AiEngine.TextLibs :=
  {| AiEngine.textstat_flesch_reading_ease := fun _ => Raise "ZeroDivisionError";
     AiEngine.textstat_text_standard := fun _ => Raise "ZeroDivisionError";
     AiEngine.textblob_sentiment := fun _ => (0%float, 0%float) |}.

Definition no_data : PromptData :=
  {| d_title := None; d_description := None; d_task_type := None;
     d_domain := None; d_prompt_text := None; d_change_notes := None;
     d_is_public := None; d_tags := None |}.

(** The body of a create request. *)
Definition new_prompt (title task_type domain text : string) : PromptData :=
  {| d_title := Some title; d_description := None;
     d_task_type := Some task_type; d_domain := Some domain;
     d_prompt_text := Some text; d_change_notes := None;
     d_is_public := None; d_tags := None |}.

(** The body of an update request that carries a text only. *)
Definition new_text (text : string) : PromptData :=
  {| d_title := None; d_description := None; d_task_type := None;
     d_domain := None; d_prompt_text := Some text; d_change_notes := None;
     d_is_public := None; d_tags := None |}.

Definition alice : Z := 7.
Definition bob : Z := 8.

(** Alice creates a prompt (version 1) and changes its text (version 2,
    current). *)
Definition two_versions : DB :=
  run plain_libs
    [(1, CreatePrompt alice
           (Some (new_prompt "Helper" "generation" "coding" "Write a function.")));
     (2, UpdatePrompt alice 1 (new_text "Write a Python function."))]
    empty_db.

(** Bob creates a prompt with a single version. *)
Definition one_version : DB :=
  run plain_libs
    [(1, CreatePrompt bob
           (Some (new_prompt "Summary" "summarization" "" "Summarize the report.")))]
    empty_db.

(** Alice's two versions score alike; version 1 is evaluated at time 3,
    version 2 at time 4. *)
Definition tied : DB :=
  run plain_libs
    [(1, CreatePrompt alice
           (Some (new_prompt "Helper" "generation" "coding" "Write a function.")));
     (2, UpdatePrompt alice 1 (new_text "Write a function!"));
     (3, EvaluateVersion alice 1);
     (4, EvaluateVersion alice 2)]
    empty_db.

(** Bob's only version is evaluated twice. *)
Definition evaluated_twice : DB :=
  run plain_libs
    [(2, EvaluateVersion bob 1); (3, EvaluateVersion bob 1)]
    one_version.

(** Rows reach the sort in primary-key order. *)
Definition key_order (rows : list PromptEvaluation) : list PromptEvaluation :=
  rows.

End Scenarios.
(* ===================================================================== *)
(** * Facts about the query building blocks                              *)
(* ===================================================================== *)

Import Models Routes.

Section OrderBy.

Context {A : Type} (key : A -> Z).

Lemma insert_desc_perm (x : A) (l : list A) :
  Permutation (insert_desc key x l) (x :: l).
Proof.
  induction l as [|y ys IH]; simpl.
  - apply Permutation_refl.
  - destruct (key y <=? key x).
    + apply Permutation_refl.
    + eapply perm_trans; [apply perm_skip, IH | apply perm_swap].
Qed.

Lemma order_by_desc_perm (l : list A) :
  Permutation (order_by_desc key l) l.
Proof.
  induction l as [|x l IH]; simpl.
  - constructor.
  - eapply perm_trans; [apply insert_desc_perm | apply perm_skip, IH].
Qed.

Lemma order_by_desc_In (l : list A) (x : A) :
  In x (order_by_desc key l) <-> In x l.
Proof.
  split; apply Permutation_in;
    [apply order_by_desc_perm | apply Permutation_sym, order_by_desc_perm].
Qed.

Lemma insert_desc_sorted (x : A) (l : list A) :
  StronglySorted (desc key) l -> StronglySorted (desc key) (insert_desc key x l).
Proof.
  induction l as [|y ys IH]; simpl; intros Hs.
  - repeat constructor.
  - inversion Hs as [|? ? Hys Hall]; subst.
    destruct (key y <=? key x) eqn:E.
    + apply Z.leb_le in E. constructor; [exact Hs|].
      constructor; [exact E|].
      eapply Forall_impl; [|exact Hall]. unfold desc. intros; lia.
    + apply Z.leb_gt in E. constructor; [apply IH, Hys|].
      apply Forall_forall. intros z Hz.
      apply (Permutation_in _ (insert_desc_perm x ys)) in Hz.
      destruct Hz as [<-|Hz].
      * unfold desc; lia.
      * rewrite Forall_forall in Hall. apply Hall, Hz.
Qed.

Lemma order_by_desc_sorted (l : list A) :
  StronglySorted (desc key) (order_by_desc key l).
Proof.
  induction l as [|x l IH]; simpl.
  - constructor.
  - apply insert_desc_sorted, IH.
Qed.

(** The first row of a descending order carries the largest key. *)
Lemma first_order_by_desc (l : list A) (x : A) :
  first (order_by_desc key l) = Some x ->
  In x l /\ forall y, In y l -> key y <= key x.
Proof.
  intros H.
  pose proof (order_by_desc_sorted l) as Hs.
  destruct (order_by_desc key l) as [|h t] eqn:E; [discriminate|].
  injection H as ->.
  split.
  - apply order_by_desc_In. rewrite E. now left.
  - intros y Hy. apply order_by_desc_In in Hy. rewrite E in Hy.
    inversion Hs as [|? ? _ Hall]; subst.
    destruct Hy as [<-|Hy]; [lia|].
    rewrite Forall_forall in Hall. apply Hall, Hy.
Qed.

Lemma first_order_by_desc_none (l : list A) :
  first (order_by_desc key l) = None -> l = [].
Proof.
  intros H. destruct (order_by_desc key l) eqn:E; [|discriminate].
  pose proof (order_by_desc_perm l) as P. rewrite E in P.
  now apply Permutation_nil in P.
Qed.

Lemma firstn_sorted (R : A -> A -> Prop) (n : nat) (l : list A) :
  StronglySorted R l -> StronglySorted R (firstn n l).
Proof.
  revert l. induction n as [|n IH]; intros l Hs; simpl.
  - constructor.
  - destruct l as [|x l]; [constructor|].
    inversion Hs as [|? ? Hl Hall]; subst.
    constructor; [apply IH, Hl|].
    apply Forall_forall. intros y Hy.
    rewrite Forall_forall in Hall. apply Hall.
    eapply (In_nth_error) in Hy. destruct Hy as [i Hi].
    revert Hi. clear. revert l i.
    induction n as [|n IHn]; intros l i; simpl.
    + destruct i; discriminate.
    + destruct l as [|z l]; [destruct i; discriminate|].
      destruct i as [|i]; simpl.
      * intros [= ->]. now left.
      * intros Hi. right. eapply IHn, Hi.
Qed.

End OrderBy.

Lemma firstn_In {A} (n : nat) (l : list A) (x : A) :
  In x (firstn n l) -> In x l.
Proof.
  revert l. induction n as [|n IH]; intros [|y l]; simpl; try tauto.
  intros [->|H]; [now left | right; now apply IH].
Qed.

(** ** Keys *)

Lemma next_id_above (ids : list Z) (x : Z) :
  In x ids -> x < next_id ids.
Proof.
  intros H. unfold next_id.
  assert (x <= fold_right Z.max 0 ids); [|lia].
  induction ids as [|y ys IH]; [contradiction|].
  change (fold_right Z.max 0 (y :: ys)) with (Z.max y (fold_right Z.max 0 ys)).
  destruct H as [->|H]; [lia | specialize (IH H); lia].
Qed.

Lemma next_id_fresh (ids : list Z) : ~ In (next_id ids) ids.
Proof.
  intros H. apply next_id_above in H. lia.
Qed.

(** A selection of rows keeps the primary key a key. *)
Lemma NoDup_map_filter {A} (key : A -> Z) (keep : A -> bool) (rows : list A) :
  NoDup (map key rows) -> NoDup (map key (filter keep rows)).
Proof.
  intros Hkeys. induction rows as [|row rows IH]; [constructor|].
  cbn [map] in Hkeys. apply NoDup_cons_iff in Hkeys.
  destruct Hkeys as [Hrow Hrows]. cbn [filter].
  destruct (keep row); cbn [map]; [|now apply IH].
  apply NoDup_cons; [|now apply IH].
  intros Hin. apply Hrow.
  apply in_map_iff in Hin. destruct Hin as [other [Hother Hin]].
  apply filter_In in Hin. apply in_map_iff. exists other. tauto.
Qed.

(** A table with a primary key splits around any of its rows: the other
    rows carry other keys. *)
Lemma split_at_key {A} (f : A -> Z) (l : list A) (x : A) :
  NoDup (map f l) -> In x l ->
  exists l1 l2, l = l1 ++ x :: l2 /\
    (forall y, In y l1 -> f y <> f x) /\ (forall y, In y l2 -> f y <> f x).
Proof.
  intros Hnd Hin.
  destruct (in_split _ _ Hin) as [l1 [l2 ->]].
  exists l1, l2. split; [reflexivity|].
  rewrite map_app in Hnd. simpl in Hnd.
  apply NoDup_remove_2 in Hnd.
  split; intros y Hy E; apply Hnd, in_or_app;
    [left | right]; rewrite <- E; now apply in_map.
Qed.

(** A key names one row. *)
Lemma same_key_same_row (vs : list PromptVersion) v w :
  NoDup (map v_id vs) -> In v vs -> In w vs -> v_id v = v_id w -> v = w.
Proof.
  intros Hnd Hv Hw E.
  destruct (split_at_key v_id vs v Hnd Hv) as [l1 [l2 [-> [H1 H2]]]].
  apply in_app_or in Hw. destruct Hw as [Hw|[Hw|Hw]].
  - apply H1 in Hw. congruence.
  - now symmetry.
  - apply H2 in Hw. congruence.
Qed.

Lemma map_id_on {A} (g : A -> A) (l : list A) :
  (forall y, In y l -> g y = y) -> map g l = l.
Proof.
  intros H. induction l as [|x l IH]; simpl; [reflexivity|].
  rewrite H by now left. f_equal. apply IH. intros; apply H; now right.
Qed.

Lemma filter_all {A} (p : A -> bool) (l : list A) :
  (forall y, In y l -> p y = true) -> filter p l = l.
Proof.
  intros H. induction l as [|x l IH]; simpl; [reflexivity|].
  rewrite H by now left. f_equal. apply IH. intros; apply H; now right.
Qed.

Lemma filter_and {A} (p q : A -> bool) (l : list A) :
  filter (fun x => p x && q x) l = filter q (filter p l).
Proof.
  induction l as [|x l IH]; simpl; [reflexivity|].
  destruct (p x); simpl; [destruct (q x)|]; now rewrite IH.
Qed.

(* ===================================================================== *)
(** * The version table                                                  *)
(* ===================================================================== *)

Import Invariants.

Lemma currents_in_app pid l1 l2 :
  currents_in pid (l1 ++ l2) = currents_in pid l1 ++ currents_in pid l2.
Proof. unfold currents_in, versions_in. now rewrite !filter_app. Qed.

Lemma versions_in_app pid l1 l2 :
  versions_in pid (l1 ++ l2) = versions_in pid l1 ++ versions_in pid l2.
Proof. unfold versions_in. now rewrite !filter_app. Qed.

Lemma currents_in_cons pid v l :
  currents_in pid (v :: l) =
  (if (v_prompt_id v =? pid) && v_is_current v then [v] else [])
  ++ currents_in pid l.
Proof.
  unfold currents_in, versions_in. simpl.
  destruct (v_prompt_id v =? pid); simpl; [destruct (v_is_current v)|];
    reflexivity.
Qed.

Lemma versions_in_nonempty pid vs :
  versions_in pid vs <> [] <-> In pid (map v_prompt_id vs).
Proof.
  unfold versions_in. split.
  - intros H. destruct (filter _ vs) as [|v l] eqn:E; [congruence|].
    assert (Hin : In v (filter (fun v => v_prompt_id v =? pid) vs))
      by (rewrite E; now left).
    apply filter_In in Hin. destruct Hin as [Hin Hp].
    apply Z.eqb_eq in Hp. subst pid. now apply in_map.
  - intros H E. apply in_map_iff in H. destruct H as [v [Hp Hin]].
    assert (Hf : In v (filter (fun v => v_prompt_id v =? pid) vs)).
    { apply filter_In. split; [exact Hin|]. now apply Z.eqb_eq. }
    rewrite E in Hf. contradiction.
Qed.

Lemma currents_in_nil pid vs :
  currents_in pid vs = [] <->
  forall v, In v vs -> v_prompt_id v = pid -> v_is_current v = false.
Proof.
  unfold currents_in, versions_in. split.
  - intros E v Hin Hp.
    destruct (v_is_current v) eqn:Hc; [|reflexivity].
    assert (Hf : In v (filter v_is_current
                         (filter (fun v => v_prompt_id v =? pid) vs))).
    { apply filter_In. split; [|exact Hc].
      apply filter_In. split; [exact Hin|]. now apply Z.eqb_eq. }
    rewrite E in Hf. contradiction.
  - intros H. induction vs as [|x vs IH]; [reflexivity|]. simpl.
    destruct (v_prompt_id x =? pid) eqn:Hp; simpl.
    + apply Z.eqb_eq in Hp. rewrite (H x) by (auto; now left).
      apply IH. intros; apply H; auto; now right.
    + apply IH. intros; apply H; auto; now right.
Qed.

(** *** The writes, read on the table *)

Lemma map_v_id_set_is_current i b vs :
  map v_id (set_is_current i b vs) = map v_id vs.
Proof.
  unfold set_is_current. rewrite map_map. apply map_ext.
  intros v. now destruct (v_id v =? i).
Qed.

Lemma map_v_prompt_id_set_is_current i b vs :
  map v_prompt_id (set_is_current i b vs) = map v_prompt_id vs.
Proof.
  unfold set_is_current. rewrite map_map. apply map_ext.
  intros v. now destruct (v_id v =? i).
Qed.

Lemma map_v_id_unset_current_of pid vs :
  map v_id (unset_current_of pid vs) = map v_id vs.
Proof.
  unfold unset_current_of. rewrite map_map. apply map_ext.
  intros v. now destruct (v_prompt_id v =? pid).
Qed.

Lemma map_v_prompt_id_unset_current_of pid vs :
  map v_prompt_id (unset_current_of pid vs) = map v_prompt_id vs.
Proof.
  unfold unset_current_of. rewrite map_map. apply map_ext.
  intros v. now destruct (v_prompt_id v =? pid).
Qed.

(** With a primary key, an assignment to one row rewrites that row only. *)
Lemma set_is_current_split b l1 v l2 :
  (forall y, In y l1 -> v_id y <> v_id v) ->
  (forall y, In y l2 -> v_id y <> v_id v) ->
  set_is_current (v_id v) b (l1 ++ v :: l2) = l1 ++ with_is_current b v :: l2.
Proof.
  intros H1 H2. unfold set_is_current. rewrite map_app. simpl.
  rewrite Z.eqb_refl. f_equal; [|f_equal]; apply map_id_on; intros y Hy.
  - specialize (H1 y Hy). apply Z.eqb_neq in H1. now rewrite H1.
  - specialize (H2 y Hy). apply Z.eqb_neq in H2. now rewrite H2.
Qed.

Lemma delete_split (l1 : list PromptVersion) v l2 :
  (forall y, In y l1 -> v_id y <> v_id v) ->
  (forall y, In y l2 -> v_id y <> v_id v) ->
  filter (fun x => negb (v_id x =? v_id v)) (l1 ++ v :: l2) = l1 ++ l2.
Proof.
  intros H1 H2. rewrite filter_app. simpl. rewrite Z.eqb_refl. simpl.
  f_equal; apply filter_all; intros y Hy.
  - specialize (H1 y Hy). apply Z.eqb_neq in H1. now rewrite H1.
  - specialize (H2 y Hy). apply Z.eqb_neq in H2. now rewrite H2.
Qed.

Lemma currents_in_unset_same pid vs :
  currents_in pid (unset_current_of pid vs) = [].
Proof.
  apply currents_in_nil. intros v Hin Hp.
  unfold unset_current_of in Hin. apply in_map_iff in Hin.
  destruct Hin as [x [<- _]].
  destruct (v_prompt_id x =? pid) eqn:E; [reflexivity|].
  apply Z.eqb_neq in E. contradiction.
Qed.

Lemma currents_in_unset_other pid pid' vs :
  pid' <> pid ->
  currents_in pid' (unset_current_of pid vs) = currents_in pid' vs.
Proof.
  intros Hne. induction vs as [|x vs IH]; [reflexivity|].
  change (unset_current_of pid (x :: vs))
    with ((if v_prompt_id x =? pid then with_is_current false x else x)
          :: unset_current_of pid vs).
  rewrite !currents_in_cons, IH. f_equal.
  destruct (v_prompt_id x =? pid) eqn:E; [|reflexivity].
  apply Z.eqb_eq in E. simpl.
  assert ((v_prompt_id x =? pid') = false) as -> by (apply Z.eqb_neq; lia).
  reflexivity.
Qed.

Lemma find_by_id (vs : list PromptVersion) i v :
  find (fun x => v_id x =? i) vs = Some v -> In v vs /\ v_id v = i.
Proof.
  intros H. apply find_some in H. destruct H as [Hin E].
  split; [exact Hin | now apply Z.eqb_eq].
Qed.

Lemma prompt_of_some db v p :
  prompt_of db v = Some p -> In p (prompts db) /\ p_id p = v_prompt_id v.
Proof.
  unfold prompt_of. intros H. apply find_some in H. destruct H as [Hin E].
  split; [exact Hin | now apply Z.eqb_eq].
Qed.

Lemma get_prompt_of_user_some db pid u p :
  get_prompt_of_user db pid u = Some p ->
  In p (prompts db) /\ p_id p = pid /\ p_user_id p = u.
Proof.
  unfold get_prompt_of_user. intros H. apply find_some in H.
  destruct H as [Hin E]. apply andb_true_iff in E. destruct E as [E1 E2].
  apply Z.eqb_eq in E1, E2. auto.
Qed.

Lemma currents_in_mid pid l1 v l2 :
  currents_in pid (l1 ++ v :: l2) =
  currents_in pid l1
  ++ (if (v_prompt_id v =? pid) && v_is_current v then [v] else [])
  ++ currents_in pid l2.
Proof. now rewrite currents_in_app, currents_in_cons. Qed.

Lemma single_current_iff db :
  single_current db <-> single_current_in (prompt_versions db).
Proof.
  unfold single_current, single_current_in, current_versions, versions_of.
  split; intros H pid Hp; apply H; now apply versions_in_nonempty.
Qed.

(** *** Promotion *)

Lemma single_current_in_promote vs v :
  NoDup (map v_id vs) -> In v vs -> single_current_in vs ->
  single_current_in
    (set_is_current (v_id v) true (unset_current_of (v_prompt_id v) vs)).
Proof.
  intros Hnd Hin Hsc pid Hpid.
  rewrite map_v_prompt_id_set_is_current, map_v_prompt_id_unset_current_of
    in Hpid.
  specialize (Hsc pid Hpid).
  destruct (split_at_key v_id vs v Hnd Hin) as [l1 [l2 [-> [H1 H2]]]].
  set (p := v_prompt_id v) in *.
  assert (Hu : unset_current_of p (l1 ++ v :: l2) =
               unset_current_of p l1 ++ with_is_current false v
                                 :: unset_current_of p l2).
  { unfold unset_current_of. rewrite map_app. simpl.
    subst p. now rewrite Z.eqb_refl. }
  rewrite Hu.
  change (v_id v) with (v_id (with_is_current false v)).
  rewrite set_is_current_split.
  - rewrite currents_in_mid. simpl.
    destruct (Z.eq_dec pid p) as [->|Hne].
    + rewrite !currents_in_unset_same. subst p.
      now rewrite Z.eqb_refl.
    + rewrite !currents_in_unset_other by exact Hne.
      rewrite currents_in_mid in Hsc. fold p in Hsc.
      assert ((p =? pid) = false) as E by (apply Z.eqb_neq; lia).
      fold p. rewrite E in *. exact Hsc.
  - intros y Hy. simpl. unfold unset_current_of in Hy.
    apply in_map_iff in Hy. destruct Hy as [x [<- Hx]].
    specialize (H1 x Hx). now destruct (v_prompt_id x =? p).
  - intros y Hy. simpl. unfold unset_current_of in Hy.
    apply in_map_iff in Hy. destruct Hy as [x [<- Hx]].
    specialize (H2 x Hx). now destruct (v_prompt_id x =? p).
Qed.

(** *** A new current version *)

Lemma single_current_in_add_first vs nv :
  single_current_in vs ->
  currents_in (v_prompt_id nv) vs = [] ->
  v_is_current nv = true ->
  single_current_in (vs ++ [nv]).
Proof.
  intros Hsc Hnone Hcur pid Hpid.
  rewrite currents_in_app, currents_in_cons, Hcur, andb_true_r.
  destruct (Z.eq_dec (v_prompt_id nv) pid) as [E|Hne].
  - subst pid. rewrite Hnone, Z.eqb_refl. reflexivity.
  - assert ((v_prompt_id nv =? pid) = false) as -> by now apply Z.eqb_neq.
    simpl. rewrite app_nil_r. apply Hsc.
    rewrite map_app in Hpid. apply in_app_or in Hpid.
    destruct Hpid as [H|[H|[]]]; [exact H | contradiction].
Qed.

Lemma length_currents_in_mid pid l1 v l2 :
  List.length (currents_in pid (l1 ++ v :: l2)) =
  (List.length (currents_in pid l1)
   + (if ((v_prompt_id v =? pid)%Z && v_is_current v)%bool then 1 else 0)
   + List.length (currents_in pid l2))%nat.
Proof.
  rewrite currents_in_mid, !length_app.
  destruct ((v_prompt_id v =? pid) && v_is_current v); simpl; lia.
Qed.

Lemma single_current_in_replace vs c nv :
  NoDup (map v_id vs) -> single_current_in vs ->
  In c vs -> v_is_current c = true ->
  v_prompt_id nv = v_prompt_id c -> v_is_current nv = true ->
  single_current_in (set_is_current (v_id c) false vs ++ [nv]).
Proof.
  intros Hnd Hsc Hin Hc Hp Hcur pid Hpid.
  assert (Hpid' : In pid (map v_prompt_id vs)).
  { rewrite map_app, map_v_prompt_id_set_is_current in Hpid.
    apply in_app_or in Hpid. destruct Hpid as [H|[H|[]]]; [exact H|].
    simpl in H. rewrite <- H, Hp. now apply in_map. }
  specialize (Hsc pid Hpid').
  destruct (split_at_key v_id vs c Hnd Hin) as [l1 [l2 [-> [H1 H2]]]].
  rewrite set_is_current_split by assumption.
  rewrite <- app_assoc. simpl.
  rewrite length_currents_in_mid in *. simpl.
  rewrite currents_in_app, length_app, currents_in_cons, Hcur, Hp.
  rewrite Hc in Hsc. rewrite andb_false_r, !andb_true_r in *.
  destruct (v_prompt_id c =? pid); simpl in *; lia.
Qed.

(** *** Deletion *)

Lemma currents_in_filter_other pid pid' vs :
  pid' <> pid ->
  currents_in pid' (filter (fun v => negb (v_prompt_id v =? pid)) vs) =
  currents_in pid' vs.
Proof.
  intros Hne. induction vs as [|x vs IH]; [reflexivity|]. simpl.
  destruct (v_prompt_id x =? pid) eqn:E; simpl.
  - rewrite currents_in_cons, IH. apply Z.eqb_eq in E.
    assert ((v_prompt_id x =? pid') = false) as -> by (apply Z.eqb_neq; lia).
    reflexivity.
  - now rewrite !currents_in_cons, IH.
Qed.

Lemma in_map_filter {A B} (f : A -> B) (p : A -> bool) l y :
  In y (map f (filter p l)) -> In y (map f l).
Proof.
  intros H. apply in_map_iff in H. destruct H as [x [<- Hx]].
  apply filter_In in Hx. apply in_map. tauto.
Qed.

Lemma single_current_in_delete vs v :
  NoDup (map v_id vs) -> single_current_in vs -> In v vs ->
  (1 < List.length (versions_in (v_prompt_id v) vs))%nat ->
  single_current_in (after_delete v vs).
Proof.
  intros Hnd Hsc Hin Hcount. unfold after_delete.
  destruct (split_at_key v_id vs v Hnd Hin) as [l1 [l2 [E [H1 H2]]]].
  subst vs. rewrite delete_split by assumption.
  assert (Hnd' : NoDup (map v_id (l1 ++ l2))).
  { rewrite map_app in *. simpl in Hnd. now apply NoDup_remove_1 in Hnd. }
  assert (Hsub : forall pid, In pid (map v_prompt_id (l1 ++ l2)) ->
                             In pid (map v_prompt_id (l1 ++ v :: l2))).
  { intros pid H. rewrite map_app in *. simpl.
    apply in_app_or in H. apply in_or_app. simpl. tauto. }
  destruct (v_is_current v) eqn:Hc.
  - (* the current version goes: no version of the prompt is current any
       more, and the latest remaining one is promoted *)
    set (p := v_prompt_id v) in *.
    assert (Hp : In p (map v_prompt_id (l1 ++ v :: l2))).
    { apply in_map. apply in_or_app. right. now left. }
    pose proof (Hsc p Hp) as Hone.
    rewrite length_currents_in_mid in Hone. fold p in Hone.
    rewrite Z.eqb_refl, Hc in Hone. simpl in Hone.
    assert (Hnone : currents_in p (l1 ++ l2) = []).
    { rewrite currents_in_app.
      destruct (currents_in p l1); [|simpl in Hone; lia].
      destruct (currents_in p l2); [reflexivity|simpl in Hone; lia]. }
    destruct (first _) as [nc|] eqn:Hfirst.
    + apply first_order_by_desc in Hfirst. destruct Hfirst as [Hnc _].
      apply filter_In in Hnc. destruct Hnc as [Hnc _].
      apply filter_In in Hnc. destruct Hnc as [Hnc Hncp].
      apply Z.eqb_eq in Hncp.
      destruct (split_at_key v_id _ nc Hnd' Hnc) as [m1 [m2 [Em [M1 M2]]]].
      rewrite Em in *. rewrite set_is_current_split by assumption.
      intros pid Hpid.
      assert (Hpid' : In pid (map v_prompt_id (m1 ++ nc :: m2))).
      { rewrite map_app in *. simpl in *. exact Hpid. }
      rewrite length_currents_in_mid. simpl.
      destruct (Z.eq_dec pid p) as [->|Hne].
      * assert (Hz : List.length (currents_in p (m1 ++ nc :: m2)) = 0%nat)
          by now rewrite Hnone.
        rewrite length_currents_in_mid in Hz.
        rewrite Hncp, Z.eqb_refl. simpl. lia.
      * specialize (Hsc pid (Hsub pid Hpid')).
        rewrite length_currents_in_mid in Hsc. fold p in Hsc.
        assert ((p =? pid) = false) as Ep by (apply Z.eqb_neq; lia).
        rewrite Ep in Hsc. simpl in Hsc.
        assert (Hsame : List.length (currents_in pid (l1 ++ l2)) = 1%nat).
        { rewrite currents_in_app, length_app. lia. }
        rewrite Em, length_currents_in_mid in Hsame.
        rewrite Hncp, Ep in *. simpl in *. lia.
    + (* cannot happen: another version of the prompt remains *)
      apply first_order_by_desc_none in Hfirst.
      exfalso. unfold p in Hcount.
      rewrite versions_in_app in Hcount. simpl in Hcount.
      rewrite Z.eqb_refl in Hcount.
      rewrite length_app in Hcount. simpl in Hcount.
      assert (Hrest : versions_in p (l1 ++ l2) <> []).
      { rewrite versions_in_app. fold p in Hcount.
        destruct (versions_in p l1); [|discriminate].
        destruct (versions_in p l2); [simpl in Hcount; lia|discriminate]. }
      apply Hrest.
      rewrite filter_all in Hfirst; [exact Hfirst|].
      intros y Hy. apply filter_In in Hy. destruct Hy as [Hy _].
      apply in_app_or in Hy.
      destruct Hy as [Hy|Hy]; [apply H1 in Hy | apply H2 in Hy];
        apply Z.eqb_neq in Hy; now rewrite Hy.
  - (* a version that is not current goes *)
    intros pid Hpid. specialize (Hsc pid (Hsub pid Hpid)).
    rewrite length_currents_in_mid in Hsc. rewrite Hc in Hsc.
    rewrite andb_false_r in Hsc.
    rewrite currents_in_app, length_app. lia.
Qed.

Lemma after_delete_ids v vs :
  NoDup (map v_id vs) -> NoDup (map v_id (after_delete v vs)).
Proof.
  intros H. unfold after_delete.
  destruct (v_is_current v); [destruct (first _)|];
    rewrite ?map_v_id_set_is_current; now apply NoDup_map_filter.
Qed.

Lemma after_delete_prompt_ids v vs pid :
  In pid (map v_prompt_id (after_delete v vs)) -> In pid (map v_prompt_id vs).
Proof.
  unfold after_delete.
  destruct (v_is_current v); [destruct (first _)|];
    rewrite ?map_v_prompt_id_set_is_current; apply in_map_filter.
Qed.

(* ===================================================================== *)
(** * The handlers keep the store well formed, with one current version
      per prompt                                                         *)
(* ===================================================================== *)

Lemma NoDup_snoc {A} (l : list A) (x : A) :
  NoDup l -> ~ In x l -> NoDup (l ++ [x]).
Proof.
  intros Hl Hx. induction l as [|y l IH]; simpl.
  - constructor; [tauto | constructor].
  - inversion Hl as [|? ? Hy Hl']; subst. constructor.
    + intros H. apply in_app_or in H. destruct H as [H|[H|[]]].
      * contradiction.
      * subst. apply Hx. now left.
    + apply IH; [exact Hl'|]. intros H. apply Hx. now right.
Qed.

Lemma map_p_id_save_prompt prompt ps :
  map p_id (save_prompt prompt ps) = map p_id ps.
Proof.
  unfold save_prompt. rewrite map_map. apply map_ext. intros p.
  destruct (p_id p =? p_id prompt) eqn:E; [|reflexivity].
  apply Z.eqb_eq in E. now rewrite E.
Qed.

Lemma invariant_empty : invariant empty_db.
Proof.
  split.
  - split; simpl; [constructor | intros x []].
  - intros pid H. now contradiction H.
Qed.

Lemma create_prompt_invariant now u data db :
  invariant db -> invariant (fst (create_prompt now u data db)).
Proof.
  intros [[Hnd Hfk] Hsc]. unfold create_prompt.
  destruct data as [data|]; [|now split].
  destruct (no_keys data); [now split|].
  destruct (empty_str (strip (get_or (d_title data) ""))); [now split|].
  destruct (empty_str (strip (get_or (d_task_type data) ""))); [now split|].
  destruct (empty_str (strip (get_or (d_prompt_text data) ""))); [now split|].
  cbn [fst]. split.
  - split; cbn [prompt_versions prompts].
    + rewrite map_app. apply NoDup_snoc; [exact Hnd | apply next_id_fresh].
    + rewrite !map_app. cbn [map v_prompt_id p_id].
      intros x Hx. apply in_or_app. apply in_app_or in Hx.
      destruct Hx as [Hx|Hx]; [left; now apply Hfk | now right].
  - apply single_current_iff. cbn [prompt_versions].
    apply single_current_in_add_first; cbn [v_prompt_id v_is_current];
      [now apply single_current_iff | | reflexivity].
    apply currents_in_nil. intros v Hv Hp. exfalso.
    apply (next_id_fresh (map p_id (prompts db))).
    cbn [p_id] in Hp. rewrite <- Hp. apply Hfk. now apply in_map.
Qed.

Lemma new_version_if_changed_invariant now data db prompt :
  invariant db -> In (p_id prompt) (map p_id (prompts db)) ->
  invariant (fst (new_version_if_changed now data db prompt)).
Proof.
  intros [[Hnd Hfk] Hsc] Hp. unfold new_version_if_changed.
  destruct (d_prompt_text data) as [text|]; [|now split].
  destruct (empty_str (strip text)); [now split|].
  destruct (get_current_version db prompt) as [c|] eqn:Hcur.
  - destruct (negb (v_prompt_text c =? strip text)%string); [|now split].
    cbv zeta. cbn [fst with_versions prompt_versions prompts].
    unfold get_current_version, first in Hcur.
    assert (Hc : In c (filter (fun v => (v_prompt_id v =? p_id prompt)
                                        && v_is_current v)
                              (prompt_versions db))).
    { destruct (filter _ _); [discriminate|]. injection Hcur as ->.
      now left. }
    apply filter_In in Hc. destruct Hc as [Hin Hc].
    apply andb_true_iff in Hc. destruct Hc as [Hcp Hcc].
    apply Z.eqb_eq in Hcp.
    split.
    + split; cbn [prompt_versions prompts with_versions].
      * rewrite map_app, map_v_id_set_is_current.
        apply NoDup_snoc; [exact Hnd | apply next_id_fresh].
      * rewrite map_app, map_v_prompt_id_set_is_current.
        intros x Hx. apply in_app_or in Hx.
        destruct Hx as [Hx|[<-|[]]]; [now apply Hfk | exact Hp].
    + apply single_current_iff. cbn [prompt_versions with_versions].
      apply single_current_in_replace; auto.
      now apply single_current_iff.
  - cbv zeta. cbn [negb fst with_versions prompt_versions prompts].
    unfold get_current_version, first in Hcur.
    split.
    + split; cbn [prompt_versions prompts with_versions].
      * rewrite map_app. apply NoDup_snoc; [exact Hnd | apply next_id_fresh].
      * rewrite map_app.
        intros x Hx. apply in_app_or in Hx.
        destruct Hx as [Hx|[<-|[]]]; [now apply Hfk | exact Hp].
    + apply single_current_iff. cbn [prompt_versions with_versions].
      apply single_current_in_add_first; cbn [v_prompt_id v_is_current];
        [now apply single_current_iff | | reflexivity].
      unfold currents_in, versions_in. rewrite <- filter_and.
      now destruct (filter _ _).
Qed.

Lemma update_prompt_invariant now u pid data db :
  invariant db -> invariant (fst (update_prompt now u pid data db)).
Proof.
  intros Hinv. unfold update_prompt.
  destruct (get_prompt_of_user db pid u) as [prompt|] eqn:Hp; [|exact Hinv].
  apply get_prompt_of_user_some in Hp. destruct Hp as [Hin [Hid _]].
  set (prompt' := update_metadata db data prompt).
  set (db1 := with_prompts db (save_prompt prompt' (prompts db))).
  assert (Hinv1 : invariant db1).
  { destruct Hinv as [[Hnd Hfk] Hsc]. split; [split|]; subst db1.
    - exact Hnd.
    - cbn [prompts prompt_versions with_prompts].
      now rewrite map_p_id_save_prompt.
    - exact Hsc. }
  pose proof (new_version_if_changed_invariant now data db1 prompt' Hinv1)
    as Hnew.
  destruct (new_version_if_changed now data db1 prompt') as [db2 nv].
  cbn [fst] in *. apply Hnew.
  subst db1. cbn [prompts with_prompts]. rewrite map_p_id_save_prompt.
  change (p_id prompt') with (p_id prompt). now apply in_map.
Qed.

Lemma delete_prompt_invariant u pid db :
  invariant db -> invariant (fst (delete_prompt u pid db)).
Proof.
  intros Hinv. unfold delete_prompt.
  destruct (get_prompt_of_user db pid u) as [prompt|]; [|exact Hinv].
  destruct Hinv as [[Hnd Hfk] Hsc]. cbn [fst]. split; [split|].
  - cbn [prompt_versions delete_prompt_row]. now apply NoDup_map_filter.
  - cbn [prompt_versions prompts delete_prompt_row]. intros x Hx.
    apply in_map_iff in Hx. destruct Hx as [v [<- Hv]].
    apply filter_In in Hv. destruct Hv as [Hv Hne].
    assert (Hx : In (v_prompt_id v) (map p_id (prompts db)))
      by (apply Hfk; now apply in_map).
    apply in_map_iff in Hx. destruct Hx as [p [Hpid Hp]].
    apply in_map_iff. exists p. split; [exact Hpid|].
    apply filter_In. split; [exact Hp|]. now rewrite Hpid.
  - apply single_current_iff. cbn [prompt_versions delete_prompt_row].
    apply single_current_iff in Hsc.
    intros x Hx.
    assert (Hne : x <> p_id prompt).
    { apply in_map_iff in Hx. destruct Hx as [v [<- Hv]].
      apply filter_In in Hv. destruct Hv as [_ Hv].
      apply negb_true_iff, Z.eqb_neq in Hv. exact Hv. }
    rewrite currents_in_filter_other by exact Hne.
    apply Hsc. eapply in_map_filter, Hx.
Qed.

Lemma set_current_version_invariant u vid db :
  invariant db -> invariant (fst (set_current_version u vid db)).
Proof.
  intros Hinv. unfold set_current_version.
  destruct (get_version db vid) as [version|] eqn:Hv; [|exact Hinv].
  destruct (prompt_of db version) as [prompt|] eqn:Hp; [|exact Hinv].
  destruct (negb (p_user_id prompt =? u)); [exact Hinv|].
  apply find_by_id in Hv. destruct Hv as [Hin Hid].
  apply prompt_of_some in Hp. destruct Hp as [_ Hpid].
  destruct Hinv as [[Hnd Hfk] Hsc]. cbn [fst]. split; [split|].
  - cbn [prompt_versions with_versions].
    now rewrite map_v_id_set_is_current, map_v_id_unset_current_of.
  - cbn [prompt_versions prompts with_versions].
    now rewrite map_v_prompt_id_set_is_current,
      map_v_prompt_id_unset_current_of.
  - apply single_current_iff. cbn [prompt_versions with_versions].
    rewrite Hpid. apply single_current_in_promote; auto.
    now apply single_current_iff.
Qed.

Lemma delete_version_versions u vid db version prompt :
  get_version db vid = Some version ->
  prompt_of db version = Some prompt ->
  p_user_id prompt = u ->
  1 < count (versions_of db (p_id prompt)) ->
  prompt_versions (fst (delete_version u vid db)) =
  after_delete version (prompt_versions db).
Proof.
  intros Hv Hp Hu Hc. unfold delete_version. rewrite Hv, Hp.
  assert ((p_user_id prompt =? u) = true) as -> by now apply Z.eqb_eq.
  assert ((count (versions_of db (p_id prompt)) <=? 1) = false) as ->
    by now apply Z.leb_gt.
  apply find_by_id in Hv. destruct Hv as [_ <-].
  apply prompt_of_some in Hp. destruct Hp as [_ ->].
  cbn [negb fst]. unfold after_delete.
  destruct (v_is_current version); [|reflexivity].
  unfold versions_of. cbn [prompt_versions delete_version_row].
  fold (versions_in (v_prompt_id version)
          (filter (fun v => negb (v_id v =? v_id version))
                  (prompt_versions db))).
  now destruct (first _).
Qed.

Lemma delete_version_prompts u vid db :
  prompts (fst (delete_version u vid db)) = prompts db.
Proof.
  unfold delete_version.
  destruct (get_version db vid) as [version|]; [|reflexivity].
  destruct (prompt_of db version) as [prompt|]; [|reflexivity].
  destruct (negb (p_user_id prompt =? u)); [reflexivity|].
  destruct (count _ <=? 1); [reflexivity|].
  cbn [fst]. destruct (v_is_current version); [|reflexivity].
  now destruct (first _).
Qed.

Lemma delete_version_unchanged u vid db :
  (forall version prompt,
     get_version db vid = Some version ->
     prompt_of db version = Some prompt ->
     ~ (p_user_id prompt = u /\ 1 < count (versions_of db (p_id prompt)))) ->
  fst (delete_version u vid db) = db.
Proof.
  intros H. unfold delete_version.
  destruct (get_version db vid) as [version|]; [|reflexivity].
  destruct (prompt_of db version) as [prompt|] eqn:Hp; [|reflexivity].
  destruct (p_user_id prompt =? u) eqn:Eu; [|reflexivity].
  destruct (count _ <=? 1) eqn:Ec; [reflexivity|].
  exfalso. apply (H version prompt eq_refl Hp).
  split; [now apply Z.eqb_eq | now apply Z.leb_gt].
Qed.

Lemma delete_version_invariant u vid db :
  invariant db -> invariant (fst (delete_version u vid db)).
Proof.
  intros Hinv.
  destruct (get_version db vid) as [version|] eqn:Hv.
  2:{ rewrite delete_version_unchanged; [exact Hinv|]. congruence. }
  destruct (prompt_of db version) as [prompt|] eqn:Hp.
  2:{ rewrite delete_version_unchanged; [exact Hinv|]. congruence. }
  destruct (Z.eq_dec (p_user_id prompt) u) as [Hu|Hu].
  2:{ rewrite delete_version_unchanged; [exact Hinv|].
      intros v p E1 E2 [E3 _]. congruence. }
  destruct (Z_lt_dec 1 (count (versions_of db (p_id prompt)))) as [Hc|Hc].
  2:{ rewrite delete_version_unchanged; [exact Hinv|].
      intros v p E1 E2 [_ E3]. congruence. }
  pose proof (delete_version_versions u vid db version prompt Hv Hp Hu Hc)
    as Hvs.
  pose proof (delete_version_prompts u vid db) as Hps.
  destruct Hinv as [[Hnd Hfk] Hsc].
  apply find_by_id in Hv. destruct Hv as [Hin _].
  apply prompt_of_some in Hp. destruct Hp as [_ Hpid].
  split; [split|].
  - rewrite Hvs. now apply after_delete_ids.
  - rewrite Hvs, Hps. intros x Hx. apply Hfk.
    eapply after_delete_prompt_ids, Hx.
  - apply single_current_iff. rewrite Hvs.
    apply single_current_in_delete; auto.
    + now apply single_current_iff.
    + unfold count, versions_of in Hc. rewrite Hpid in Hc.
      unfold versions_in. lia.
Qed.

Lemma evaluate_version_tables libs now u vid db :
  prompts (fst (evaluate_version libs now u vid db)) = prompts db /\
  prompt_versions (fst (evaluate_version libs now u vid db)) =
  prompt_versions db.
Proof.
  unfold evaluate_version.
  destruct (get_version db vid) as [version|]; [|now split].
  destruct (prompt_of db version) as [prompt|]; [|now split].
  destruct (negb (p_user_id prompt =? u)); [now split|].
  destruct (AiEngine.evaluate_prompt _ _ _ _); now split.
Qed.

Lemma evaluate_missing_tables libs now prompt versions db evaluations db' es :
  evaluate_missing libs now prompt versions db evaluations = Ok (db', es) ->
  prompts db' = prompts db /\ prompt_versions db' = prompt_versions db.
Proof.
  revert db evaluations. induction versions as [|v vs IH];
    intros db evaluations H; cbn [evaluate_missing] in H.
  - injection H as <- _. now split.
  - destruct (get_latest_evaluation db v); [now apply IH in H|].
    destruct (AiEngine.evaluate_prompt _ _ _ _) as [result|];
      cbn [bind] in H; [|discriminate].
    apply IH in H. exact H.
Qed.

Lemma evaluate_all_versions_tables libs now u pid db :
  prompts (fst (evaluate_all_versions libs now u pid db)) = prompts db /\
  prompt_versions (fst (evaluate_all_versions libs now u pid db)) =
  prompt_versions db.
Proof.
  unfold evaluate_all_versions.
  destruct (get_prompt_of_user db pid u) as [prompt|]; [|now split].
  destruct (evaluate_missing _ _ _ _ _ _) as [[db' es]|] eqn:E; [|now split].
  now apply evaluate_missing_tables in E.
Qed.

Lemma invariant_same_tables db db' :
  prompts db' = prompts db -> prompt_versions db' = prompt_versions db ->
  invariant db -> invariant db'.
Proof.
  intros Hp Hv [[Hnd Hfk] Hsc]. split; [split|].
  - now rewrite Hv.
  - now rewrite Hv, Hp.
  - apply single_current_iff. rewrite Hv. now apply single_current_iff.
Qed.

Lemma handle_invariant libs now r db :
  invariant db -> invariant (handle libs now r db).
Proof.
  intros Hinv. destruct r; cbn [handle].
  - now apply create_prompt_invariant.
  - now apply update_prompt_invariant.
  - now apply delete_prompt_invariant.
  - now apply set_current_version_invariant.
  - now apply delete_version_invariant.
  - destruct (evaluate_version_tables libs now user_id version_id db).
    now apply (invariant_same_tables db).
  - destruct (evaluate_all_versions_tables libs now user_id prompt_id db).
    now apply (invariant_same_tables db).
Qed.

Lemma run_invariant libs rs db :
  invariant db -> invariant (run libs rs db).
Proof.
  revert db. induction rs as [|[now r] rs IH]; intros db H; simpl.
  - exact H.
  - apply IH. now apply handle_invariant.
Qed.

(** Every store the handlers can build from the empty one has exactly one
    current version per prompt with versions. *)
Corollary reachable_single_current libs rs :
  single_current (run libs rs empty_db).
Proof. apply run_invariant, invariant_empty. Qed.

(** *** The tests decide the properties *)

Lemma distinct_NoDup l : distinct l = true -> NoDup l.
Proof.
  induction l as [|x l IH]; simpl; intros H; [constructor|].
  apply andb_true_iff in H. destruct H as [Hx Hl].
  constructor; [|now apply IH].
  intros Hin. apply negb_true_iff in Hx.
  assert (existsb (Z.eqb x) l = true); [|congruence].
  apply existsb_exists. exists x. split; [exact Hin | apply Z.eqb_refl].
Qed.

Lemma well_formedb_ok db : well_formedb db = true -> well_formed db.
Proof.
  unfold well_formedb. intros H. apply andb_true_iff in H.
  destruct H as [H1 H2]. split.
  - now apply distinct_NoDup.
  - intros x Hx. rewrite forallb_forall in H2. specialize (H2 x Hx).
    apply existsb_exists in H2. destruct H2 as [y [Hy E]].
    apply Z.eqb_eq in E. now subst.
Qed.

Lemma single_currentb_ok db : single_currentb db = true -> single_current db.
Proof.
  unfold single_currentb. intros H pid Hp.
  destruct (versions_of db pid) as [|v l] eqn:E; [congruence|].
  assert (Hv : In v (versions_of db pid)) by (rewrite E; now left).
  apply filter_In in Hv. destruct Hv as [Hv Hpid]. apply Z.eqb_eq in Hpid.
  rewrite forallb_forall in H. specialize (H v Hv).
  apply Nat.eqb_eq in H. now rewrite Hpid in H.
Qed.

(* ===================================================================== *)
(** * The claims                                                         *)
(* ===================================================================== *)

Import Scenarios.

(** C1. In a store that satisfies the schema constraints and in which
    every prompt with at least one version has exactly one version marked
    current, every request -- creating a prompt with its initial version,
    updating a prompt (which may create a new current version), promoting
    a version, deleting a version (the current one included), deleting a
    prompt, evaluating -- leads to a store with the same two properties. *)
Theorem single_current_preserved (libs : AiEngine.TextLibs) (now : Z)
    (r : Request) (db : DB) :
  well_formed db -> single_current db ->
  well_formed (handle libs now r db) /\ single_current (handle libs now r db).
Proof.
  intros Hwf Hsc. apply handle_invariant. now split.
Qed.

(** Deleting the current version 2 of a prompt with two versions. *)
Lemma single_current_preserved_witness :
  well_formed two_versions /\ single_current two_versions /\
  well_formed (handle plain_libs 3 (DeleteVersion alice 2) two_versions) /\
  single_current (handle plain_libs 3 (DeleteVersion alice 2) two_versions).
Proof.
  assert (Hwf : well_formed two_versions)
    by (apply well_formedb_ok; vm_compute; reflexivity).
  assert (Hsc : single_current two_versions)
    by (apply single_currentb_ok; vm_compute; reflexivity).
  split; [exact Hwf|]. split; [exact Hsc|].
  exact (single_current_preserved plain_libs 3 (DeleteVersion alice 2)
           two_versions Hwf Hsc).
Defined.

(* ===================================================================== *)
(** * The scoring engine                                                 *)
(* ===================================================================== *)

(** The singleton carries the default weights. *)
Lemma evaluator_weights :
  AiEngine.dict_item (AiEngine.weights AiEngine.evaluator) "clarity"
    = Ok 0.4%float /\
  AiEngine.dict_item (AiEngine.weights AiEngine.evaluator) "relevance"
    = Ok 0.4%float /\
  AiEngine.dict_item (AiEngine.weights AiEngine.evaluator) "length"
    = Ok 0.2%float.
Proof. repeat split. Qed.

(** [evaluate_prompt] returns, and its readability entry is the one
    [_calculate_readability] builds. *)
Lemma evaluate_prompt_returns libs text task_type domain :
  exists r,
    AiEngine.evaluate_prompt libs text task_type domain = Ok r /\
    AiEngine.d_readability (AiEngine.details r) =
      AiEngine._calculate_readability libs text /\
    AiEngine.d_relevance (AiEngine.details r) =
      AiEngine._calculate_relevance_score text task_type domain /\
    AiEngine.d_length (AiEngine.details r) =
      AiEngine._calculate_length_score text /\
    AiEngine.relevance_score r =
      round2 (AiEngine.relevance_score_of
                (AiEngine._calculate_relevance_score text task_type domain)) /\
    AiEngine.length_score r =
      round2 (AiEngine.length_score_of
                (AiEngine._calculate_length_score text)).
Proof.
  unfold AiEngine.evaluate_prompt, AiEngine.evaluate.
  destruct evaluator_weights as [-> [-> ->]].
  cbn [bind]. eexists. split; [reflexivity|].
  cbn [AiEngine.details AiEngine.d_readability AiEngine.d_relevance
       AiEngine.d_length AiEngine.relevance_score AiEngine.length_score].
  repeat split.
Qed.

(** C3, as the specification words it: relevance 48 and length 18 for
    "Write a function." under task generation and domain coding. The code
    gives another relevance. *)
Lemma write_a_function_relevance_is_not_48 :
  ~ (AiEngine.relevance_score_of
       (AiEngine._calculate_relevance_score "Write a function."
          (Some "generation") (Some "coding")) = 48%float /\
     AiEngine.length_score_of
       (AiEngine._calculate_length_score "Write a function.") = 18%float).
Proof.
  intros [H _].
  apply (f_equal (fun x => PrimFloat.eqb x 48)) in H.
  vm_compute in H. discriminate H.
Qed.

(** C3, amended. For "Write a function." with task generation and domain
    coding: the coding keyword "function" is found (+5), the generation
    keyword "write" is found (+8), and no context or format word is, so
    the relevance score is 50 + 5 + 8 = 63; the text has 3 words, so the
    length score is (3/5)*30 = 18. The rounded scores of the full
    evaluation are the same, whatever the text libraries answer. *)
Theorem write_a_function_scores :
  let relevance :=
    AiEngine._calculate_relevance_score "Write a function."
      (Some "generation") (Some "coding") in
  let length := AiEngine._calculate_length_score "Write a function." in
  AiEngine.domain_matches relevance = ["function"] /\
  AiEngine.task_matches relevance = ["write"] /\
  AiEngine.relevance_notes relevance =
    ["Matches coding: function"; "Good generation indicators"] /\
  AiEngine.relevance_score_of relevance = 63%float /\
  AiEngine.word_count length = 3 /\
  AiEngine.length_notes length = ["Too short (3 words)"] /\
  AiEngine.length_score_of length = 18%float /\
  forall libs, exists r,
    AiEngine.evaluate_prompt libs "Write a function."
      (Some "generation") (Some "coding") = Ok r /\
    AiEngine.relevance_score r = 63%float /\
    AiEngine.length_score r = 18%float.
Proof.
  cbv zeta. repeat (split; [vm_compute; reflexivity|]).
  intros libs.
  destruct (evaluate_prompt_returns libs "Write a function."
              (Some "generation") (Some "coding"))
    as [r [Hr [_ [_ [_ [Hrel Hlen]]]]]].
  exists r. split; [exact Hr|]. rewrite Hrel, Hlen.
  split; vm_compute; reflexivity.
Qed.

(** C8. [evaluate_prompt] never raises: for every text, whatever the two
    [textstat] calls do, it returns a result; the readability entry of the
    result carries the estimator's answers when both calls return, and
    the ease 50.0 with the grade "N/A" when one of them raises. *)
Theorem evaluate_prompt_never_raises (libs : AiEngine.TextLibs)
    (text : string) (task_type domain : option string) :
  exists r,
    AiEngine.evaluate_prompt libs text task_type domain = Ok r /\
    (AiEngine.flesch_reading_ease (AiEngine.d_readability (AiEngine.details r)),
     AiEngine.grade_level (AiEngine.d_readability (AiEngine.details r))) =
    match AiEngine.textstat_calls libs text with
    | Ok answers => answers
    | Raise _ => (50.0%float, "N/A")
    end.
Proof.
  destruct (evaluate_prompt_returns libs text task_type domain)
    as [r [Hr [Hread _]]].
  exists r. split; [exact Hr|]. rewrite Hread.
  unfold AiEngine._calculate_readability, try_except.
  destruct (AiEngine.textstat_calls libs text) as [[flesch grade]|e];
    reflexivity.
Qed.

(** The fallback at work: the estimator raises on "@#$%", the evaluation
    returns with ease 50.0 and grade "N/A". *)
Lemma evaluate_prompt_never_raises_witness :
  exists r,
    AiEngine.evaluate_prompt plain_libs "@#$%" (Some "generation") None
      = Ok r /\
    (AiEngine.flesch_reading_ease (AiEngine.d_readability (AiEngine.details r)),
     AiEngine.grade_level (AiEngine.d_readability (AiEngine.details r))) =
    (50.0%float, "N/A").
Proof.
  exact (evaluate_prompt_never_raises plain_libs "@#$%"
           (Some "generation") None).
Defined.

(* ===================================================================== *)
(** * Updating, deleting, evaluating                                     *)
(* ===================================================================== *)

(** C5. When the owner of a prompt sends an update whose text, once
    stripped, is the text of the prompt's current version, no version is
    created: the version and evaluation tables are unchanged (so is every
    flag and text), the response names no new version, and the current
    version it shows is the one found before the request. *)
Theorem update_with_same_text_keeps_versions (now user_id prompt_id : Z)
    (data : PromptData) (db : DB) (prompt : Prompt)
    (current : PromptVersion) (text : string) :
  get_prompt_of_user db prompt_id user_id = Some prompt ->
  get_current_version db prompt = Some current ->
  d_prompt_text data = Some text ->
  strip text = v_prompt_text current ->
  exists db' body,
    update_prompt now user_id prompt_id data db = (db', Success 200 body) /\
    prompt_versions db' = prompt_versions db /\
    prompt_evaluations db' = prompt_evaluations db /\
    ub_new_version body = None /\
    pd_current_version (ub_prompt body) =
      Some (version_to_dict db true current).
Proof.
  intros Hp Hc Ht Hs. unfold update_prompt. rewrite Hp.
  set (prompt' := update_metadata db data prompt).
  set (db1 := with_prompts db (save_prompt prompt' (prompts db))).
  assert (Hc1 : get_current_version db1 prompt' = Some current) by exact Hc.
  assert (Hnew : new_version_if_changed now data db1 prompt' = (db1, None)).
  { unfold new_version_if_changed. rewrite Ht.
    destruct (empty_str (strip text)); [reflexivity|].
    rewrite Hc1, Hs, String.eqb_refl. reflexivity. }
  rewrite Hnew. exists db1. eexists. split; [reflexivity|].
  cbn [ub_new_version ub_prompt option_map].
  repeat split.
  unfold prompt_to_dict. cbn [pd_current_version]. rewrite Hc1.
  reflexivity.
Qed.

(** Alice sends the text of her current version again, with spaces
    around it. *)
Lemma update_with_same_text_keeps_versions_witness :
  exists db' body,
    update_prompt 3 alice 1 (new_text "  Write a Python function. ")
      two_versions = (db', Success 200 body) /\
    prompt_versions db' = prompt_versions two_versions /\
    prompt_evaluations db' = prompt_evaluations two_versions /\
    ub_new_version body = None /\
    pd_current_version (ub_prompt body) =
      Some (version_to_dict two_versions true
              {| v_id := 2; v_prompt_id := 1; v_version_number := 2;
                 v_prompt_text := "Write a Python function.";
                 v_change_notes := "Version 2";
                 v_is_current := true; v_created_at := 2 |}).
Proof.
  refine (update_with_same_text_keeps_versions 3 alice 1
            (new_text "  Write a Python function. ") two_versions
            {| p_id := 1; p_user_id := alice; p_title := "Helper";
               p_description := ""; p_task_type := "generation";
               p_domain := Some "coding"; p_is_public := false;
               p_tags := [] |}
            _ "  Write a Python function. " _ _ _ _);
    vm_compute; reflexivity.
Defined.

(** C6. When the owner asks to delete the only version of a prompt, the
    request fails with status 400 (invalid operation) and the store is
    left as it was. *)
Theorem delete_only_version_fails (user_id version_id : Z) (db : DB)
    (version : PromptVersion) (prompt : Prompt) :
  get_version db version_id = Some version ->
  prompt_of db version = Some prompt ->
  p_user_id prompt = user_id ->
  count (versions_of db (p_id prompt)) = 1 ->
  delete_version user_id version_id db =
  (db, Failure 400
         "Cannot delete the only version. Delete the prompt instead.").
Proof.
  intros Hv Hp Hu Hc. unfold delete_version. rewrite Hv, Hp, Hc.
  assert ((p_user_id prompt =? user_id) = true) as -> by now apply Z.eqb_eq.
  reflexivity.
Qed.

Lemma delete_only_version_fails_witness :
  count (versions_of one_version 1) = 1 /\
  delete_version bob 1 one_version =
  (one_version,
   Failure 400 "Cannot delete the only version. Delete the prompt instead.").
Proof.
  split; [vm_compute; reflexivity|].
  refine (delete_only_version_fails bob 1 one_version _ _ _ _ _ _);
    vm_compute; reflexivity.
Defined.

(** Whoever asks, the only version of a prompt is never deleted. *)
Lemma delete_only_version_never_succeeds user_id version_id db version :
  get_version db version_id = Some version ->
  count (versions_of db (v_prompt_id version)) = 1 ->
  exists status error,
    delete_version user_id version_id db = (db, Failure status error).
Proof.
  intros Hv Hc. unfold delete_version. rewrite Hv.
  destruct (prompt_of db version) as [prompt|] eqn:Hp;
    [|do 2 eexists; reflexivity].
  apply prompt_of_some in Hp. destruct Hp as [_ Hp]. rewrite Hp, Hc.
  destruct (negb (p_user_id prompt =? user_id)); do 2 eexists; reflexivity.
Qed.

(** C7. Let [version_id] be a key the store can hold, and let the caller
    own the prompt of whatever version it names, in a store that satisfies
    the schema constraints. If the version exists, [evaluate_version]
    succeeds, and the evaluation table of the store it leaves is the old
    table with one row appended: the row is tied to that version, carries a
    key no earlier row has, and is the one the response shows; the earlier
    rows are all there, unchanged and in place, and so are the prompts, the
    versions and the tags. Evaluating the version again succeeds again and
    appends a second row, under another key, behind the first. If the
    version does not exist, the request fails with status 404 and the store
    is left as it was. *)
Theorem evaluate_version_appends_one_row (libs : AiEngine.TextLibs)
    (now later user_id version_id : Z) (db : DB) :
  well_formed db ->
  key_in_range version_id ->
  (forall version prompt,
      get_version db version_id = Some version ->
      prompt_of db version = Some prompt -> p_user_id prompt = user_id) ->
  match get_version db version_id with
  | Some version =>
      exists db' e body,
        evaluate_version libs now user_id version_id db =
          (db', Success 200 body) /\
        prompt_evaluations db' = prompt_evaluations db ++ [e] /\
        prompts db' = prompts db /\
        prompt_versions db' = prompt_versions db /\
        prompt_tags db' = prompt_tags db /\
        e_version_id e = version_id /\
        ~ In (e_id e) (map e_id (prompt_evaluations db)) /\
        eb_evaluation body = e /\
        exists db'' e2 body2,
          evaluate_version libs later user_id version_id db' =
            (db'', Success 200 body2) /\
          prompt_evaluations db'' = prompt_evaluations db ++ [e; e2] /\
          e_version_id e2 = version_id /\
          e_id e2 <> e_id e /\
          eb_evaluation body2 = e2
  | None =>
      evaluate_version libs now user_id version_id db =
        (db, Failure 404 "Version not found")
  end.
Proof.
  intros [_ Hfk] _ Hown.
  destruct (get_version db version_id) as [version|] eqn:Hv;
    [|unfold evaluate_version; now rewrite Hv].
  pose proof (find_by_id _ _ _ Hv) as [Hin Hid].
  destruct (prompt_of db version) as [prompt|] eqn:Hp.
  - pose proof (Hown version prompt eq_refl Hp) as Hu.
    destruct (evaluate_prompt_returns libs (v_prompt_text version)
                (Some (p_task_type prompt)) (p_domain prompt))
      as [r Hr].
    destruct Hr as [Hr _].
    set (e := new_evaluation now db version r).
    set (db' := with_evaluations db (prompt_evaluations db ++ [e])).
    set (e2 := new_evaluation later db' version r).
    assert (H1 : forall t d0,
               get_version d0 version_id = Some version ->
               prompt_of d0 version = Some prompt ->
               evaluate_version libs t user_id version_id d0 =
                 (with_evaluations d0
                    (prompt_evaluations d0 ++ [new_evaluation t d0 version r]),
                  Success 200
                    {| eb_message := "Evaluation completed";
                       eb_evaluation := new_evaluation t d0 version r;
                       eb_details := AiEngine.details r;
                       eb_suggestions :=
                         AiEngine.get_suggestions r (v_prompt_text version);
                       eb_version :=
                         version_to_dict
                           (with_evaluations d0
                              (prompt_evaluations d0 ++
                               [new_evaluation t d0 version r]))
                           false version |})).
    { intros t d0 Hv0 Hp0. unfold evaluate_version.
      rewrite Hv0, Hp0, Hu, Z.eqb_refl, Hr. reflexivity. }
    exists db', e. eexists.
    split; [apply (H1 now db Hv Hp)|].
    split; [reflexivity|]. split; [reflexivity|]. split; [reflexivity|].
    split; [reflexivity|]. split; [exact Hid|].
    split; [apply next_id_fresh|]. split; [reflexivity|].
    exists (with_evaluations db' (prompt_evaluations db' ++ [e2])), e2.
    eexists. split; [apply (H1 later db' Hv Hp)|].
    split.
    { cbn [prompt_evaluations with_evaluations db'].
      now rewrite <- app_assoc. }
    split; [exact Hid|]. split; [|reflexivity].
    intros E.
    apply (next_id_fresh (map e_id (prompt_evaluations db'))).
    change (next_id (map e_id (prompt_evaluations db'))) with (e_id e2).
    rewrite E. cbn [prompt_evaluations with_evaluations db'].
    rewrite map_app. apply in_or_app. right. now left.
  - (* the prompt of a version exists *)
    exfalso.
    assert (H : In (v_prompt_id version) (map p_id (prompts db)))
      by (apply Hfk; now apply in_map).
    apply in_map_iff in H. destruct H as [p [Hpid Hpin]].
    unfold prompt_of in Hp.
    apply (find_none _ _ Hp) in Hpin. apply Z.eqb_neq in Hpin. contradiction.
Qed.

(** Bob's version 1 carries two evaluations; he evaluates it at time 5 and
    again at time 6. *)
Lemma evaluate_version_appends_one_row_witness :
  well_formed evaluated_twice /\ key_in_range 1 /\
  List.length (prompt_evaluations evaluated_twice) = 2%nat /\
  exists db' e body,
    evaluate_version plain_libs 5 bob 1 evaluated_twice =
      (db', Success 200 body) /\
    prompt_evaluations db' = prompt_evaluations evaluated_twice ++ [e] /\
    prompts db' = prompts evaluated_twice /\
    prompt_versions db' = prompt_versions evaluated_twice /\
    prompt_tags db' = prompt_tags evaluated_twice /\
    e_version_id e = 1 /\
    ~ In (e_id e) (map e_id (prompt_evaluations evaluated_twice)) /\
    eb_evaluation body = e /\
    exists db'' e2 body2,
      evaluate_version plain_libs 6 bob 1 db' = (db'', Success 200 body2) /\
      prompt_evaluations db'' =
        prompt_evaluations evaluated_twice ++ [e; e2] /\
      e_version_id e2 = 1 /\
      e_id e2 <> e_id e /\
      eb_evaluation body2 = e2.
Proof.
  assert (Hwf : well_formed evaluated_twice)
    by (apply well_formedb_ok; vm_compute; reflexivity).
  assert (Hkey : key_in_range 1) by (unfold key_in_range; lia).
  split; [exact Hwf|]. split; [exact Hkey|]. split; [reflexivity|].
  refine (evaluate_version_appends_one_row plain_libs 5 6 bob 1
            evaluated_twice Hwf Hkey _).
  intros version prompt Hv Hp.
  vm_compute in Hv. injection Hv as <-.
  vm_compute in Hp. injection Hp as <-. reflexivity.
Defined.

(* ===================================================================== *)
(** * Version numbers                                                    *)
(* ===================================================================== *)

Lemma dominated_refl pid vs : dominated pid vs vs.
Proof. intros v Hv Hp. exists v. repeat split; auto. lia. Qed.

Lemma dominated_trans pid vs1 vs2 vs3 :
  dominated pid vs1 vs2 -> dominated pid vs2 vs3 -> dominated pid vs1 vs3.
Proof.
  intros H12 H23 v Hv Hp.
  destruct (H12 v Hv Hp) as [v2 [Hv2 [Hp2 Hn2]]].
  destruct (H23 v2 Hv2 Hp2) as [v3 [Hv3 [Hp3 Hn3]]].
  exists v3. repeat split; auto. lia.
Qed.

Lemma dominated_app pid vs l : dominated pid vs (vs ++ l).
Proof.
  intros v Hv Hp. exists v. repeat split; auto; [|lia].
  apply in_or_app. now left.
Qed.

(** A write that touches flags only. *)
Lemma dominated_map pid (f : PromptVersion -> PromptVersion) vs :
  (forall v, v_prompt_id (f v) = v_prompt_id v /\
             v_version_number (f v) = v_version_number v) ->
  dominated pid vs (map f vs).
Proof.
  intros Hf v Hv Hp. exists (f v). destruct (Hf v) as [E1 E2].
  repeat split; [now apply in_map | congruence | lia].
Qed.

Lemma dominated_set_is_current pid i b vs :
  dominated pid vs (set_is_current i b vs).
Proof.
  apply dominated_map. intros v. now destruct (v_id v =? i).
Qed.

Lemma dominated_unset_current_of pid p vs :
  dominated pid vs (unset_current_of p vs).
Proof.
  apply dominated_map. intros v. now destruct (v_prompt_id v =? p).
Qed.

Lemma numbers_set_is_current i b vs :
  numbers (set_is_current i b vs) = numbers vs.
Proof.
  unfold numbers, set_is_current. rewrite map_map. apply map_ext.
  intros v. now destruct (v_id v =? i).
Qed.

Lemma numbers_In vs p k :
  In (p, k) (numbers vs) <->
  exists v, In v vs /\ v_prompt_id v = p /\ v_version_number v = k.
Proof.
  unfold numbers. rewrite in_map_iff. split.
  - intros [v [[= <- <-] Hv]]. now exists v.
  - intros [v [Hv [<- <-]]]. now exists v.
Qed.

Lemma numbers_dominated pid vs vs' :
  numbers vs = numbers vs' -> dominated pid vs vs'.
Proof.
  intros E v Hv Hp.
  assert (H : In (pid, v_version_number v) (numbers vs))
    by (apply numbers_In; now exists v).
  rewrite E in H. apply numbers_In in H. destruct H as [v' [Hv' [Hp' Hn]]].
  exists v'. repeat split; auto. lia.
Qed.

(** What [new_version_if_changed] does when it creates a version. *)
Lemma new_version_if_changed_some now data db prompt db' nv :
  new_version_if_changed now data db prompt = (db', Some nv) ->
  exists vs1,
    numbers vs1 = numbers (prompt_versions db) /\
    prompt_versions db' = vs1 ++ [nv] /\
    v_prompt_id nv = p_id prompt /\
    v_version_number nv =
      match first (order_by_desc v_version_number
                     (versions_in (p_id prompt) vs1)) with
      | Some l => v_version_number l + 1
      | None => 1
      end.
Proof.
  unfold new_version_if_changed.
  destruct (d_prompt_text data) as [text|]; [|discriminate].
  destruct (empty_str (strip text)); [discriminate|].
  destruct (get_current_version db prompt) as [c|].
  - destruct (negb (v_prompt_text c =? strip text)%string); [|discriminate].
    cbv zeta. intros [= <- <-].
    exists (set_is_current (v_id c) false (prompt_versions db)).
    split; [apply numbers_set_is_current|]. repeat split.
  - cbv zeta. cbn [negb]. intros [= <- <-].
    exists (prompt_versions db).
    split; [reflexivity|]. repeat split.
Qed.

Lemma new_version_if_changed_none now data db prompt db' :
  new_version_if_changed now data db prompt = (db', None) -> db' = db.
Proof.
  unfold new_version_if_changed.
  destruct (d_prompt_text data) as [text|]; [|now intros [= <-]].
  destruct (empty_str (strip text)); [now intros [= <-]|].
  destruct (get_current_version db prompt) as [c|].
  - destruct (negb (v_prompt_text c =? strip text)%string);
      [discriminate | now intros [= <-]].
  - discriminate.
Qed.

(** One more than the largest number among the versions [vs1] of the
    prompt. *)
Lemma next_number_above pid vs1 n :
  n = match first (order_by_desc v_version_number (versions_in pid vs1)) with
      | Some l => v_version_number l + 1
      | None => 1
      end ->
  (forall v, In v vs1 -> v_prompt_id v = pid -> v_version_number v < n) /\
  ((versions_in pid vs1 = [] /\ n = 1) \/
   (exists l, In l (versions_in pid vs1) /\ n = v_version_number l + 1)).
Proof.
  intros ->.
  destruct (first _) as [l|] eqn:E.
  - apply first_order_by_desc in E. destruct E as [Hl Hmax]. split.
    + intros v Hv Hp.
      assert (v_version_number v <= v_version_number l); [|lia].
      apply Hmax. apply filter_In. split; [exact Hv | now apply Z.eqb_eq].
    + right. now exists l.
  - apply first_order_by_desc_none in E. split.
    + intros v Hv Hp. exfalso.
      assert (Hin : In v (versions_in pid vs1))
        by (apply filter_In; split; [exact Hv | now apply Z.eqb_eq]).
      rewrite E in Hin. contradiction.
    + now left.
Qed.

(** *** Stored rows keep their key, prompt and number *)

Lemma row_identity_set_is_current i b vs :
  map row_identity (set_is_current i b vs) = map row_identity vs.
Proof.
  unfold set_is_current. rewrite map_map. apply map_ext.
  intros v. now destruct (v_id v =? i).
Qed.

Lemma row_identity_unset_current_of p vs :
  map row_identity (unset_current_of p vs) = map row_identity vs.
Proof.
  unfold unset_current_of. rewrite map_map. apply map_ext.
  intros v. now destruct (v_prompt_id v =? p).
Qed.

Lemma row_identity_filter (keep : PromptVersion -> bool) vs k :
  In k (map row_identity (filter keep vs)) -> In k (map row_identity vs).
Proof.
  intros H. apply in_map_iff in H. destruct H as [v [E Hv]].
  apply filter_In in Hv. apply in_map_iff. exists v. tauto.
Qed.

Lemma row_identity_snoc vs v k :
  In k (map row_identity (vs ++ [v])) ->
  In k (map row_identity vs) \/ fst (fst k) = v_id v.
Proof.
  rewrite map_app, in_app_iff. intros [H|[<-|[]]]; [now left|now right].
Qed.

Lemma new_version_if_changed_rows now data db prompt k :
  In k (map row_identity
          (prompt_versions (fst (new_version_if_changed now data db prompt))))
  ->
  In k (map row_identity (prompt_versions db)) \/
  fst (fst k) = next_id (map v_id (prompt_versions db)).
Proof.
  unfold new_version_if_changed.
  destruct (d_prompt_text data) as [text|]; [|now left].
  destruct (empty_str (strip text)); [now left|].
  destruct (get_current_version db prompt) as [c|].
  - destruct (negb (v_prompt_text c =? strip text)%string); [|now left].
    cbv zeta. cbn [fst prompt_versions with_versions]. intros H.
    apply row_identity_snoc in H. cbn [v_id] in H.
    now rewrite row_identity_set_is_current, map_v_id_set_is_current in H.
  - cbv zeta. cbn [negb fst prompt_versions with_versions]. intros H.
    now apply row_identity_snoc in H.
Qed.

(** After a request, a stored version is a version that was stored
    before, with its key, prompt and number, or it is new and carries the
    next key. *)
Lemma handle_rows libs now r db k :
  In k (map row_identity (prompt_versions (handle libs now r db))) ->
  In k (map row_identity (prompt_versions db)) \/
  fst (fst k) = next_id (map v_id (prompt_versions db)).
Proof.
  destruct r; cbn [handle].
  - (* create *)
    unfold create_prompt. destruct data as [data|]; [|now left].
    repeat match goal with
           | |- context [if ?b then _ else _] => destruct b; [now left|]
           end.
    cbn [fst prompt_versions]. intros H.
    now apply row_identity_snoc in H.
  - (* update *)
    unfold update_prompt.
    destruct (get_prompt_of_user db prompt_id user_id) as [prompt|];
      [|now left].
    cbv zeta.
    match goal with
    | |- context [new_version_if_changed ?n ?d ?b ?p] =>
        pose proof (new_version_if_changed_rows n d b p k) as Hn;
        destruct (new_version_if_changed n d b p) as [db2 nv]
    end.
    exact Hn.
  - (* delete prompt *)
    unfold delete_prompt.
    destruct (get_prompt_of_user db prompt_id user_id) as [prompt|];
      [|now left].
    cbn [fst prompt_versions delete_prompt_row]. intros H. left.
    now apply row_identity_filter in H.
  - (* promote *)
    unfold set_current_version.
    destruct (get_version db version_id) as [version|]; [|now left].
    destruct (prompt_of db version) as [prompt|]; [|now left].
    destruct (negb (p_user_id prompt =? user_id)); [now left|].
    cbn [fst prompt_versions with_versions].
    rewrite row_identity_set_is_current, row_identity_unset_current_of.
    now left.
  - (* delete version *)
    unfold delete_version.
    destruct (get_version db version_id) as [version|]; [|now left].
    destruct (prompt_of db version) as [prompt|]; [|now left].
    destruct (negb (p_user_id prompt =? user_id)); [now left|].
    destruct (count _ <=? 1); [now left|].
    cbv zeta. cbn [fst].
    destruct (v_is_current version);
      [destruct (first _)|];
      cbn [prompt_versions with_versions delete_version_row];
      rewrite ?row_identity_set_is_current;
      intros H; left; now apply row_identity_filter in H.
  - destruct (evaluate_version_tables libs now user_id version_id db)
      as [_ ->]. now left.
  - destruct (evaluate_all_versions_tables libs now user_id prompt_id db)
      as [_ ->]. now left.
Qed.

(** *** The largest number of a prompt does not go down *)

Lemma handle_dominated libs now r db pid :
  NoDup (map v_id (prompt_versions db)) ->
  keeps_latest_version pid db (handle libs now r db) = true ->
  dominated pid (prompt_versions db) (prompt_versions (handle libs now r db)).
Proof.
  intros Hnd Hkeep v Hv Hp.
  assert (Hvp : In v (versions_of db pid))
    by (apply filter_In; split; [exact Hv|now apply Z.eqb_eq]).
  destruct (first (order_by_desc v_version_number (versions_of db pid)))
    as [top|] eqn:E;
    [|apply first_order_by_desc_none in E; rewrite E in Hvp; contradiction].
  apply first_order_by_desc in E. destruct E as [Htop Hmax].
  apply filter_In in Htop. destruct Htop as [Htop Htp].
  unfold keeps_latest_version in Hkeep. rewrite forallb_forall in Hkeep.
  specialize (Hkeep top Htop).
  assert (Hhigh : highest_numbered db pid top = true).
  { unfold highest_numbered. rewrite Htp. cbn [andb].
    apply forallb_forall. intros w Hw. apply Z.leb_le. now apply Hmax. }
  rewrite Hhigh in Hkeep. cbn [negb orb] in Hkeep.
  unfold still_stored in Hkeep. apply existsb_exists in Hkeep.
  destruct Hkeep as [w [Hw Eid]]. apply Z.eqb_eq in Eid.
  apply Z.eqb_eq in Htp.
  destruct (handle_rows libs now r db (row_identity w)) as [Hold|Hnew];
    [now apply in_map| |].
  - apply in_map_iff in Hold. destruct Hold as [u [Eu Hu]].
    unfold row_identity in Eu. injection Eu as E1 E2 E3.
    assert (u = top)
      by (apply (same_key_same_row _ _ _ Hnd Hu Htop); congruence).
    subst u. exists w. split; [exact Hw|]. split; [congruence|].
    rewrite <- E3. now apply Hmax.
  - exfalso. cbn [row_identity fst] in Hnew.
    apply (next_id_fresh (map v_id (prompt_versions db))).
    rewrite <- Hnew, Eid. now apply in_map.
Qed.

Lemma run_dominated libs pid rs db :
  invariant db ->
  keep_latest_version libs pid rs db = true ->
  dominated pid (prompt_versions db) (prompt_versions (run libs rs db)).
Proof.
  revert db. induction rs as [|[now r] rs IH]; intros db Hinv H;
    cbn [keep_latest_version run] in *.
  - apply dominated_refl.
  - apply andb_true_iff in H. destruct H as [H1 H2].
    eapply dominated_trans.
    + apply handle_dominated; [apply Hinv|exact H1].
    + apply IH; [now apply handle_invariant|exact H2].
Qed.

(** What [update_prompt] answers when it creates a version. *)
Lemma update_prompt_new_version now u pid data db db' body nv :
  update_prompt now u pid data db = (db', Success 200 body) ->
  ub_new_version body = Some nv ->
  exists vs1,
    numbers vs1 = numbers (prompt_versions db) /\
    prompt_versions db' = vs1 ++ [vd_version nv] /\
    v_prompt_id (vd_version nv) = pid /\
    v_version_number (vd_version nv) =
      match first (order_by_desc v_version_number (versions_in pid vs1)) with
      | Some l => v_version_number l + 1
      | None => 1
      end.
Proof.
  unfold update_prompt.
  destruct (get_prompt_of_user db pid u) as [prompt|] eqn:Hp; [|discriminate].
  apply get_prompt_of_user_some in Hp. destruct Hp as [_ [Hid _]].
  set (prompt' := update_metadata db data prompt).
  set (db1 := with_prompts db (save_prompt prompt' (prompts db))).
  destruct (new_version_if_changed now data db1 prompt') as [db2 [v|]] eqn:E;
    intros [= <- <-]; cbn [ub_new_version option_map]; [|discriminate].
  intros [= <-]. cbn [vd_version version_to_dict].
  apply new_version_if_changed_some in E.
  change (p_id prompt') with (p_id prompt) in E. rewrite Hid in E.
  exact E.
Qed.

(** C2, as the specification words it: a number once given to a version
    of a prompt is never given again. Alice creates a prompt (version 1),
    changes its text (version 2), deletes version 2 and changes the text
    again: the new version is numbered 2, as the deleted one was. *)
Lemma version_number_reused :
  let before := two_versions in
  let after :=
    run plain_libs
      [(3, DeleteVersion alice 2);
       (4, UpdatePrompt alice 1 (new_text "Write a Rust function."))]
      before in
  exists old new,
    In old (prompt_versions before) /\
    In new (prompt_versions after) /\
    v_prompt_id old = v_prompt_id new /\
    v_version_number old = v_version_number new /\
    v_created_at old < v_created_at new /\
    v_prompt_text old <> v_prompt_text new.
Proof.
  cbv zeta.
  exists {| v_id := 2; v_prompt_id := 1; v_version_number := 2;
            v_prompt_text := "Write a Python function.";
            v_change_notes := "Version 2";
            v_is_current := true; v_created_at := 2 |}.
  exists {| v_id := 2; v_prompt_id := 1; v_version_number := 2;
            v_prompt_text := "Write a Rust function.";
            v_change_notes := "Version 2";
            v_is_current := true; v_created_at := 4 |}.
  split; [vm_compute; tauto|]. split; [vm_compute; tauto|].
  split; [reflexivity|]. split; [reflexivity|].
  split; [cbn; lia | discriminate].
Qed.

(** C2, amended. The number given to a new version is one more than the
    largest number among the versions the prompt has at that time (1 when
    it has none), hence above all of them. It is also above the number of
    every version the prompt had at an earlier time, provided that no
    request in between deleted the prompt or the version that carried its
    highest number when the request arrived. Requests that were refused,
    and deletions of other versions, do not matter. *)
Theorem new_version_number_above_earlier (libs : AiEngine.TextLibs)
    (rs : list (Z * Request)) (earlier : DB) (now user_id prompt_id : Z)
    (data : PromptData) (db' : DB) (body : UpdateBody) (nv : VersionDict) :
  well_formed earlier -> single_current earlier ->
  keep_latest_version libs prompt_id rs earlier = true ->
  update_prompt now user_id prompt_id data (run libs rs earlier)
    = (db', Success 200 body) ->
  ub_new_version body = Some nv ->
  let before := run libs rs earlier in
  let n := v_version_number (vd_version nv) in
  ((versions_of before prompt_id = [] /\ n = 1) \/
   (exists l, In l (versions_of before prompt_id) /\
              n = v_version_number l + 1)) /\
  (forall v, In v (versions_of before prompt_id) -> v_version_number v < n) /\
  (forall v, In v (versions_of earlier prompt_id) -> v_version_number v < n).
Proof.
  intros Hwf Hsc Hkeep Hupd Hnv before n.
  destruct (update_prompt_new_version _ _ _ _ _ _ _ _ Hupd Hnv)
    as [vs1 [Hnum [_ [_ Hn]]]].
  fold n in Hn. apply next_number_above in Hn. destruct Hn as [Habove Hmax].
  assert (Hbefore : forall v, In v (versions_of before prompt_id) ->
                              v_version_number v < n).
  { intros v Hv. apply filter_In in Hv. destruct Hv as [Hv Hp].
    apply Z.eqb_eq in Hp.
    destruct (numbers_dominated prompt_id _ _ (eq_sym Hnum) v Hv Hp)
      as [v' [Hv' [Hp' Hle]]].
    specialize (Habove v' Hv' Hp'). lia. }
  split; [|split].
  - destruct Hmax as [[Hnil ->]|[l [Hl ->]]].
    + left. split; [|reflexivity].
      destruct (versions_of before prompt_id) as [|v rest] eqn:E;
        [reflexivity|].
      exfalso.
      assert (Hv : In v (versions_of before prompt_id))
        by (rewrite E; now left).
      apply filter_In in Hv. destruct Hv as [Hv Hp]. apply Z.eqb_eq in Hp.
      assert (H : In (prompt_id, v_version_number v) (numbers vs1)).
      { rewrite Hnum. apply numbers_In. now exists v. }
      apply numbers_In in H. destruct H as [v' [Hv' [Hp' _]]].
      assert (Hin : In v' (versions_in prompt_id vs1))
        by (apply filter_In; split; [exact Hv' | now apply Z.eqb_eq]).
      rewrite Hnil in Hin. contradiction.
    + right. apply filter_In in Hl. destruct Hl as [Hl Hp].
      apply Z.eqb_eq in Hp.
      assert (H : In (prompt_id, v_version_number l) (numbers vs1))
        by (apply numbers_In; now exists l).
      rewrite Hnum in H. apply numbers_In in H.
      destruct H as [l' [Hl' [Hp' Hk]]].
      exists l'. split; [|now rewrite Hk].
      apply filter_In. split; [exact Hl' | now apply Z.eqb_eq].
  - exact Hbefore.
  - intros v Hv. apply filter_In in Hv. destruct Hv as [Hv Hp].
    apply Z.eqb_eq in Hp.
    destruct (run_dominated libs prompt_id rs earlier (conj Hwf Hsc) Hkeep
                v Hv Hp)
      as [v' [Hv' [Hp' Hle]]].
    assert (v_version_number v' < n); [|lia].
    apply Hbefore. apply filter_In. split; [exact Hv' | now apply Z.eqb_eq].
Qed.

(** Alice has versions 1 and 2. Bob asks to delete her prompt and her
    version 2 and is refused; Alice promotes version 1 and deletes it; then
    she changes the text: the new version is numbered 3. *)
Lemma new_version_number_above_earlier_witness :
  well_formed two_versions /\ single_current two_versions /\
  keep_latest_version plain_libs 1
    [(3, DeletePrompt bob 1); (4, DeleteVersion bob 2);
     (5, SetCurrentVersion alice 1); (6, DeleteVersion alice 1)]
    two_versions = true /\
  exists db' body nv,
    update_prompt 7 alice 1 (new_text "Write a Rust function.")
      (run plain_libs
         [(3, DeletePrompt bob 1); (4, DeleteVersion bob 2);
          (5, SetCurrentVersion alice 1); (6, DeleteVersion alice 1)]
         two_versions)
      = (db', Success 200 body) /\
    ub_new_version body = Some nv /\
    v_version_number (vd_version nv) = 3 /\
    (forall v, In v (versions_of two_versions 1) ->
               v_version_number v < v_version_number (vd_version nv)).
Proof.
  assert (Hwf : well_formed two_versions)
    by (apply well_formedb_ok; vm_compute; reflexivity).
  assert (Hsc : single_current two_versions)
    by (apply single_currentb_ok; vm_compute; reflexivity).
  split; [exact Hwf|]. split; [exact Hsc|].
  split; [vm_compute; reflexivity|].
  eexists. eexists. eexists.
  split; [vm_compute; reflexivity|].
  split; [reflexivity|].
  split; [reflexivity|].
  refine (proj2 (proj2
    (new_version_number_above_earlier plain_libs
       [(3, DeletePrompt bob 1); (4, DeleteVersion bob 2);
        (5, SetCurrentVersion alice 1); (6, DeleteVersion alice 1)]
       two_versions 7 alice 1 (new_text "Write a Rust function.")
       _ _ _ Hwf Hsc _ _ _))).
  - vm_compute; reflexivity.
  - vm_compute; reflexivity.
  - reflexivity.
Defined.

(* ===================================================================== *)
(** * Recommendation                                                     *)
(* ===================================================================== *)

Section RecommendationFacts.

Variable row_order : list PromptEvaluation -> list PromptEvaluation.
Hypothesis row_order_perm : forall l, Permutation (row_order l) l.

Lemma by_final_score_desc_In rows e :
  In e (by_final_score_desc row_order rows) <-> In e rows.
Proof.
  unfold by_final_score_desc. rewrite order_by_desc_In. split.
  - apply Permutation_in, row_order_perm.
  - apply Permutation_in, Permutation_sym, row_order_perm.
Qed.


Lemma best_evaluation_some db pid best :
  best_evaluation row_order db pid = Some best ->
  In best (evaluations_of_prompt db pid) /\
  forall e, In e (evaluations_of_prompt db pid) ->
            e_final_score e <= e_final_score best.
Proof.
  unfold best_evaluation, by_final_score_desc. intros H.
  apply first_order_by_desc in H. destruct H as [Hin Hmax]. split.
  - eapply Permutation_in; [apply row_order_perm | exact Hin].
  - intros e He. apply Hmax.
    eapply Permutation_in; [apply Permutation_sym, row_order_perm | exact He].
Qed.

Lemma best_evaluation_none db pid :
  best_evaluation row_order db pid = None ->
  evaluations_of_prompt db pid = [].
Proof.
  unfold best_evaluation, by_final_score_desc. intros H.
  apply first_order_by_desc_none in H.
  pose proof (row_order_perm (evaluations_of_prompt db pid)) as P.
  rewrite H in P. now apply Permutation_nil in P.
Qed.

Lemma alternative_evaluations_In db pid best a :
  In a (alternative_evaluations row_order db pid best) ->
  In a (evaluations_of_prompt db pid) /\ e_id a <> e_id best.
Proof.
  unfold alternative_evaluations. intros H.
  apply firstn_In, by_final_score_desc_In, filter_In in H.
  destruct H as [H Hne]. split; [exact H|].
  now apply negb_true_iff, Z.eqb_neq in Hne.
Qed.

Lemma alternative_evaluations_sorted db pid best :
  StronglySorted (desc e_final_score)
    (alternative_evaluations row_order db pid best).
Proof.
  unfold alternative_evaluations, by_final_score_desc.
  apply firstn_sorted, order_by_desc_sorted.
Qed.

Lemma alternative_evaluations_length db pid best :
  (List.length (alternative_evaluations row_order db pid best) <= 5)%nat.
Proof. unfold alternative_evaluations. apply firstn_le_length. Qed.

End RecommendationFacts.

(** The version of a joined evaluation is found. *)
Lemma version_of_joined db pid e :
  In e (evaluations_of_prompt db pid) ->
  exists v, version_of db e = Some v /\ v_id v = e_version_id e.
Proof.
  intros H. apply filter_In in H. destruct H as [_ H].
  apply existsb_exists in H. destruct H as [v [Hv E]].
  apply andb_true_iff in E. destruct E as [E _].
  unfold version_of, get_version.
  destruct (find _ _) as [v'|] eqn:F.
  - exists v'. split; [reflexivity|]. now apply find_by_id in F.
  - apply (find_none _ _ F) in Hv. congruence.
Qed.

Lemma alternative_dicts_ok db alts :
  (forall e, In e alts -> exists v, version_of db e = Some v) ->
  exists ds,
    alternative_dicts db alts = Ok ds /\
    map ad_final_score ds = map e_final_score alts /\
    map ad_version_id ds = map e_version_id alts.
Proof.
  induction alts as [|e alts IH]; intros H; cbn [alternative_dicts].
  - exists []. repeat split.
  - destruct (H e (or_introl eq_refl)) as [v ->].
    destruct IH as [ds [-> [H1 H2]]]; [intros; apply H; now right|].
    cbn [bind]. eexists. split; [reflexivity|].
    cbn [map ad_final_score ad_version_id]. now rewrite H1, H2.
Qed.


(** What [get_recommendation] answers the owner of a prompt. *)
Lemma get_recommendation_owner row_order u pid db prompt :
  (forall l, Permutation (row_order l) l) ->
  get_prompt_of_user db pid u = Some prompt ->
  (best_evaluation row_order db pid = None /\
   get_recommendation row_order u pid db =
     Failure 404 "No evaluations found. Please evaluate versions first.") \/
  (exists best version alts,
     best_evaluation row_order db pid = Some best /\
     version_of db best = Some version /\
     v_id version = e_version_id best /\
     map ad_final_score alts =
       map e_final_score (alternative_evaluations row_order db pid best) /\
     map ad_version_id alts =
       map e_version_id (alternative_evaluations row_order db pid best) /\
     get_recommendation row_order u pid db =
       Success 200
         {| rb_version := version_to_dict db false version;
            rb_evaluation := best;
            rb_is_current := v_is_current version;
            rb_alternatives := alts;
            rb_prompt := prompt |}).
Proof.
  intros Hperm Hp. unfold get_recommendation. rewrite Hp.
  destruct (best_evaluation row_order db pid) as [best|] eqn:Hb;
    [right | left; now split].
  pose proof (best_evaluation_some row_order Hperm db pid best Hb)
    as [Hin _].
  destruct (version_of_joined db pid best Hin) as [version [Hv Hid]].
  destruct (alternative_dicts_ok db
              (alternative_evaluations row_order db pid best))
    as [alts [Ha [H1 H2]]].
  { intros e He.
    apply (alternative_evaluations_In row_order Hperm) in He.
    destruct He as [He _].
    destruct (version_of_joined db pid e He) as [v [Hv' _]]. now exists v. }
  exists best, version, alts. rewrite Hv, Ha. repeat split; assumption.
Qed.

(** C4, as the specification words it: among the evaluations with the
    highest final score the most recent one is returned. Alice's two
    versions score alike; version 2 was evaluated last, and the evaluation
    of version 1 is returned. *)
Lemma recommendation_ignores_recency :
  exists body,
    get_recommendation key_order alice 1 tied = Success 200 body /\
    ~ spec_best tied 1 (rb_evaluation body).
Proof.
  eexists. split; [vm_compute; reflexivity|].
  cbn [rb_evaluation]. intros [_ H].
  specialize (H {| e_id := 2; e_version_id := 2;
                   e_clarity_score := 10000; e_relevance_score := 6300;
                   e_length_score := 1800; e_final_score := 6880;
                   e_evaluation_notes :=
                     "Matches coding: function | Good generation indicators | Too short (3 words)";
                   e_evaluated_at := 4 |}).
  assert (Hin : In {| e_id := 2; e_version_id := 2;
                      e_clarity_score := 10000; e_relevance_score := 6300;
                      e_length_score := 1800; e_final_score := 6880;
                      e_evaluation_notes :=
                        "Matches coding: function | Good generation indicators | Too short (3 words)";
                      e_evaluated_at := 4 |}
                   (evaluations_of_prompt tied 1))
    by (vm_compute; tauto).
  specialize (H Hin). unfold spec_no_better in H.
  cbn [e_final_score e_evaluated_at] in H. lia.
Qed.

(** C4, amended. For the owner of a prompt, whatever order the store
    gives to rows of equal score: when no evaluation is joined to a
    version of the prompt the answer is 404; otherwise the answer carries
    an evaluation of the prompt whose final score no other evaluation of
    the prompt exceeds (no rule decides between equal scores), and at most
    5 alternatives, which are other evaluation rows of the prompt in
    descending order of final score. *)
Theorem recommendation_is_a_best_evaluation
    (row_order : list PromptEvaluation -> list PromptEvaluation)
    (user_id prompt_id : Z) (db : DB) (prompt : Prompt) :
  (forall l, Permutation (row_order l) l) ->
  get_prompt_of_user db prompt_id user_id = Some prompt ->
  match get_recommendation row_order user_id prompt_id db with
  | Failure status _ =>
      status = 404 /\ evaluations_of_prompt db prompt_id = []
  | Success status body =>
      let best := rb_evaluation body in
      let alternatives :=
        alternative_evaluations row_order db prompt_id best in
      status = 200 /\
      In best (evaluations_of_prompt db prompt_id) /\
      (forall e, In e (evaluations_of_prompt db prompt_id) ->
                 e_final_score e <= e_final_score best) /\
      (List.length alternatives <= 5)%nat /\
      StronglySorted (desc e_final_score) alternatives /\
      (forall a, In a alternatives ->
                 In a (evaluations_of_prompt db prompt_id) /\
                 e_id a <> e_id best) /\
      map ad_final_score (rb_alternatives body) =
        map e_final_score alternatives /\
      map ad_version_id (rb_alternatives body) =
        map e_version_id alternatives
  end.
Proof.
  intros Hperm Hp.
  destruct (get_recommendation_owner row_order user_id prompt_id db prompt
              Hperm Hp)
    as [[Hnone ->]|[best [version [alts [Hb [_ [_ [H1 [H2 ->]]]]]]]]].
  - split; [reflexivity|]. now apply (best_evaluation_none row_order).
  - cbv zeta. cbn [rb_evaluation rb_alternatives].
    destruct (best_evaluation_some row_order Hperm db prompt_id best Hb)
      as [Hin Hmax].
    split; [reflexivity|]. split; [exact Hin|]. split; [exact Hmax|].
    split; [apply alternative_evaluations_length|].
    split; [apply alternative_evaluations_sorted|].
    split; [intros a; now apply alternative_evaluations_In|].
    now split.
Qed.

Lemma key_order_perm (l : list PromptEvaluation) : Permutation (key_order l) l.
Proof. apply Permutation_refl. Qed.

(** Alice asks for a recommendation over her two evaluated versions. *)
Lemma recommendation_is_a_best_evaluation_witness :
  match get_recommendation key_order alice 1 tied with
  | Failure status _ => status = 404 /\ evaluations_of_prompt tied 1 = []
  | Success status body =>
      let best := rb_evaluation body in
      let alternatives := alternative_evaluations key_order tied 1 best in
      status = 200 /\
      In best (evaluations_of_prompt tied 1) /\
      (forall e, In e (evaluations_of_prompt tied 1) ->
                 e_final_score e <= e_final_score best) /\
      (List.length alternatives <= 5)%nat /\
      StronglySorted (desc e_final_score) alternatives /\
      (forall a, In a alternatives ->
                 In a (evaluations_of_prompt tied 1) /\ e_id a <> e_id best) /\
      map ad_final_score (rb_alternatives body) =
        map e_final_score alternatives /\
      map ad_version_id (rb_alternatives body) =
        map e_version_id alternatives
  end.
Proof.
  refine (recommendation_is_a_best_evaluation key_order alice 1 tied
            {| p_id := 1; p_user_id := alice; p_title := "Helper";
               p_description := ""; p_task_type := "generation";
               p_domain := Some "coding"; p_is_public := false;
               p_tags := [] |} key_order_perm _).
  vm_compute; reflexivity.
Defined.



(* ===================================================================== *)
(** * More on the scoring engine                                         *)
(* ===================================================================== *)

From Stdlib Require Floats.FloatAxioms.

Import Properties.

(** ** Bounds *)

Lemma float_ltb_leb (x y : float) : (x <? y)%float = true -> (x <=? y)%float = true.
Proof.
  rewrite FloatAxioms.ltb_spec, FloatAxioms.leb_spec.
  unfold SFltb, SFleb.
  destruct (SFcompare (Prim2SF x) (Prim2SF y)) as [[| |]|]; congruence.
Qed.

(** [max(0, min(100, score))] lies between 0 and 100, whatever [score]. *)
Lemma clamp_in_bounds (score : float) :
  in_bounds (Py.max 0 (Py.min 100 score)).
Proof.
  unfold in_bounds, Py.max, Py.min.
  destruct (score <? 100)%float eqn:Hhi.
  - destruct (0 <? score)%float eqn:Hlo.
    + split; now apply float_ltb_leb.
    + split; reflexivity.
  - split; reflexivity.
Qed.

Lemma clarity_score_clamped text :
  exists score,
    AiEngine.clarity_score_of (AiEngine._calculate_clarity_score text) =
    Py.max 0 (Py.min 100 score).
Proof.
  unfold AiEngine._calculate_clarity_score.
  destruct (AiEngine.scan_keywords AiEngine.VAGUE_KEYWORDS _ _ _)
    as [vague score1].
  destruct (AiEngine.scan_keywords AiEngine.CLEAR_ACTION_WORDS _ _ _)
    as [action score2].
  cbn [AiEngine.clarity_score_of]. eexists. reflexivity.
Qed.

Lemma relevance_score_clamped text task_type domain :
  exists score,
    AiEngine.relevance_score_of
      (AiEngine._calculate_relevance_score text task_type domain) =
    Py.max 0 (Py.min 100 score).
Proof.
  unfold AiEngine._calculate_relevance_score.
  destruct (AiEngine.known_tag AiEngine.DOMAIN_KEYWORDS domain)
    as [[d domain_keywords]|].
  - destruct (AiEngine.scan_keywords domain_keywords _ _ _) as [found1 s1].
    destruct (negb (AiEngine.truthy found1));
      destruct (AiEngine.known_tag AiEngine.TASK_INDICATORS task_type)
        as [[t task_keywords]|];
      try (destruct (AiEngine.scan_keywords task_keywords _ _ _)
             as [found2 s2];
           destruct (negb (AiEngine.truthy found2)));
      cbn [AiEngine.relevance_score_of]; eexists; reflexivity.
  - destruct (AiEngine.known_tag AiEngine.TASK_INDICATORS task_type)
      as [[t task_keywords]|];
      try (destruct (AiEngine.scan_keywords task_keywords _ _ _)
             as [found2 s2];
           destruct (negb (AiEngine.truthy found2)));
      cbn [AiEngine.relevance_score_of]; eexists; reflexivity.
Qed.

Lemma length_score_clamped text :
  exists score,
    AiEngine.length_score_of (AiEngine._calculate_length_score text) =
    Py.max 0 (Py.min 100 score).
Proof.
  unfold AiEngine._calculate_length_score.
  set (n := Z.of_nat (List.length (split text))).
  destruct (n <? AiEngine.MIN_WORDS);
    [|destruct (n <? AiEngine.OPTIMAL_MIN_WORDS);
      [|destruct (n <=? AiEngine.OPTIMAL_MAX_WORDS);
        [|destruct (n <=? AiEngine.MAX_WORDS)]]];
    cbn [AiEngine.length_score_of]; eexists; reflexivity.
Qed.

(** X1. Whatever the text, the task type and the domain, the clarity, the
    relevance and the length sub-scores lie between 0 and 100. *)
Theorem sub_scores_in_bounds (text : string) (task_type domain : option string) :
  in_bounds (AiEngine.clarity_score_of
               (AiEngine._calculate_clarity_score text)) /\
  in_bounds (AiEngine.relevance_score_of
               (AiEngine._calculate_relevance_score text task_type domain)) /\
  in_bounds (AiEngine.length_score_of
               (AiEngine._calculate_length_score text)).
Proof.
  destruct (clarity_score_clamped text) as [c ->].
  destruct (relevance_score_clamped text task_type domain) as [r ->].
  destruct (length_score_clamped text) as [l ->].
  repeat split; apply clamp_in_bounds.
Qed.

(** ** Length bands *)

(** X2. The note of the length score is decided by the word count [n] at
    the thresholds 5, 15, 150 and 300: fewer than 5 words is "Too short",
    5 to 14 "Could be more detailed", 15 to 150 "Optimal length" with the
    full score 100, 151 to 300 "Slightly long", more than 300 "Too long". *)
Theorem length_bands (text : string) :
  let n := Z.of_nat (List.length (split text)) in
  let result := AiEngine._calculate_length_score text in
  let words := (" (" ++ str_int n ++ " words)")%string in
  AiEngine.word_count result = n /\
  AiEngine.length_notes result =
    [String.append
       (if n <? 5 then "Too short"
        else if n <? 15 then "Could be more detailed"
        else if n <=? 150 then "Optimal length"
        else if n <=? 300 then "Slightly long"
        else "Too long") words] /\
  (if (15 <=? n) && (n <=? 150)
   then AiEngine.length_score_of result = 100%float
   else True).
Proof.
  cbv zeta. unfold AiEngine._calculate_length_score.
  set (n := Z.of_nat (List.length (split text))).
  change AiEngine.MIN_WORDS with 5.
  change AiEngine.OPTIMAL_MIN_WORDS with 15.
  change AiEngine.OPTIMAL_MAX_WORDS with 150.
  change AiEngine.MAX_WORDS with 300.
  destruct (n <? 5) eqn:E1; [|destruct (n <? 15) eqn:E2;
    [|destruct (n <=? 150) eqn:E3; [|destruct (n <=? 300) eqn:E4]]];
    cbn [AiEngine.word_count AiEngine.length_notes AiEngine.length_score_of];
    (split; [reflexivity|]); (split; [reflexivity|]).
  - assert ((15 <=? n) = false) as -> by lia. exact I.
  - assert ((15 <=? n) = false) as -> by lia. exact I.
  - assert ((15 <=? n) = true) as -> by lia. reflexivity.
  - rewrite andb_false_r. exact I.
  - rewrite andb_false_r. exact I.
Qed.

(** ** Tags *)

Lemma dict_get_none {V} (d : list (string * V)) (k : string) :
  existsb (fun name => String.eqb name k) (map fst d) = false ->
  AiEngine.dict_get d k = None.
Proof.
  induction d as [|[k' v] d IH]; [reflexivity|].
  cbn [map fst existsb AiEngine.dict_get]. intros H.
  apply orb_false_iff in H. destruct H as [-> H]. now apply IH.
Qed.

Lemma known_tag_unrecognised table tag :
  recognised table tag = false -> AiEngine.known_tag table tag = None.
Proof.
  unfold recognised, AiEngine.known_tag.
  destruct tag as [[|c t]|]; try reflexivity.
  cbn [empty_str negb andb AiEngine.truthy_str]. intros H.
  now rewrite dict_get_none.
Qed.

(** X3. A task type and a domain that are missing, empty or not keys of
    the tables are ignored: the relevance result is the one computed
    without tags, nothing is matched, and the score is 50, 60 or 70
    (10 for a context word, 10 for an output format word). *)
Theorem unrecognised_tags_are_ignored (text : string)
    (task_type domain : option string) :
  recognised AiEngine.TASK_INDICATORS task_type = false ->
  recognised AiEngine.DOMAIN_KEYWORDS domain = false ->
  let result := AiEngine._calculate_relevance_score text task_type domain in
  result = AiEngine._calculate_relevance_score text None None /\
  AiEngine.domain_matches result = [] /\
  AiEngine.task_matches result = [] /\
  (AiEngine.relevance_score_of result = 50%float \/
   AiEngine.relevance_score_of result = 60%float \/
   AiEngine.relevance_score_of result = 70%float).
Proof.
  intros Ht Hd. cbv zeta.
  unfold AiEngine._calculate_relevance_score.
  rewrite (known_tag_unrecognised _ _ Ht), (known_tag_unrecognised _ _ Hd).
  cbn [AiEngine.known_tag].
  split; [reflexivity|].
  cbn [AiEngine.domain_matches AiEngine.task_matches
       AiEngine.relevance_score_of].
  split; [reflexivity|]. split; [reflexivity|].
  destruct (AiEngine.any_in _ _); destruct (AiEngine.any_in _ _);
    vm_compute; tauto.
Qed.

Lemma unrecognised_tags_are_ignored_witness :
  let result :=
    AiEngine._calculate_relevance_score "Write a table for me."
      (Some "poetry") (Some "") in
  result = AiEngine._calculate_relevance_score "Write a table for me."
             None None /\
  AiEngine.domain_matches result = [] /\
  AiEngine.task_matches result = [] /\
  (AiEngine.relevance_score_of result = 50%float \/
   AiEngine.relevance_score_of result = 60%float \/
   AiEngine.relevance_score_of result = 70%float).
Proof.
  exact (unrecognised_tags_are_ignored "Write a table for me."
           (Some "poetry") (Some "") eq_refl eq_refl).
Defined.

Lemma lower_empty t : lower t = "" -> t = "".
Proof. destruct t; [reflexivity | discriminate]. Qed.

Lemma known_tag_lower table tag1 tag2 :
  option_map lower tag1 = option_map lower tag2 ->
  match AiEngine.known_tag table tag1, AiEngine.known_tag table tag2 with
  | Some (_, keywords1), Some (_, keywords2) => keywords1 = keywords2
  | None, None => True
  | _, _ => False
  end.
Proof.
  destruct tag1 as [t1|], tag2 as [t2|]; cbn [option_map];
    try discriminate; [|intros _; exact I].
  intros [= E]. unfold AiEngine.known_tag.
  destruct t1 as [|c1 t1]; destruct t2 as [|c2 t2]; try discriminate;
    [exact I|].
  cbn [AiEngine.truthy_str]. rewrite E.
  now destruct (AiEngine.dict_get table _).
Qed.

(** X4. Task type and domain are looked up by their lower-case form: two
    spellings of the tags that differ in letter case only give the same
    relevance score and the same matched keywords. *)
Theorem tags_are_case_insensitive (text : string)
    (task1 task2 domain1 domain2 : option string) :
  option_map lower task1 = option_map lower task2 ->
  option_map lower domain1 = option_map lower domain2 ->
  let r1 := AiEngine._calculate_relevance_score text task1 domain1 in
  let r2 := AiEngine._calculate_relevance_score text task2 domain2 in
  AiEngine.relevance_score_of r1 = AiEngine.relevance_score_of r2 /\
  AiEngine.domain_matches r1 = AiEngine.domain_matches r2 /\
  AiEngine.task_matches r1 = AiEngine.task_matches r2.
Proof.
  intros Ht Hd. cbv zeta. unfold AiEngine._calculate_relevance_score.
  pose proof (known_tag_lower AiEngine.DOMAIN_KEYWORDS _ _ Hd) as Kd.
  pose proof (known_tag_lower AiEngine.TASK_INDICATORS _ _ Ht) as Kt.
  destruct (AiEngine.known_tag AiEngine.DOMAIN_KEYWORDS domain1)
    as [[d1 kd1]|];
    destruct (AiEngine.known_tag AiEngine.DOMAIN_KEYWORDS domain2)
      as [[d2 kd2]|]; try contradiction;
    destruct (AiEngine.known_tag AiEngine.TASK_INDICATORS task1)
      as [[t1 kt1]|];
    destruct (AiEngine.known_tag AiEngine.TASK_INDICATORS task2)
      as [[t2 kt2]|]; try contradiction; subst.
  - destruct (AiEngine.scan_keywords kd2 _ _ _) as [found1 s1].
    destruct (negb (AiEngine.truthy found1));
      destruct (AiEngine.scan_keywords kt2 _ _ _) as [found2 s2];
      destruct (negb (AiEngine.truthy found2)); repeat split.
  - destruct (AiEngine.scan_keywords kd2 _ _ _) as [found1 s1].
    destruct (negb (AiEngine.truthy found1)); repeat split.
  - destruct (AiEngine.scan_keywords kt2 _ _ _) as [found2 s2];
      destruct (negb (AiEngine.truthy found2)); repeat split.
  - repeat split.
Qed.

Lemma tags_are_case_insensitive_witness :
  let r1 :=
    AiEngine._calculate_relevance_score "Write a function."
      (Some "Generation") (Some "CODING") in
  let r2 :=
    AiEngine._calculate_relevance_score "Write a function."
      (Some "generation") (Some "coding") in
  AiEngine.relevance_score_of r1 = AiEngine.relevance_score_of r2 /\
  AiEngine.domain_matches r1 = AiEngine.domain_matches r2 /\
  AiEngine.task_matches r1 = AiEngine.task_matches r2.
Proof.
  exact (tags_are_case_insensitive "Write a function."
           (Some "Generation") (Some "generation")
           (Some "CODING") (Some "coding") eq_refl eq_refl).
Defined.

(** ** Suggestions *)

(** X5. [get_improvement_suggestions] gives no suggestion exactly when
    none of the three scores of the result is below 70, and never more
    than five. *)
Theorem suggestions_iff_low_score (result : AiEngine.EvaluationResult)
    (text : string) :
  (AiEngine.get_improvement_suggestions result text = [] <->
   (AiEngine.clarity_score result <? 70)%float = false /\
   (AiEngine.relevance_score result <? 70)%float = false /\
   (AiEngine.length_score result <? 70)%float = false) /\
  (List.length (AiEngine.get_improvement_suggestions result text) <= 5)%nat.
Proof.
  unfold AiEngine.get_improvement_suggestions.
  destruct (AiEngine.clarity_score result <? 70)%float;
    destruct (AiEngine.relevance_score result <? 70)%float;
    destruct (AiEngine.length_score result <? 70)%float;
    try destruct (AiEngine.truthy _);
    try destruct (AiEngine.word_count _ <? AiEngine.OPTIMAL_MIN_WORDS);
    cbn [app List.length];
    (split; [split; [intros H; try discriminate H; repeat split
                    | intros [H1 [H2 H3]]; try discriminate; reflexivity]
            | lia]).
Qed.

(** ** Weights *)

(** X6. [evaluate] needs the keys 'clarity', 'relevance' and 'length' in
    the weights of the evaluator: with the three of them it returns a
    result, and without one of them it raises KeyError. An evaluator built
    without weights, or with an empty dictionary, has the three default
    weights. *)
Theorem evaluate_raises_iff_weight_missing (libs : AiEngine.TextLibs)
    (self : AiEngine.PromptEvaluator) (text : string)
    (task_type domain : option string) :
  (if has_weights self
   then exists r, AiEngine.evaluate libs self text task_type domain = Ok r
   else AiEngine.evaluate libs self text task_type domain = Raise "KeyError")
  /\ has_weights (AiEngine.__init__ None) = true
  /\ has_weights (AiEngine.__init__ (Some [])) = true.
Proof.
  split; [|split; reflexivity].
  unfold has_weights, AiEngine.evaluate, AiEngine.dict_item.
  destruct (AiEngine.dict_get (AiEngine.weights self) "clarity");
    [|reflexivity].
  destruct (AiEngine.dict_get (AiEngine.weights self) "relevance");
    [|reflexivity].
  destruct (AiEngine.dict_get (AiEngine.weights self) "length");
    [|reflexivity].
  cbn [bind]. eexists. reflexivity.
Qed.

(* ===================================================================== *)
(** * More invariants of the store                                       *)
(* ===================================================================== *)

(** ** No evaluation outlives its version *)

Lemma evaluate_missing_evaluations libs now prompt versions db es db' es' :
  evaluate_missing libs now prompt versions db es = Ok (db', es') ->
  exists added,
    prompt_evaluations db' = prompt_evaluations db ++ added /\
    es' = es ++ added /\
    incl (map e_version_id added) (map v_id versions).
Proof.
  revert db es. induction versions as [|v vs IH]; intros db es H;
    cbn [evaluate_missing] in H.
  - injection H as <- <-. exists []. rewrite !app_nil_r.
    repeat split. intros x [].
  - destruct (get_latest_evaluation db v).
    + destruct (IH _ _ H) as [added [H1 [H2 H3]]].
      exists added. repeat split; auto.
      intros x Hx. right. now apply H3.
    + destruct (AiEngine.evaluate_prompt _ _ _ _) as [result|];
        cbn [bind] in H; [|discriminate].
      destruct (IH _ _ H) as [added [H1 [H2 H3]]].
      cbn [prompt_evaluations with_evaluations] in H1.
      exists (new_evaluation now db v result :: added).
      rewrite H1, H2, <- !app_assoc. repeat split.
      intros x [<-|Hx]; [now left | right; now apply H3].
Qed.

(** X7. No handler leaves an evaluation without its version: if every
    evaluation of the store belongs to a version of the store, this still
    holds after any request (deleting a version or a prompt takes the
    evaluations along). *)
Theorem evaluations_keep_their_versions (libs : AiEngine.TextLibs)
    (now : Z) (r : Request) (db : DB) :
  evaluations_have_versions db ->
  evaluations_have_versions (handle libs now r db).
Proof.
  unfold evaluations_have_versions. intros H. destruct r; cbn [handle].
  - (* create *)
    unfold create_prompt. destruct data as [data|]; [|exact H].
    repeat match goal with
           | |- context [if ?b then _ else _] => destruct b; [exact H|]
           end.
    cbn [fst prompt_versions prompt_evaluations]. rewrite map_app.
    intros x Hx. apply in_or_app. left. now apply H.
  - (* update *)
    unfold update_prompt.
    destruct (get_prompt_of_user db prompt_id user_id) as [prompt|];
      [|exact H].
    set (prompt' := update_metadata db data prompt).
    set (db1 := with_prompts db (save_prompt prompt' (prompts db))).
    unfold new_version_if_changed.
    destruct (d_prompt_text data) as [text|]; [|exact H].
    destruct (empty_str (strip text)); [exact H|].
    destruct (get_current_version db1 prompt') as [c|].
    + destruct (negb (v_prompt_text c =? strip text)%string); [|exact H].
      cbv zeta.
      cbn [fst prompt_versions prompt_evaluations with_versions with_prompts
           db1].
      rewrite map_app, map_v_id_set_is_current.
      intros x Hx. apply in_or_app. left. now apply H.
    + cbv zeta.
      cbn [negb fst prompt_versions prompt_evaluations with_versions
           with_prompts db1].
      rewrite map_app. intros x Hx. apply in_or_app. left. now apply H.
  - (* delete prompt *)
    unfold delete_prompt.
    destruct (get_prompt_of_user db prompt_id user_id) as [prompt|];
      [|exact H].
    cbn [fst prompt_versions prompt_evaluations delete_prompt_row].
    intros x Hx. apply in_map_iff in Hx. destruct Hx as [e [<- He]].
    apply filter_In in He. destruct He as [He Hnone].
    assert (Hv : In (e_version_id e) (map v_id (prompt_versions db)))
      by (apply H; now apply in_map).
    apply in_map_iff in Hv. destruct Hv as [v [Hid Hv]].
    apply in_map_iff. exists v. split; [exact Hid|].
    apply filter_In. split; [exact Hv|].
    destruct (v_prompt_id v =? p_id prompt) eqn:Ep; [|reflexivity].
    exfalso. apply negb_true_iff in Hnone.
    assert (existsb (fun v => (v_id v =? e_version_id e)
                              && (v_prompt_id v =? p_id prompt))
                    (prompt_versions db) = true); [|congruence].
    apply existsb_exists. exists v. split; [exact Hv|].
    rewrite Ep, Hid, Z.eqb_refl. reflexivity.
  - (* promote *)
    unfold set_current_version.
    destruct (get_version db version_id) as [version|]; [|exact H].
    destruct (prompt_of db version) as [prompt|]; [|exact H].
    destruct (negb (p_user_id prompt =? user_id)); [exact H|].
    cbn [fst prompt_versions prompt_evaluations with_versions].
    now rewrite map_v_id_set_is_current, map_v_id_unset_current_of.
  - (* delete version *)
    unfold delete_version.
    destruct (get_version db version_id) as [version|]; [|exact H].
    destruct (prompt_of db version) as [prompt|]; [|exact H].
    destruct (negb (p_user_id prompt =? user_id)); [exact H|].
    destruct (count _ <=? 1); [exact H|].
    cbv zeta. cbn [fst].
    assert (Hrest :
      incl (map e_version_id (prompt_evaluations
                                (delete_version_row db version_id)))
           (map v_id (prompt_versions (delete_version_row db version_id)))).
    { cbn [prompt_versions prompt_evaluations delete_version_row].
      intros x Hx. apply in_map_iff in Hx. destruct Hx as [e [<- He]].
      apply filter_In in He. destruct He as [He Hne].
      assert (Hv : In (e_version_id e) (map v_id (prompt_versions db)))
        by (apply H; now apply in_map).
      apply in_map_iff in Hv. destruct Hv as [v [Hid Hv]].
      apply in_map_iff. exists v. split; [exact Hid|].
      apply filter_In. split; [exact Hv|]. now rewrite Hid. }
    destruct (v_is_current version); [|exact Hrest].
    destruct (first _); [|exact Hrest].
    cbn [prompt_versions prompt_evaluations with_versions].
    now rewrite map_v_id_set_is_current.
  - (* evaluate *)
    unfold evaluate_version.
    destruct (get_version db version_id) as [version|] eqn:Hv; [|exact H].
    destruct (prompt_of db version) as [prompt|]; [|exact H].
    destruct (negb (p_user_id prompt =? user_id)); [exact H|].
    destruct (AiEngine.evaluate_prompt _ _ _ _) as [result|]; [|exact H].
    cbn [fst prompt_versions prompt_evaluations with_evaluations].
    rewrite map_app. intros x Hx. apply in_app_or in Hx.
    destruct Hx as [Hx|[<-|[]]]; [now apply H|].
    cbn [new_evaluation e_version_id].
    apply find_by_id in Hv. destruct Hv as [Hv _]. now apply in_map.
  - (* evaluate all *)
    unfold evaluate_all_versions.
    destruct (get_prompt_of_user db prompt_id user_id) as [prompt|];
      [|exact H].
    destruct (evaluate_missing _ _ _ _ _ _) as [[db' es]|] eqn:E; [|exact H].
    cbn [fst].
    destruct (evaluate_missing_tables _ _ _ _ _ _ _ _ E) as [_ Hvs].
    destruct (evaluate_missing_evaluations _ _ _ _ _ _ _ _ E)
      as [added [Hes [_ Hadded]]].
    rewrite Hvs, Hes, map_app. intros x Hx. apply in_app_or in Hx.
    destruct Hx as [Hx|Hx]; [now apply H|].
    apply Hadded in Hx. apply in_map_iff in Hx. destruct Hx as [v [<- Hv]].
    apply order_by_desc_In in Hv. apply filter_In in Hv.
    apply in_map. tauto.
Qed.

Lemma evaluations_keep_their_versions_witness :
  evaluations_have_versions tied /\
  evaluations_have_versions
    (handle plain_libs 9 (DeleteVersion alice 1) tied).
Proof.
  assert (H : evaluations_have_versions tied).
  { intros x Hx. vm_compute in Hx. vm_compute. tauto. }
  split; [exact H|].
  exact (evaluations_keep_their_versions plain_libs 9 (DeleteVersion alice 1)
           tied H).
Defined.

(** ** The unique constraint on version numbers *)

(** The version table after [update_prompt]: as before, or with flags
    changed and one version appended, numbered one above the numbers of
    the prompt. *)
Lemma update_prompt_versions now u pid data db :
  prompt_versions (fst (update_prompt now u pid data db)) = prompt_versions db
  \/
  exists vs1 nv,
    prompt_versions (fst (update_prompt now u pid data db)) = vs1 ++ [nv] /\
    numbers vs1 = numbers (prompt_versions db) /\
    map v_id vs1 = map v_id (prompt_versions db) /\
    v_prompt_id nv = pid /\
    In pid (map p_id (prompts db)) /\
    (forall v, In v vs1 -> v_prompt_id v = pid ->
               v_version_number v < v_version_number nv).
Proof.
  unfold update_prompt.
  destruct (get_prompt_of_user db pid u) as [prompt|] eqn:Hp; [|now left].
  apply get_prompt_of_user_some in Hp. destruct Hp as [Hin [Hid _]].
  set (prompt' := update_metadata db data prompt).
  set (db1 := with_prompts db (save_prompt prompt' (prompts db))).
  destruct (new_version_if_changed now data db1 prompt') as [db2 [nv|]] eqn:E;
    cbn [fst].
  - right.
    assert (Hids : exists vs1,
               prompt_versions db2 = vs1 ++ [nv] /\
               map v_id vs1 = map v_id (prompt_versions db)).
    { revert E. unfold new_version_if_changed.
      destruct (d_prompt_text data) as [text|]; [|discriminate].
      destruct (empty_str (strip text)); [discriminate|].
      destruct (get_current_version db1 prompt') as [c|].
      - destruct (negb (v_prompt_text c =? strip text)%string);
          [|discriminate].
        cbv zeta. intros [= <- <-]. eexists. split; [reflexivity|].
        apply map_v_id_set_is_current.
      - cbv zeta. cbn [negb]. intros [= <- <-]. eexists.
        split; reflexivity. }
    destruct Hids as [vs1' [Hvs1' Hids]].
    apply new_version_if_changed_some in E.
    destruct E as [vs1 [Hnum [Hvs [Hnvp Hn]]]].
    assert (vs1' = vs1).
    { rewrite Hvs in Hvs1'. now apply app_inj_tail in Hvs1'. }
    subst vs1'.
    exists vs1, nv. change (p_id prompt') with (p_id prompt) in *.
    rewrite Hid in *. repeat split; auto.
    + rewrite <- Hid. now apply in_map.
    + symmetry in Hn. apply eq_sym, next_number_above in Hn. apply Hn.
  - apply new_version_if_changed_none in E. subst db2. now left.
Qed.

Lemma numbers_unset_current_of p vs :
  numbers (unset_current_of p vs) = numbers vs.
Proof.
  unfold numbers, unset_current_of. rewrite map_map. apply map_ext.
  intros v. now destruct (v_prompt_id v =? p).
Qed.

Lemma numbers_filter_NoDup (keep : PromptVersion -> bool) vs :
  NoDup (numbers vs) -> NoDup (numbers (filter keep vs)).
Proof.
  unfold numbers. intros Hnd. induction vs as [|v vs IH]; [constructor|].
  cbn [map] in Hnd. apply NoDup_cons_iff in Hnd. destruct Hnd as [Hv Hvs].
  cbn [filter]. destruct (keep v); cbn [map]; [|now apply IH].
  apply NoDup_cons; [|now apply IH].
  intros Hin. apply Hv. apply in_map_iff in Hin.
  destruct Hin as [w [Hw Hin]]. apply filter_In in Hin.
  apply in_map_iff. exists w. tauto.
Qed.

(** X8. The unique constraint on (prompt_id, version_number) is never
    violated: in a store that satisfies the schema constraints and where
    no two versions of a prompt share a number, this is still so after any
    request. *)
Theorem version_numbers_stay_unique (libs : AiEngine.TextLibs) (now : Z)
    (r : Request) (db : DB) :
  well_formed db -> version_numbers_unique db ->
  version_numbers_unique (handle libs now r db).
Proof.
  unfold version_numbers_unique. intros [Hnd Hfk] H.
  destruct r; cbn [handle].
  - (* create *)
    unfold create_prompt. destruct data as [data|]; [|exact H].
    repeat match goal with
           | |- context [if ?b then _ else _] => destruct b; [exact H|]
           end.
    cbn [fst prompt_versions]. unfold numbers. rewrite map_app.
    apply NoDup_snoc; [exact H|]. cbn [v_prompt_id v_version_number p_id].
    intros Hin. apply in_map_iff in Hin. destruct Hin as [v [[= Hp _] Hv]].
    apply (next_id_fresh (map p_id (prompts db))).
    rewrite <- Hp. apply Hfk. now apply in_map.
  - (* update *)
    destruct (update_prompt_versions now user_id prompt_id data db)
      as [->|[vs1 [nv [-> [Hnum [_ [Hp [_ Habove]]]]]]]]; [exact H|].
    unfold numbers. rewrite map_app. apply NoDup_snoc.
    + fold (numbers vs1). now rewrite Hnum.
    + intros Hin. apply in_map_iff in Hin.
      destruct Hin as [v [[= Hvp Hvn] Hv]].
      specialize (Habove v Hv (eq_trans Hvp Hp)). lia.
  - (* delete prompt *)
    unfold delete_prompt.
    destruct (get_prompt_of_user db prompt_id user_id) as [prompt|];
      [|exact H].
    cbn [fst prompt_versions delete_prompt_row].
    now apply numbers_filter_NoDup.
  - (* promote *)
    unfold set_current_version.
    destruct (get_version db version_id) as [version|]; [|exact H].
    destruct (prompt_of db version) as [prompt|]; [|exact H].
    destruct (negb (p_user_id prompt =? user_id)); [exact H|].
    cbn [fst prompt_versions with_versions].
    now rewrite numbers_set_is_current, numbers_unset_current_of.
  - (* delete version *)
    unfold delete_version.
    destruct (get_version db version_id) as [version|]; [|exact H].
    destruct (prompt_of db version) as [prompt|]; [|exact H].
    destruct (negb (p_user_id prompt =? user_id)); [exact H|].
    destruct (count _ <=? 1); [exact H|].
    cbv zeta. cbn [fst].
    destruct (v_is_current version);
      [destruct (first _)|];
      cbn [prompt_versions with_versions delete_version_row];
      rewrite ?numbers_set_is_current; now apply numbers_filter_NoDup.
  - destruct (evaluate_version_tables libs now user_id version_id db)
      as [_ ->]. exact H.
  - destruct (evaluate_all_versions_tables libs now user_id prompt_id db)
      as [_ ->]. exact H.
Qed.

Lemma version_numbers_stay_unique_witness :
  well_formed two_versions /\ version_numbers_unique two_versions /\
  version_numbers_unique
    (handle plain_libs 3
       (UpdatePrompt alice 1 (new_text "Write a Rust function."))
       two_versions).
Proof.
  assert (Hwf : well_formed two_versions)
    by (apply well_formedb_ok; vm_compute; reflexivity).
  assert (Hu : version_numbers_unique two_versions).
  { unfold version_numbers_unique. vm_compute.
    repeat constructor; cbn; intuition discriminate. }
  split; [exact Hwf|]. split; [exact Hu|].
  exact (version_numbers_stay_unique plain_libs 3
           (UpdatePrompt alice 1 (new_text "Write a Rust function."))
           two_versions Hwf Hu).
Defined.

(** ** No prompt without a version *)

(** X9. A prompt never loses its last version: in a store that satisfies
    the schema constraints and where every prompt has a version, every
    prompt still has one after any request. *)
Theorem prompts_keep_a_version (libs : AiEngine.TextLibs) (now : Z)
    (r : Request) (db : DB) :
  well_formed db -> every_prompt_has_version db ->
  every_prompt_has_version (handle libs now r db).
Proof.
  unfold every_prompt_has_version. intros [Hnd Hfk] H.
  destruct r; cbn [handle].
  - (* create *)
    unfold create_prompt. destruct data as [data|]; [|exact H].
    repeat match goal with
           | |- context [if ?b then _ else _] => destruct b; [exact H|]
           end.
    cbn [fst prompt_versions prompts]. rewrite !map_app.
    cbn [map v_prompt_id p_id].
    intros x Hx. apply in_or_app. apply in_app_or in Hx.
    destruct Hx as [Hx|Hx]; [left; now apply H | now right].
  - (* update *)
    assert (Hps : map p_id (prompts (fst (update_prompt now user_id prompt_id
                                            data db)))
                  = map p_id (prompts db)).
    { unfold update_prompt.
      destruct (get_prompt_of_user db prompt_id user_id) as [prompt|];
        [|reflexivity].
      set (prompt' := update_metadata db data prompt).
      set (db1 := with_prompts db (save_prompt prompt' (prompts db))).
      assert (Hdb1 : map p_id (prompts db1) = map p_id (prompts db))
        by apply map_p_id_save_prompt.
      unfold new_version_if_changed.
      destruct (d_prompt_text data) as [text|]; [|exact Hdb1].
      destruct (empty_str (strip text)); [exact Hdb1|].
      destruct (get_current_version db1 prompt') as [c|];
        [destruct (negb (v_prompt_text c =? strip text)%string)|];
        exact Hdb1. }
    rewrite Hps.
    destruct (update_prompt_versions now user_id prompt_id data db)
      as [->|[vs1 [nv [-> [Hnum _]]]]]; [exact H|].
    intros x Hx. apply H in Hx. rewrite map_app. apply in_or_app. left.
    apply in_map_iff in Hx. destruct Hx as [v [Hvp Hv]].
    assert (Hn : In (x, v_version_number v) (numbers vs1)).
    { rewrite Hnum. apply numbers_In. now exists v. }
    apply numbers_In in Hn. destruct Hn as [w [Hw [Hwp _]]].
    rewrite <- Hwp. now apply in_map.
  - (* delete prompt *)
    unfold delete_prompt.
    destruct (get_prompt_of_user db prompt_id user_id) as [prompt|];
      [|exact H].
    cbn [fst prompt_versions prompts delete_prompt_row].
    intros x Hx. apply in_map_iff in Hx. destruct Hx as [p [<- Hp]].
    apply filter_In in Hp. destruct Hp as [Hp Hne].
    assert (Hv : In (p_id p) (map v_prompt_id (prompt_versions db)))
      by (apply H; now apply in_map).
    apply in_map_iff in Hv. destruct Hv as [v [Hvp Hv]].
    apply in_map_iff. exists v. split; [exact Hvp|].
    apply filter_In. split; [exact Hv|]. now rewrite Hvp.
  - (* promote *)
    unfold set_current_version.
    destruct (get_version db version_id) as [version|]; [|exact H].
    destruct (prompt_of db version) as [prompt|]; [|exact H].
    destruct (negb (p_user_id prompt =? user_id)); [exact H|].
    cbn [fst prompt_versions prompts with_versions].
    now rewrite map_v_prompt_id_set_is_current,
      map_v_prompt_id_unset_current_of.
  - (* delete version *)
    destruct (get_version db version_id) as [version|] eqn:Hv.
    2:{ rewrite delete_version_unchanged; [exact H|]. congruence. }
    destruct (prompt_of db version) as [prompt|] eqn:Hp.
    2:{ rewrite delete_version_unchanged; [exact H|]. congruence. }
    destruct (Z.eq_dec (p_user_id prompt) user_id) as [Hu|Hu].
    2:{ rewrite delete_version_unchanged; [exact H|].
        intros v p E1 E2 [E3 _]. congruence. }
    destruct (Z_lt_dec 1 (count (versions_of db (p_id prompt)))) as [Hc|Hc].
    2:{ rewrite delete_version_unchanged; [exact H|].
        intros v p E1 E2 [_ E3]. congruence. }
    rewrite (delete_version_versions _ _ _ _ _ Hv Hp Hu Hc),
      delete_version_prompts.
    apply find_by_id in Hv. destruct Hv as [Hin _].
    apply prompt_of_some in Hp. destruct Hp as [_ Hpid].
    assert (Hrest : incl (map p_id (prompts db))
                      (map v_prompt_id
                         (filter (fun x => negb (v_id x =? v_id version))
                                 (prompt_versions db)))).
    { unfold count, versions_of in Hc. rewrite Hpid in Hc.
      fold (versions_in (v_prompt_id version) (prompt_versions db)) in Hc.
      destruct (split_at_key v_id _ version Hnd Hin)
        as [l1 [l2 [E [H1 H2]]]].
      rewrite E in *. rewrite delete_split by assumption.
      intros x Hx. apply H in Hx. rewrite map_app in *. cbn [map] in Hx.
      apply in_app_or in Hx. apply in_or_app.
      destruct Hx as [Hx|[Hx|Hx]]; [now left | | now right].
      (* the prompt of the deleted version keeps another version *)
      subst x.
      assert (Hsplit : versions_in (v_prompt_id version) (l1 ++ version :: l2)
                       = versions_in (v_prompt_id version) l1
                         ++ version :: versions_in (v_prompt_id version) l2).
      { rewrite versions_in_app. f_equal. unfold versions_in.
        cbn [filter]. now rewrite Z.eqb_refl. }
      rewrite Hsplit, length_app in Hc. cbn [List.length] in Hc.
      assert (Hone : versions_in (v_prompt_id version) l1 <> [] \/
                     versions_in (v_prompt_id version) l2 <> []).
      { destruct (versions_in (v_prompt_id version) l1);
          [|left; discriminate].
        destruct (versions_in (v_prompt_id version) l2);
          [cbn in Hc; lia | right; discriminate]. }
      destruct Hone as [Hone|Hone]; apply versions_in_nonempty in Hone;
        [now left | now right]. }
    unfold after_delete.
    destruct (v_is_current version); [destruct (first _)|];
      rewrite ?map_v_prompt_id_set_is_current; exact Hrest.
  - destruct (evaluate_version_tables libs now user_id version_id db)
      as [-> ->]. exact H.
  - destruct (evaluate_all_versions_tables libs now user_id prompt_id db)
      as [-> ->]. exact H.
Qed.

Lemma prompts_keep_a_version_witness :
  well_formed two_versions /\ every_prompt_has_version two_versions /\
  every_prompt_has_version
    (handle plain_libs 3 (DeleteVersion alice 2) two_versions).
Proof.
  assert (Hwf : well_formed two_versions)
    by (apply well_formedb_ok; vm_compute; reflexivity).
  assert (Hv : every_prompt_has_version two_versions).
  { intros x Hx. vm_compute in Hx. vm_compute. tauto. }
  split; [exact Hwf|]. split; [exact Hv|].
  exact (prompts_keep_a_version plain_libs 3 (DeleteVersion alice 2)
           two_versions Hwf Hv).
Defined.

(* ===================================================================== *)
(** * What the handlers answer and change                                *)
(* ===================================================================== *)

(** ** Requests about somebody else's prompt *)

Lemma not_owner_no_prompt db u pid :
  owns db u pid = false -> get_prompt_of_user db pid u = None.
Proof.
  unfold owns, get_prompt_of_user. intros H.
  destruct (find _ _) as [p|] eqn:F; [|reflexivity].
  apply find_some in F. destruct F as [Hp E].
  assert (existsb (fun p => (p_id p =? pid) && (p_user_id p =? u))
                  (prompts db) = true); [|congruence].
  apply existsb_exists. now exists p.
Qed.

Lemma not_owner_of_version db u version prompt :
  owns db u (v_prompt_id version) = false ->
  prompt_of db version = Some prompt ->
  negb (p_user_id prompt =? u) = true.
Proof.
  unfold owns. intros H Hp. apply prompt_of_some in Hp.
  destruct Hp as [Hin Hid]. apply negb_true_iff.
  destruct (p_user_id prompt =? u) eqn:E; [|reflexivity].
  assert (existsb (fun p => (p_id p =? v_prompt_id version)
                            && (p_user_id p =? u)) (prompts db) = true);
    [|congruence].
  apply existsb_exists. exists prompt. split; [exact Hin|].
  rewrite Hid, Z.eqb_refl. exact E.
Qed.

Lemma prompt_of_exists db version :
  well_formed db -> In version (prompt_versions db) ->
  exists prompt, prompt_of db version = Some prompt.
Proof.
  intros [_ Hfk] Hin. unfold prompt_of.
  destruct (find _ _) as [p|] eqn:F; [now exists p|]. exfalso.
  assert (H : In (v_prompt_id version) (map p_id (prompts db)))
    by (apply Hfk; now apply in_map).
  apply in_map_iff in H. destruct H as [p [Hid Hp]].
  apply (find_none _ _ F) in Hp. apply Z.eqb_neq in Hp. contradiction.
Qed.

(** X10. A request about a prompt the caller does not own (an update, a
    deletion, a promotion or deletion of one of its versions, an
    evaluation) changes nothing in the store and is answered 403 (for a
    version) or 404 (for a prompt). *)
Theorem foreign_requests_change_nothing (libs : AiEngine.TextLibs) (now : Z)
    (r : Request) (db : DB) (prompt_id : Z) :
  well_formed db ->
  target_prompt db r = Some prompt_id ->
  owns db (caller r) prompt_id = false ->
  handle libs now r db = db /\
  (reply_status libs now r db = 403 \/ reply_status libs now r db = 404).
Proof.
  intros Hwf Ht Ho.
  destruct r; cbn [target_prompt caller handle reply_status] in *;
    try discriminate;
    try (injection Ht as <-; apply not_owner_no_prompt in Ho).
  - unfold update_prompt. rewrite Ho. split; [reflexivity | now right].
  - unfold delete_prompt. rewrite Ho. split; [reflexivity | now right].
  - unfold set_current_version.
    destruct (get_version db version_id) as [version|] eqn:Hv;
      [|discriminate].
    injection Ht as <-. apply find_by_id in Hv. destruct Hv as [Hin _].
    destruct (prompt_of_exists db version Hwf Hin) as [prompt Hp].
    rewrite Hp, (not_owner_of_version _ _ _ _ Ho Hp).
    split; [reflexivity | now left].
  - unfold delete_version.
    destruct (get_version db version_id) as [version|] eqn:Hv;
      [|discriminate].
    injection Ht as <-. apply find_by_id in Hv. destruct Hv as [Hin _].
    destruct (prompt_of_exists db version Hwf Hin) as [prompt Hp].
    rewrite Hp, (not_owner_of_version _ _ _ _ Ho Hp).
    split; [reflexivity | now left].
  - unfold evaluate_version.
    destruct (get_version db version_id) as [version|] eqn:Hv;
      [|discriminate].
    injection Ht as <-. apply find_by_id in Hv. destruct Hv as [Hin _].
    destruct (prompt_of_exists db version Hwf Hin) as [prompt Hp].
    rewrite Hp, (not_owner_of_version _ _ _ _ Ho Hp).
    split; [reflexivity | now left].
  - unfold evaluate_all_versions. rewrite Ho.
    split; [reflexivity | now right].
Qed.

(** Bob asks to delete version 1 of Alice's prompt. *)
Lemma foreign_requests_change_nothing_witness :
  well_formed two_versions /\
  handle plain_libs 3 (DeleteVersion bob 1) two_versions = two_versions /\
  (reply_status plain_libs 3 (DeleteVersion bob 1) two_versions = 403 \/
   reply_status plain_libs 3 (DeleteVersion bob 1) two_versions = 404).
Proof.
  assert (Hwf : well_formed two_versions)
    by (apply well_formedb_ok; vm_compute; reflexivity).
  split; [exact Hwf|].
  exact (foreign_requests_change_nothing plain_libs 3 (DeleteVersion bob 1)
           two_versions 1 Hwf eq_refl eq_refl).
Defined.

(** ** Creating a prompt *)

(** X11. [create_prompt] either refuses the request with status 400 and
    leaves the store as it was (no body, or a title, task type or text
    that is missing or blank), or answers 201 after adding exactly one
    prompt, owned by the caller under a key no prompt had, and exactly one
    version of it: number 1, current, with the stripped, non-empty text.
    The prompt then has that version and no other. *)
Theorem create_prompt_outcome (now user_id : Z) (data : option PromptData)
    (db : DB) :
  well_formed db ->
  match create_prompt now user_id data db with
  | (db', Failure status _) => status = 400 /\ db' = db
  | (db', Success status body) =>
      status = 201 /\
      exists prompt version,
        prompts db' = prompts db ++ [prompt] /\
        prompt_versions db' = prompt_versions db ++ [version] /\
        prompt_evaluations db' = prompt_evaluations db /\
        p_user_id prompt = user_id /\
        ~ In (p_id prompt) (map p_id (prompts db)) /\
        v_version_number version = 1 /\
        v_is_current version = true /\
        v_prompt_text version <> "" /\
        option_map (fun d => strip (get_or (d_prompt_text d) "")) data =
          Some (v_prompt_text version) /\
        versions_of db' (p_id prompt) = [version] /\
        pd_prompt (cb_prompt body) = prompt
  end.
Proof.
  intros [_ Hfk]. unfold create_prompt.
  destruct data as [data|]; [|now split].
  destruct (no_keys data); [now split|].
  destruct (empty_str (strip (get_or (d_title data) ""))); [now split|].
  destruct (empty_str (strip (get_or (d_task_type data) ""))); [now split|].
  destruct (empty_str (strip (get_or (d_prompt_text data) ""))) eqn:Et;
    [now split|].
  cbv zeta. split; [reflexivity|].
  eexists. eexists.
  cbn [prompts prompt_versions prompt_evaluations p_user_id p_id
       v_version_number v_is_current v_prompt_text option_map
       cb_prompt pd_prompt prompt_to_dict].
  repeat split.
  - apply next_id_fresh.
  - intros E. cbn [v_prompt_text] in E. rewrite E in Et. discriminate.
  - unfold versions_of. cbn [prompt_versions p_id]. rewrite filter_app.
    cbn [filter v_prompt_id]. rewrite Z.eqb_refl.
    assert (Hnone : filter (fun v => v_prompt_id v
                                     =? next_id (map p_id (prompts db)))
                           (prompt_versions db) = []).
    { destruct (filter _ _) as [|v l] eqn:F; [reflexivity|]. exfalso.
      assert (Hv : In v (filter (fun v => v_prompt_id v
                                    =? next_id (map p_id (prompts db)))
                                (prompt_versions db)))
        by (rewrite F; now left).
      apply filter_In in Hv. destruct Hv as [Hv Hp]. apply Z.eqb_eq in Hp.
      apply (next_id_fresh (map p_id (prompts db))).
      rewrite <- Hp. apply Hfk. now apply in_map. }
    now rewrite Hnone.
Qed.

(** Alice creates a second prompt, with blanks around the text. *)
Lemma create_prompt_outcome_witness :
  well_formed two_versions /\
  match create_prompt 3 alice
          (Some (new_prompt "Poem" "generation" "creative" "  Write a poem. "))
          two_versions with
  | (db', Failure status _) => status = 400 /\ db' = two_versions
  | (db', Success status body) =>
      status = 201 /\
      exists prompt version,
        prompts db' = prompts two_versions ++ [prompt] /\
        prompt_versions db' = prompt_versions two_versions ++ [version] /\
        prompt_evaluations db' = prompt_evaluations two_versions /\
        p_user_id prompt = alice /\
        ~ In (p_id prompt) (map p_id (prompts two_versions)) /\
        v_version_number version = 1 /\
        v_is_current version = true /\
        v_prompt_text version <> "" /\
        Some "Write a poem." = Some (v_prompt_text version) /\
        versions_of db' (p_id prompt) = [version] /\
        pd_prompt (cb_prompt body) = prompt
  end.
Proof.
  assert (Hwf : well_formed two_versions)
    by (apply well_formedb_ok; vm_compute; reflexivity).
  split; [exact Hwf|].
  exact (create_prompt_outcome 3 alice
           (Some (new_prompt "Poem" "generation" "creative" "  Write a poem. "))
           two_versions Hwf).
Defined.

(** ** Promoting a version *)

Lemma versions_in_unset_other p pid vs :
  pid <> p ->
  versions_in pid (unset_current_of p vs) = versions_in pid vs.
Proof.
  intros Hne. unfold versions_in. induction vs as [|x vs IH]; [reflexivity|].
  cbn [unset_current_of map filter].
  destruct (v_prompt_id x =? p) eqn:E.
  - apply Z.eqb_eq in E. cbn [v_prompt_id with_is_current].
    assert ((v_prompt_id x =? pid) = false) as -> by (apply Z.eqb_neq; lia).
    exact IH.
  - destruct (v_prompt_id x =? pid); [f_equal|]; exact IH.
Qed.

Lemma unset_current_of_flags p vs :
  map (with_is_current false) (unset_current_of p vs) =
  map (with_is_current false) vs.
Proof.
  unfold unset_current_of. rewrite map_map. apply map_ext. intros v.
  now destruct (v_prompt_id v =? p).
Qed.

Lemma set_is_current_flags i b vs :
  map (with_is_current false) (set_is_current i b vs) =
  map (with_is_current false) vs.
Proof.
  unfold set_is_current. rewrite map_map. apply map_ext. intros v.
  now destruct (v_id v =? i).
Qed.

(** X12. When the owner promotes a version, the request succeeds and
    afterwards that version, marked current, is the one and only current
    version of its prompt; no row changes but for its flag, the versions of
    the other prompts are as they were, and so are the prompts and the
    evaluations. *)
Theorem set_current_version_outcome (user_id version_id : Z) (db : DB)
    (version : PromptVersion) (prompt : Prompt) :
  well_formed db ->
  get_version db version_id = Some version ->
  prompt_of db version = Some prompt ->
  p_user_id prompt = user_id ->
  exists db' body,
    set_current_version user_id version_id db = (db', Success 200 body) /\
    current_versions db' (p_id prompt) = [with_is_current true version] /\
    get_current_version db' prompt = Some (with_is_current true version) /\
    vd_version (sb_version body) = with_is_current true version /\
    map (with_is_current false) (prompt_versions db') =
      map (with_is_current false) (prompt_versions db) /\
    (forall pid, pid <> p_id prompt ->
                 versions_of db' pid = versions_of db pid) /\
    prompts db' = prompts db /\
    prompt_evaluations db' = prompt_evaluations db.
Proof.
  intros [Hnd _] Hv Hp Hu. unfold set_current_version.
  rewrite Hv, Hp, Hu, Z.eqb_refl. cbn [negb].
  apply find_by_id in Hv. destruct Hv as [Hin _].
  apply prompt_of_some in Hp. destruct Hp as [_ Hpid].
  eexists. eexists. split; [reflexivity|].
  cbn [sb_version vd_version version_to_dict prompts prompt_evaluations
       with_versions].
  destruct (split_at_key v_id _ version Hnd Hin) as [l1 [l2 [E [H1 H2]]]].
  set (p := p_id prompt) in *.
  assert (Hvs : set_is_current (v_id version) true
                  (unset_current_of p (prompt_versions db)) =
                unset_current_of p l1 ++ with_is_current true version
                                  :: unset_current_of p l2).
  { rewrite E. unfold unset_current_of at 1. rewrite map_app.
    cbn [map]. rewrite <- Hpid, Z.eqb_refl.
    fold (unset_current_of (v_prompt_id version) l1).
    fold (unset_current_of (v_prompt_id version) l2).
    change (v_id version) with (v_id (with_is_current false version)).
    rewrite set_is_current_split; [reflexivity| |].
    - intros y Hy. unfold unset_current_of in Hy.
      apply in_map_iff in Hy. destruct Hy as [x [<- Hx]].
      specialize (H1 x Hx). now destruct (v_prompt_id x =? _).
    - intros y Hy. unfold unset_current_of in Hy.
      apply in_map_iff in Hy. destruct Hy as [x [<- Hx]].
      specialize (H2 x Hx). now destruct (v_prompt_id x =? _). }
  assert (Hcur : currents_in p
                   (unset_current_of p l1 ++ with_is_current true version
                                     :: unset_current_of p l2) =
                 [with_is_current true version]).
  { rewrite currents_in_mid, !currents_in_unset_same.
    cbn [v_prompt_id v_is_current with_is_current].
    unfold p. now rewrite <- Hpid, Z.eqb_refl. }
  repeat split.
  - unfold current_versions, versions_of. cbn [prompt_versions with_versions].
    rewrite Hvs. exact Hcur.
  - unfold get_current_version. cbn [prompt_versions with_versions].
    rewrite Hvs, filter_and. fold p.
    change (filter v_is_current (filter (fun v => v_prompt_id v =? p) ?l))
      with (currents_in p l).
    now rewrite Hcur.
  - cbn [prompt_versions with_versions].
    now rewrite set_is_current_flags, unset_current_of_flags.
  - intros pid Hne. unfold versions_of. cbn [prompt_versions with_versions].
    rewrite Hvs, E.
    change (filter (fun v => v_prompt_id v =? pid) ?l)
      with (versions_in pid l).
    rewrite !versions_in_app.
    rewrite (versions_in_unset_other p pid l1 Hne).
    f_equal. unfold versions_in. cbn [filter].
    cbn [v_prompt_id with_is_current].
    assert ((v_prompt_id version =? pid) = false) as ->
      by (apply Z.eqb_neq; unfold p in Hne; lia).
    apply (versions_in_unset_other p pid l2 Hne).
Qed.

(** Alice promotes version 1 again. *)
Lemma set_current_version_outcome_witness :
  well_formed two_versions /\
  exists db' body,
    set_current_version alice 1 two_versions = (db', Success 200 body) /\
    current_versions db' 1 =
      [{| v_id := 1; v_prompt_id := 1; v_version_number := 1;
          v_prompt_text := "Write a function.";
          v_change_notes := "Initial version";
          v_is_current := true; v_created_at := 1 |}].
Proof.
  assert (Hwf : well_formed two_versions)
    by (apply well_formedb_ok; vm_compute; reflexivity).
  split; [exact Hwf|].
  destruct (set_current_version_outcome alice 1 two_versions
              {| v_id := 1; v_prompt_id := 1; v_version_number := 1;
                 v_prompt_text := "Write a function.";
                 v_change_notes := "Initial version";
                 v_is_current := false; v_created_at := 1 |}
              {| p_id := 1; p_user_id := alice; p_title := "Helper";
                 p_description := ""; p_task_type := "generation";
                 p_domain := Some "coding"; p_is_public := false;
                 p_tags := [] |}
              Hwf eq_refl eq_refl eq_refl)
    as [db' [body [H1 [H2 _]]]].
  exists db', body. split; [exact H1 | exact H2].
Defined.

(** ** Deleting a version *)

(** What [delete_version] answers the owner of a prompt with more than one
    version. *)
Lemma delete_version_owner u vid db version prompt :
  get_version db vid = Some version ->
  prompt_of db version = Some prompt ->
  p_user_id prompt = u ->
  1 < count (versions_of db (p_id prompt)) ->
  exists message,
    delete_version u vid db =
    ({| prompts := prompts db;
        prompt_versions := after_delete version (prompt_versions db);
        prompt_evaluations :=
          filter (fun e => negb (e_version_id e =? vid))
                 (prompt_evaluations db);
        prompt_tags := prompt_tags db |},
     Success 200 message).
Proof.
  intros Hv Hp Hu Hc. unfold delete_version. rewrite Hv, Hp.
  assert ((p_user_id prompt =? u) = true) as -> by now apply Z.eqb_eq.
  assert ((count (versions_of db (p_id prompt)) <=? 1) = false) as ->
    by now apply Z.leb_gt.
  apply find_by_id in Hv. destruct Hv as [_ <-].
  apply prompt_of_some in Hp. destruct Hp as [_ ->].
  cbn [negb]. cbv zeta. eexists. f_equal.
  unfold after_delete.
  destruct (v_is_current version); [|reflexivity].
  unfold versions_of. cbn [prompt_versions delete_version_row].
  fold (versions_in (v_prompt_id version)
          (filter (fun v => negb (v_id v =? v_id version))
                  (prompt_versions db))).
  now destruct (first _).
Qed.

Lemma find_by_id_none (vs : list PromptVersion) i :
  (forall x, In x vs -> v_id x <> i) ->
  find (fun x => v_id x =? i) vs = None.
Proof.
  intros H. destruct (find _ vs) as [x|] eqn:F; [|reflexivity].
  apply find_by_id in F. destruct F as [Hin E]. now apply H in Hin.
Qed.

Lemma versions_in_map pid (f : PromptVersion -> PromptVersion) vs :
  (forall v, v_prompt_id (f v) = v_prompt_id v) ->
  versions_in pid (map f vs) = map f (versions_in pid vs).
Proof.
  intros Hf. unfold versions_in. induction vs as [|x vs IH]; [reflexivity|].
  cbn [map filter]. rewrite Hf.
  destruct (v_prompt_id x =? pid); cbn [map]; now rewrite IH.
Qed.

Lemma versions_in_set_is_current pid i b vs :
  versions_in pid (set_is_current i b vs) =
  set_is_current i b (versions_in pid vs).
Proof.
  apply versions_in_map. intros v. now destruct (v_id v =? i).
Qed.

(** X13. When the owner deletes a version of a prompt that has more than
    one, the request succeeds; the version is gone and so are its
    evaluations (and no other evaluation); the other versions stay, with at
    most a flag changed; the prompt has one version less; and when the
    deleted version was current, a version with the highest remaining
    number is current afterwards. *)
Theorem delete_version_outcome (user_id version_id : Z) (db : DB)
    (version : PromptVersion) (prompt : Prompt) :
  well_formed db ->
  get_version db version_id = Some version ->
  prompt_of db version = Some prompt ->
  p_user_id prompt = user_id ->
  1 < count (versions_of db (p_id prompt)) ->
  exists db' message,
    delete_version user_id version_id db = (db', Success 200 message) /\
    get_version db' version_id = None /\
    prompt_evaluations db' =
      filter (fun e => negb (e_version_id e =? version_id))
             (prompt_evaluations db) /\
    map (with_is_current false) (prompt_versions db') =
      map (with_is_current false)
          (filter (fun v => negb (v_id v =? version_id)) (prompt_versions db)) /\
    count (versions_of db' (p_id prompt)) =
      count (versions_of db (p_id prompt)) - 1 /\
    prompts db' = prompts db /\
    (if v_is_current version
     then exists nc,
            In nc (versions_of db' (p_id prompt)) /\
            v_is_current nc = true /\
            forall w, In w (versions_of db' (p_id prompt)) ->
                      v_version_number w <= v_version_number nc
     else True).
Proof.
  intros [Hnd _] Hv Hp Hu Hc.
  destruct (delete_version_owner _ _ _ _ _ Hv Hp Hu Hc) as [message ->].
  eexists. eexists. split; [reflexivity|].
  cbn [prompts prompt_evaluations].
  apply find_by_id in Hv. destruct Hv as [Hin Hid]. subst version_id.
  apply prompt_of_some in Hp. destruct Hp as [_ Hpid].
  unfold get_version, versions_of. cbn [prompt_versions]. rewrite Hpid.
  change (filter (fun v => v_prompt_id v =? v_prompt_id version) ?l)
    with (versions_in (v_prompt_id version) l).
  unfold count, versions_of in Hc. rewrite Hpid in Hc.
  change (filter (fun v => v_prompt_id v =? v_prompt_id version) ?l)
    with (versions_in (v_prompt_id version) l) in Hc.
  set (p := v_prompt_id version) in *.
  destruct (split_at_key v_id _ version Hnd Hin) as [l1 [l2 [E [H1 H2]]]].
  assert (Hrest : filter (fun x => negb (v_id x =? v_id version))
                         (prompt_versions db) = l1 ++ l2)
    by (rewrite E; now apply delete_split).
  assert (Hids : forall x, In x (l1 ++ l2) -> v_id x <> v_id version).
  { intros x Hx. apply in_app_or in Hx. destruct Hx; auto. }
  assert (Hlen : Z.of_nat (List.length (versions_in p (l1 ++ l2))) =
                 Z.of_nat (List.length (versions_in p (prompt_versions db)))
                 - 1).
  { assert (Hmid : versions_in p (l1 ++ version :: l2) =
                   versions_in p l1 ++ version :: versions_in p l2).
    { rewrite versions_in_app. f_equal. unfold versions_in. cbn [filter].
      unfold p. now rewrite Z.eqb_refl. }
    rewrite E, Hmid, versions_in_app, !length_app. cbn [List.length]. lia. }
  unfold after_delete. rewrite Hrest. fold p.
  destruct (v_is_current version) eqn:Hcur.
  - destruct (first _) as [nc|] eqn:Hfirst.
    + apply first_order_by_desc in Hfirst. destruct Hfirst as [Hnc Hmax].
      rewrite filter_all in Hnc, Hmax.
      2,3: intros y Hy; apply filter_In in Hy; destruct Hy as [Hy _];
           apply Hids in Hy; apply Z.eqb_neq in Hy; now rewrite Hy.
      repeat split.
      * apply find_by_id_none. intros x Hx Ex.
        apply (Hids (with_is_current false x)); [|exact Ex].
        unfold set_is_current in Hx. apply in_map_iff in Hx.
        destruct Hx as [y [<- Hy]]. apply Hids in Hy as Hy'.
        exfalso. destruct (v_id y =? v_id nc); cbn in Ex; contradiction.
      * now rewrite set_is_current_flags.
      * unfold count. rewrite versions_in_set_is_current.
        unfold set_is_current. rewrite length_map. exact Hlen.
      * exists (with_is_current true nc). split; [|split; [reflexivity|]].
        -- rewrite versions_in_set_is_current. unfold set_is_current.
           apply in_map_iff. exists nc. rewrite Z.eqb_refl. now split.
        -- intros w Hw. rewrite versions_in_set_is_current in Hw.
           unfold set_is_current in Hw. apply in_map_iff in Hw.
           destruct Hw as [x [<- Hx]]. specialize (Hmax x Hx).
           now destruct (v_id x =? v_id nc).
    + exfalso. apply first_order_by_desc_none in Hfirst.
      rewrite filter_all in Hfirst.
      2: intros y Hy; apply filter_In in Hy; destruct Hy as [Hy _];
         apply Hids in Hy; apply Z.eqb_neq in Hy; now rewrite Hy.
      rewrite Hfirst in Hlen. cbn [List.length] in Hlen. lia.
  - repeat split.
    + apply find_by_id_none. exact Hids.
    + exact Hlen.
Qed.

(** Alice deletes her current version 2. *)
Lemma delete_version_outcome_witness :
  well_formed two_versions /\
  exists db' message,
    delete_version alice 2 two_versions = (db', Success 200 message) /\
    get_version db' 2 = None /\
    count (versions_of db' 1) = 1 /\
    exists nc, In nc (versions_of db' 1) /\ v_is_current nc = true.
Proof.
  assert (Hwf : well_formed two_versions)
    by (apply well_formedb_ok; vm_compute; reflexivity).
  split; [exact Hwf|].
  destruct (delete_version_outcome alice 2 two_versions
              {| v_id := 2; v_prompt_id := 1; v_version_number := 2;
                 v_prompt_text := "Write a Python function.";
                 v_change_notes := "Version 2";
                 v_is_current := true; v_created_at := 2 |}
              {| p_id := 1; p_user_id := alice; p_title := "Helper";
                 p_description := ""; p_task_type := "generation";
                 p_domain := Some "coding"; p_is_public := false;
                 p_tags := [] |}
              Hwf eq_refl eq_refl eq_refl eq_refl)
    as [db' [message [H1 [H2 [_ [_ [H5 [_ [nc [H7 [H8 _]]]]]]]]]]].
  exists db', message. split; [exact H1|]. split; [exact H2|].
  split; [exact H5|]. exists nc. now split.
Defined.

(** ** Deleting a prompt *)

Lemma filter_filter {A} (f g : A -> bool) (l : list A) :
  filter f (filter g l) = filter (fun x => g x && f x) l.
Proof.
  induction l as [|x l IH]; [reflexivity|]. cbn [filter].
  destruct (g x); cbn [filter andb]; [destruct (f x)|]; now rewrite IH.
Qed.

Lemma filter_none {A} (p : A -> bool) (l : list A) :
  (forall x, In x l -> p x = false) -> filter p l = [].
Proof.
  intros H. induction l as [|x l IH]; [reflexivity|]. cbn [filter].
  rewrite H by now left. apply IH. intros; apply H; now right.
Qed.

Lemma existsb_filter {A} (f g : A -> bool) (l : list A) :
  existsb f (filter g l) = existsb (fun x => f x && g x) l.
Proof.
  induction l as [|x l IH]; [reflexivity|]. cbn [filter existsb].
  destruct (g x); cbn [existsb]; rewrite IH;
    [now rewrite andb_true_r|now rewrite andb_false_r].
Qed.

(** X14. When the owner deletes a prompt, the request succeeds and takes
    along every version of the prompt and every evaluation of these
    versions: what is left of each table is the rows of the other prompts,
    unchanged and in their order. So the prompt, its versions and their
    evaluations are gone from the store, and the versions and the
    evaluations of every other prompt are as they were. *)
Theorem delete_prompt_outcome (user_id prompt_id : Z) (db : DB)
    (prompt : Prompt) :
  well_formed db ->
  get_prompt_of_user db prompt_id user_id = Some prompt ->
  exists db',
    delete_prompt user_id prompt_id db =
      (db', Success 200 "Prompt deleted successfully") /\
    prompts db' =
      filter (fun p => negb (p_id p =? prompt_id)) (prompts db) /\
    prompt_versions db' =
      filter (fun v => negb (v_prompt_id v =? prompt_id))
             (prompt_versions db) /\
    prompt_evaluations db' =
      filter (fun e =>
                negb (existsb (fun v => v_id v =? e_version_id e)
                              (versions_of db prompt_id)))
             (prompt_evaluations db) /\
    prompt_tags db' = prompt_tags db /\
    ~ In prompt_id (map p_id (prompts db')) /\
    versions_of db' prompt_id = [] /\
    (forall e v, In e (prompt_evaluations db') ->
                 In v (versions_of db prompt_id) ->
                 e_version_id e <> v_id v) /\
    evaluations_of_prompt db' prompt_id = [] /\
    forall pid, pid <> prompt_id ->
      versions_of db' pid = versions_of db pid /\
      evaluations_of_prompt db' pid = evaluations_of_prompt db pid.
Proof.
  intros [Hnd _] Hp. unfold delete_prompt. rewrite Hp.
  apply get_prompt_of_user_some in Hp. destruct Hp as [_ [Hid _]].
  rewrite Hid. eexists. split; [reflexivity|].
  assert (Hnone : versions_of (delete_prompt_row db prompt_id) prompt_id = []).
  { unfold versions_of. cbn [prompt_versions delete_prompt_row].
    rewrite filter_filter. apply filter_none.
    intros x _. now destruct (v_prompt_id x =? prompt_id). }
  assert (Hevs : prompt_evaluations (delete_prompt_row db prompt_id) =
                 filter (fun e =>
                           negb (existsb (fun v => v_id v =? e_version_id e)
                                         (versions_of db prompt_id)))
                        (prompt_evaluations db)).
  { cbn [prompt_evaluations delete_prompt_row]. apply filter_ext.
    intros e. unfold versions_of. now rewrite existsb_filter. }
  split; [reflexivity|]. split; [reflexivity|]. split; [exact Hevs|].
  split; [reflexivity|].
  split; [|split; [exact Hnone|split; [|split]]].
  - cbn [prompts delete_prompt_row]. intros H. apply in_map_iff in H.
    destruct H as [p [E Hin]]. apply filter_In in Hin.
    destruct Hin as [_ Hne]. rewrite E, Z.eqb_refl in Hne. discriminate.
  - intros e v He Hv E. rewrite Hevs in He. apply filter_In in He.
    destruct He as [_ He]. apply negb_true_iff, not_true_iff_false in He.
    apply He. apply existsb_exists. exists v.
    split; [exact Hv|now apply Z.eqb_eq].
  - unfold evaluations_of_prompt. apply filter_none.
    intros e _. apply not_true_iff_false. intros H.
    apply existsb_exists in H. destruct H as [v [Hv E]].
    apply andb_true_iff in E. destruct E as [_ E]. apply Z.eqb_eq in E.
    assert (Hin : In v (versions_of (delete_prompt_row db prompt_id)
                          prompt_id))
      by (apply filter_In; split; [exact Hv | now apply Z.eqb_eq]).
    rewrite Hnone in Hin. contradiction.
  - intros pid Hne. split.
    + unfold versions_of. cbn [prompt_versions delete_prompt_row].
      rewrite filter_filter. apply filter_ext. intros v.
      destruct (v_prompt_id v =? pid) eqn:E; [|now rewrite andb_false_r].
      apply Z.eqb_eq in E.
      assert ((v_prompt_id v =? prompt_id) = false) as ->
        by (apply Z.eqb_neq; lia).
      reflexivity.
    + unfold evaluations_of_prompt.
      cbn [prompt_versions prompt_evaluations delete_prompt_row].
      rewrite filter_filter. apply filter_ext_in. intros e He.
      destruct (existsb (fun v => (v_id v =? e_version_id e)
                                  && (v_prompt_id v =? pid))
                        (prompt_versions db)) eqn:J.
      * apply existsb_exists in J. destruct J as [v [Hv E]].
        apply andb_true_iff in E. destruct E as [E1 E2].
        apply Z.eqb_eq in E1, E2.
        apply andb_true_iff. split.
        -- apply negb_true_iff, not_true_iff_false. intros H.
           apply existsb_exists in H. destruct H as [w [Hw E]].
           apply andb_true_iff in E. destruct E as [E3 E4].
           apply Z.eqb_eq in E3, E4.
           assert (v = w)
             by (apply (same_key_same_row _ _ _ Hnd Hv Hw); congruence).
           subst w. congruence.
        -- apply existsb_exists. exists v. split.
           ++ apply filter_In. split; [exact Hv|].
              apply negb_true_iff, Z.eqb_neq. congruence.
           ++ rewrite E1, E2, !Z.eqb_refl. reflexivity.
      * apply andb_false_iff. right. apply not_true_iff_false. intros H.
        apply existsb_exists in H. destruct H as [v [Hv E]].
        apply filter_In in Hv. destruct Hv as [Hv _].
        assert (existsb (fun v => (v_id v =? e_version_id e)
                                  && (v_prompt_id v =? pid))
                        (prompt_versions db) = true); [|congruence].
        apply existsb_exists. now exists v.
Qed.

(** Alice deletes her prompt with its two evaluated versions: no prompt,
    no version and no evaluation is left in the store. *)
Lemma delete_prompt_outcome_witness :
  well_formed tied /\
  List.length (prompt_evaluations tied) = 2%nat /\
  exists db',
    delete_prompt alice 1 tied =
      (db', Success 200 "Prompt deleted successfully") /\
    prompts db' = [] /\
    prompt_versions db' = [] /\
    prompt_evaluations db' = [].
Proof.
  assert (Hwf : well_formed tied)
    by (apply well_formedb_ok; vm_compute; reflexivity).
  split; [exact Hwf|]. split; [reflexivity|].
  destruct (delete_prompt_outcome alice 1 tied
              {| p_id := 1; p_user_id := alice; p_title := "Helper";
                 p_description := ""; p_task_type := "generation";
                 p_domain := Some "coding"; p_is_public := false;
                 p_tags := [] |} Hwf)
    as [db' [Hrun [Hps [Hvs [Hes _]]]]]; [vm_compute; reflexivity|].
  exists db'. split; [exact Hrun|].
  rewrite Hps, Hvs, Hes. repeat split.
Defined.

(** ** Updating with a new text *)

Lemma length_versions_in_mid pid l1 v l2 :
  List.length (versions_in pid (l1 ++ v :: l2)) =
  (List.length (versions_in pid l1)
   + (if (v_prompt_id v =? pid)%Z then 1 else 0)
   + List.length (versions_in pid l2))%nat.
Proof.
  rewrite versions_in_app, length_app. unfold versions_in at 2.
  cbn [filter]. fold (versions_in pid l2).
  destruct (v_prompt_id v =? pid); cbn [List.length]; lia.
Qed.

Lemma length_versions_in_snoc pid l v :
  List.length (versions_in pid (l ++ [v])) =
  (List.length (versions_in pid l)
   + (if (v_prompt_id v =? pid)%Z then 1 else 0))%nat.
Proof.
  rewrite length_versions_in_mid. cbn [versions_in filter List.length]. lia.
Qed.

(** X15. When the owner sends a text that is not blank and, once stripped,
    differs from the text of the current version, a version is created:
    it carries the stripped text, it is the one current version of the
    prompt afterwards and the one the response shows, the prompt has one
    version more, every earlier row is kept with at most its flag changed,
    and the evaluations are as they were. *)
Theorem update_with_new_text_outcome (now user_id prompt_id : Z)
    (data : PromptData) (db : DB) (prompt : Prompt) (text : string) :
  invariant db ->
  get_prompt_of_user db prompt_id user_id = Some prompt ->
  d_prompt_text data = Some text ->
  strip text <> "" ->
  (forall c, get_current_version db prompt = Some c ->
             v_prompt_text c <> strip text) ->
  exists db' body nv,
    update_prompt now user_id prompt_id data db = (db', Success 200 body) /\
    ub_new_version body = Some (version_to_dict db' true nv) /\
    v_prompt_text nv = strip text /\
    current_versions db' prompt_id = [nv] /\
    pd_current_version (ub_prompt body) = Some (version_to_dict db' true nv) /\
    count (versions_of db' prompt_id) = count (versions_of db prompt_id) + 1 /\
    map (with_is_current false) (prompt_versions db') =
      map (with_is_current false) (prompt_versions db)
      ++ [with_is_current false nv] /\
    prompt_evaluations db' = prompt_evaluations db.
Proof.
  intros [[Hnd _] Hsc] Hp Ht Hne Hdiff.
  apply single_current_iff in Hsc.
  unfold update_prompt. rewrite Hp.
  apply get_prompt_of_user_some in Hp. destruct Hp as [_ [Hid _]].
  set (prompt' := update_metadata db data prompt).
  set (db1 := with_prompts db (save_prompt prompt' (prompts db))).
  assert (Hc1 : get_current_version db1 prompt'
                = get_current_version db prompt) by reflexivity.
  unfold new_version_if_changed. rewrite Ht.
  destruct (empty_str (strip text)) eqn:Ee;
    [destruct (strip text); [congruence | discriminate]|].
  rewrite Hc1.
  assert (Hpid : p_id prompt' = prompt_id) by exact Hid.
  destruct (get_current_version db prompt) as [c|] eqn:Hcur.
  - assert ((v_prompt_text c =? strip text)%string = false) as ->
      by (apply String.eqb_neq; now apply Hdiff).
    cbn [negb]. cbv zeta. eexists. eexists. eexists.
    split; [reflexivity|].
    cbn [ub_new_version ub_prompt option_map prompt_to_dict pd_current_version
         prompt_evaluations with_versions with_prompts db1 prompt_versions].
    split; [reflexivity|]. split; [reflexivity|].
    unfold get_current_version in Hcur.
    assert (Hc : In c (filter (fun v => (v_prompt_id v =? p_id prompt)
                                        && v_is_current v)
                              (prompt_versions db))).
    { unfold first in Hcur. destruct (filter _ _); [discriminate|].
      injection Hcur as ->. now left. }
    apply filter_In in Hc. destruct Hc as [Hin Hc].
    apply andb_true_iff in Hc. destruct Hc as [Hcp Hcc].
    apply Z.eqb_eq in Hcp. rewrite Hid in Hcp.
    destruct (split_at_key v_id _ c Hnd Hin) as [l1 [l2 [E [H1 H2]]]].
    assert (Hone : List.length (currents_in prompt_id (prompt_versions db))
                   = 1%nat).
    { apply Hsc. rewrite <- Hcp. now apply in_map. }
    rewrite E in Hone. rewrite currents_in_mid, !length_app in Hone.
    rewrite Hcp, Z.eqb_refl, Hcc in Hone. cbn [andb List.length] in Hone.
    assert (Hl1 : currents_in prompt_id l1 = [])
      by (destruct (currents_in prompt_id l1); [reflexivity | cbn in Hone; lia]).
    assert (Hl2 : currents_in prompt_id l2 = [])
      by (destruct (currents_in prompt_id l2); [reflexivity | cbn in Hone; lia]).
    rewrite E, set_is_current_split by assumption.
    set (nv := {| v_id := _ |}).
    assert (Hcurrents :
      currents_in prompt_id ((l1 ++ with_is_current false c :: l2) ++ [nv])
      = [nv]).
    { rewrite currents_in_app, currents_in_mid, Hl1, Hl2.
      cbn [v_is_current with_is_current]. rewrite andb_false_r.
      rewrite currents_in_cons. cbn [v_prompt_id v_is_current nv].
      now rewrite Hpid, Z.eqb_refl. }
    repeat split.
    + exact Hcurrents.
    + unfold get_current_version. cbn [prompt_versions with_versions].
      rewrite filter_and.
      rewrite Hpid.
      change (filter v_is_current
                (filter (fun v => v_prompt_id v =? prompt_id) ?l))
        with (currents_in prompt_id l).
      now rewrite Hcurrents.
    + unfold count, versions_of. cbn [prompt_versions with_versions with_prompts db1].
      change (filter (fun v => v_prompt_id v =? prompt_id) ?l)
        with (versions_in prompt_id l).
      rewrite E, length_versions_in_snoc, !length_versions_in_mid.
      cbn [v_prompt_id with_is_current nv].
      rewrite Hcp, Hpid, Z.eqb_refl. lia.
    + rewrite !map_app. cbn [map]. now rewrite <- !app_assoc.
  - cbn [negb]. cbv zeta. eexists. eexists. eexists.
    split; [reflexivity|].
    cbn [ub_new_version ub_prompt option_map prompt_to_dict pd_current_version
         prompt_evaluations with_versions with_prompts db1 prompt_versions].
    split; [reflexivity|]. split; [reflexivity|].
    set (nv := {| v_id := _ |}).
    unfold get_current_version in Hcur.
    assert (Hnone : currents_in prompt_id (prompt_versions db) = []).
    { unfold currents_in, versions_in. rewrite <- filter_and, <- Hid.
      unfold first in Hcur. now destruct (filter _ _). }
    assert (Hcurrents : currents_in prompt_id (prompt_versions db ++ [nv])
                        = [nv]).
    { rewrite currents_in_app, Hnone, currents_in_cons.
      cbn [v_prompt_id v_is_current nv]. now rewrite Hpid, Z.eqb_refl. }
    repeat split.
    + exact Hcurrents.
    + unfold get_current_version. cbn [prompt_versions with_versions].
      rewrite filter_and.
      rewrite Hpid.
      change (filter v_is_current
                (filter (fun v => v_prompt_id v =? prompt_id) ?l))
        with (currents_in prompt_id l).
      now rewrite Hcurrents.
    + unfold count, versions_of. cbn [prompt_versions with_versions with_prompts db1].
      change (filter (fun v => v_prompt_id v =? prompt_id) ?l)
        with (versions_in prompt_id l).
      rewrite length_versions_in_snoc.
      cbn [v_prompt_id nv]. rewrite Hpid, Z.eqb_refl. lia.
    + now rewrite map_app.
Qed.

(** Alice sends a new text, with blanks around it. *)
Lemma update_with_new_text_outcome_witness :
  invariant two_versions /\
  exists db' body nv,
    update_prompt 3 alice 1 (new_text " Write a Rust function. ") two_versions
      = (db', Success 200 body) /\
    ub_new_version body = Some (version_to_dict db' true nv) /\
    v_prompt_text nv = "Write a Rust function." /\
    current_versions db' 1 = [nv].
Proof.
  assert (Hinv : invariant two_versions).
  { split; [apply well_formedb_ok | apply single_currentb_ok];
      vm_compute; reflexivity. }
  split; [exact Hinv|].
  destruct (update_with_new_text_outcome 3 alice 1
              (new_text " Write a Rust function. ") two_versions
              {| p_id := 1; p_user_id := alice; p_title := "Helper";
                 p_description := ""; p_task_type := "generation";
                 p_domain := Some "coding"; p_is_public := false;
                 p_tags := [] |}
              " Write a Rust function. " Hinv eq_refl eq_refl)
    as [db' [body [nv [H1 [H2 [H3 [H4 _]]]]]]].
  - vm_compute. discriminate.
  - intros c Hc. vm_compute in Hc. injection Hc as <-.
    vm_compute. discriminate.
  - exists db', body, nv. repeat split; assumption.
Defined.

(* ===================================================================== *)
(** * Texts, notes and repeated evaluations                              *)
(* ===================================================================== *)

(** ** [strip] *)

Lemma drop_spaces_twice l : drop_spaces (drop_spaces l) = drop_spaces l.
Proof.
  induction l as [|c l IH]; [reflexivity|].
  cbn [drop_spaces]. destruct (isspace c) eqn:Hc; [exact IH|].
  cbn [drop_spaces]. now rewrite Hc.
Qed.

Lemma rstrip_twice s : rstrip (rstrip s) = rstrip s.
Proof.
  unfold rstrip.
  now rewrite list_ascii_of_string_of_list_ascii, rev_involutive,
    drop_spaces_twice.
Qed.

Lemma drop_spaces_last l c :
  isspace c = false -> exists l', drop_spaces (l ++ [c]) = l' ++ [c].
Proof.
  intros Hc. induction l as [|a l IH].
  - exists []. cbn [app drop_spaces]. now rewrite Hc.
  - cbn [app drop_spaces]. destruct (isspace a); [exact IH|].
    now exists (a :: l).
Qed.

Lemma rstrip_keeps_first c t :
  isspace c = false -> exists t', rstrip (String c t) = String c t'.
Proof.
  intros Hc. unfold rstrip. cbn [list_ascii_of_string rev].
  destruct (drop_spaces_last (rev (list_ascii_of_string t)) c Hc) as [l' ->].
  rewrite rev_app_distr. cbn [rev app string_of_list_ascii]. now eexists.
Qed.

Lemma lstrip_first s :
  lstrip s = "" \/ exists c t, lstrip s = String c t /\ isspace c = false.
Proof.
  induction s as [|c s IH]; [now left|].
  cbn [lstrip]. destruct (isspace c) eqn:Hc; [exact IH|].
  right. now exists c, s.
Qed.

Lemma strip_twice s : strip (strip s) = strip s.
Proof.
  unfold strip.
  assert (H : lstrip (rstrip (lstrip s)) = rstrip (lstrip s)).
  { destruct (lstrip_first s) as [->|[c [t [-> Hc]]]]; [reflexivity|].
    destruct (rstrip_keeps_first c t Hc) as [t' ->].
    cbn [lstrip]. now rewrite Hc. }
  rewrite H. apply rstrip_twice.
Qed.

Lemma strip_stripped text :
  empty_str (strip text) = false -> stripped_text (strip text).
Proof.
  intros H. split; [|apply strip_twice].
  intros E. rewrite E in H. discriminate H.
Qed.

(** ** Stored texts *)

Lemma texts_set_is_current i b vs :
  map v_prompt_text (set_is_current i b vs) = map v_prompt_text vs.
Proof.
  unfold set_is_current. rewrite map_map. apply map_ext.
  intros v. now destruct (v_id v =? i).
Qed.

Lemma texts_unset_current_of p vs :
  map v_prompt_text (unset_current_of p vs) = map v_prompt_text vs.
Proof.
  unfold unset_current_of. rewrite map_map. apply map_ext.
  intros v. now destruct (v_prompt_id v =? p).
Qed.

Lemma texts_filter (keep : PromptVersion -> bool) vs :
  Forall stripped_text (map v_prompt_text vs) ->
  Forall stripped_text (map v_prompt_text (filter keep vs)).
Proof.
  rewrite !Forall_forall. intros H text Hin.
  apply in_map_iff in Hin. destruct Hin as [v [<- Hv]].
  apply filter_In in Hv. apply H. apply in_map. tauto.
Qed.

Lemma texts_snoc vs v :
  Forall stripped_text (map v_prompt_text vs) ->
  stripped_text (v_prompt_text v) ->
  Forall stripped_text (map v_prompt_text (vs ++ [v])).
Proof.
  intros H Hv. rewrite map_app. apply Forall_app. split; [exact H|].
  now constructor.
Qed.

Lemma new_version_if_changed_texts now data db prompt :
  texts_stripped db ->
  texts_stripped (fst (new_version_if_changed now data db prompt)).
Proof.
  unfold texts_stripped, new_version_if_changed. intros H.
  destruct (d_prompt_text data) as [text|]; [|exact H].
  destruct (empty_str (strip text)) eqn:He; [exact H|].
  destruct (get_current_version db prompt) as [c|].
  - destruct (negb (v_prompt_text c =? strip text)%string); [|exact H].
    cbv zeta. cbn [fst prompt_versions with_versions].
    apply texts_snoc; [now rewrite texts_set_is_current|].
    now apply strip_stripped.
  - cbv zeta. cbn [fst prompt_versions with_versions].
    apply texts_snoc; [exact H|]. now apply strip_stripped.
Qed.

Lemma handle_texts_stripped libs now r db :
  texts_stripped db -> texts_stripped (handle libs now r db).
Proof.
  intros H. destruct r; cbn [handle].
  - unfold create_prompt. destruct data as [data|]; [|exact H].
    destruct (no_keys data); [exact H|]. cbv zeta.
    destruct (empty_str (strip (get_or (d_title data) ""))); [exact H|].
    destruct (empty_str (strip (get_or (d_task_type data) "")));
      [exact H|].
    destruct (empty_str (strip (get_or (d_prompt_text data) ""))) eqn:He;
      [exact H|].
    unfold texts_stripped. cbn [fst prompt_versions].
    apply texts_snoc; [exact H|]. now apply strip_stripped.
  - unfold update_prompt.
    destruct (get_prompt_of_user db prompt_id user_id) as [prompt|];
      [|exact H].
    cbv zeta.
    match goal with
    | |- context [new_version_if_changed ?n ?d ?b ?p] =>
        pose proof (new_version_if_changed_texts n d b p H) as Hn;
        destruct (new_version_if_changed n d b p) as [db2 nv]
    end.
    exact Hn.
  - unfold delete_prompt.
    destruct (get_prompt_of_user db prompt_id user_id) as [prompt|];
      [|exact H].
    unfold texts_stripped. cbn [fst prompt_versions delete_prompt_row].
    now apply texts_filter.
  - unfold set_current_version.
    destruct (get_version db version_id) as [version|]; [|exact H].
    destruct (prompt_of db version) as [prompt|]; [|exact H].
    destruct (negb (p_user_id prompt =? user_id)); [exact H|].
    unfold texts_stripped. cbn [fst prompt_versions with_versions].
    now rewrite texts_set_is_current, texts_unset_current_of.
  - unfold delete_version.
    destruct (get_version db version_id) as [version|]; [|exact H].
    destruct (prompt_of db version) as [prompt|]; [|exact H].
    destruct (negb (p_user_id prompt =? user_id)); [exact H|].
    destruct (count _ <=? 1); [exact H|].
    cbv zeta. cbn [fst]. unfold texts_stripped.
    destruct (v_is_current version);
      [destruct (first _)|];
      cbn [prompt_versions with_versions delete_version_row];
      rewrite ?texts_set_is_current; now apply texts_filter.
  - unfold texts_stripped.
    destruct (evaluate_version_tables libs now user_id version_id db)
      as [_ ->]. exact H.
  - unfold texts_stripped.
    destruct (evaluate_all_versions_tables libs now user_id prompt_id db)
      as [_ ->]. exact H.
Qed.

(** X16. Every stored version text is non-empty and has no white space at
    its ends, and this survives any sequence of requests: the two handlers
    that store a text store [strip] of what they receive and refuse an
    empty result, and no other handler touches a text. *)
Theorem stored_texts_stay_stripped (libs : AiEngine.TextLibs)
    (rs : list (Z * Request)) (db : DB) :
  texts_stripped db -> texts_stripped (run libs rs db).
Proof.
  revert db. induction rs as [|[now r] rs IH]; intros db H; [exact H|].
  cbn [run]. apply IH. now apply handle_texts_stripped.
Qed.

(** From the empty store: a prompt created from a padded text, then
    updated with another padded text. *)
Lemma stored_texts_stay_stripped_witness :
  texts_stripped empty_db /\
  texts_stripped
    (run plain_libs
       [(1, CreatePrompt alice
              (Some (new_prompt "Helper" "generation" "coding"
                       "  Write a function.  ")));
        (2, UpdatePrompt alice 1 (new_text " Write a Python function. "))]
       empty_db).
Proof.
  assert (H : texts_stripped empty_db) by constructor.
  split; [exact H|].
  exact (stored_texts_stay_stripped plain_libs _ empty_db H).
Defined.

(** ** The notes of an evaluation *)

(** X17. The notes of a result are always the notes of the five analyses
    joined by " | ". The length analysis contributes exactly one note on
    every text, so the list of notes is never empty and the text
    "No issues found." is never produced. *)
Theorem notes_are_always_joined (libs : AiEngine.TextLibs) (text : string)
    (task_type domain : option string) :
  exists r note,
    AiEngine.evaluate_prompt libs text task_type domain = Ok r /\
    AiEngine.length_notes (AiEngine._calculate_length_score text) = [note] /\
    AiEngine.evaluation_notes r =
      join " | "
        (AiEngine.clarity_notes (AiEngine._calculate_clarity_score text) ++
         AiEngine.relevance_notes
           (AiEngine._calculate_relevance_score text task_type domain) ++
         [note] ++
         AiEngine.readability_notes
           (AiEngine._calculate_readability libs text) ++
         AiEngine.sentiment_notes (AiEngine._analyze_sentiment libs text)).
Proof.
  assert (Hn : exists note,
             AiEngine.length_notes (AiEngine._calculate_length_score text)
             = [note]).
  { unfold AiEngine._calculate_length_score. cbv zeta.
    match goal with
    | |- context [let '(_, _) := ?c in _] => destruct c as [score note]
    end.
    now exists note. }
  destruct Hn as [note Hn].
  unfold AiEngine.evaluate_prompt, AiEngine.evaluate.
  destruct evaluator_weights as [-> [-> ->]].
  cbn [bind]. eexists. exists note. split; [reflexivity|].
  split; [exact Hn|].
  cbn [AiEngine.evaluation_notes]. rewrite Hn.
  generalize (AiEngine.clarity_notes (AiEngine._calculate_clarity_score text)).
  generalize (AiEngine.relevance_notes
                (AiEngine._calculate_relevance_score text task_type domain)).
  intros l1 l2. now destruct l2, l1.
Qed.

(** ** Evaluating all versions *)

Lemma evaluated_iff db v :
  evaluated db v = true <->
  In (v_id v) (map e_version_id (prompt_evaluations db)).
Proof.
  unfold evaluated, get_latest_evaluation.
  destruct (first _) as [e|] eqn:E.
  - apply first_order_by_desc in E. destruct E as [Hin _].
    apply filter_In in Hin. destruct Hin as [Hin He].
    split; [intros _|reflexivity].
    apply in_map_iff. exists e. split; [now apply Z.eqb_eq|exact Hin].
  - apply first_order_by_desc_none in E.
    split; [discriminate|]. intros Hin.
    apply in_map_iff in Hin. destruct Hin as [e [He Hin]].
    assert (H : In e (filter (fun e => e_version_id e =? v_id v)
                             (prompt_evaluations db))).
    { apply filter_In. split; [exact Hin|now apply Z.eqb_eq]. }
    rewrite E in H. destruct H.
Qed.

(** When every version has an evaluation, the loop creates none. *)
Lemma evaluate_missing_done libs now prompt versions db es :
  (forall v, In v versions -> evaluated db v = true) ->
  evaluate_missing libs now prompt versions db es = Ok (db, es).
Proof.
  induction versions as [|v vs IH]; intros H; [reflexivity|].
  cbn [evaluate_missing].
  pose proof (H v (or_introl eq_refl)) as Hv. unfold evaluated in Hv.
  destruct (get_latest_evaluation db v); [|discriminate Hv].
  apply IH. intros w Hw. apply H. now right.
Qed.

(** The loop gives one evaluation to each version that has none. *)
Lemma evaluate_missing_all libs now prompt versions :
  forall db es,
    NoDup (map v_id versions) ->
    exists db' added,
      evaluate_missing libs now prompt versions db es = Ok (db', es ++ added)
      /\ prompt_evaluations db' = prompt_evaluations db ++ added
      /\ map e_version_id added =
           map v_id (filter (fun v => negb (evaluated db v)) versions)
      /\ Forall (fun e => e_evaluated_at e = now) added.
Proof.
  induction versions as [|v vs IH]; intros db es Hnd.
  - exists db, []. cbn [evaluate_missing filter map].
    rewrite !app_nil_r. repeat split. constructor.
  - cbn [map] in Hnd. apply NoDup_cons_iff in Hnd. destruct Hnd as [Hv Hnd].
    cbn [evaluate_missing filter]. unfold evaluated at 1.
    destruct (get_latest_evaluation db v) as [e|] eqn:E; cbn [negb].
    + exact (IH db es Hnd).
    + destruct (evaluate_prompt_returns libs (v_prompt_text v)
                  (Some (p_task_type prompt)) (p_domain prompt))
        as [result [-> _]].
      cbn [bind]. cbv zeta.
      set (ev := new_evaluation now db v result).
      set (db1 := with_evaluations db (prompt_evaluations db ++ [ev])).
      destruct (IH db1 (es ++ [ev]) Hnd)
        as [db' [added [Hrun [Hev [Hids Hnow]]]]].
      exists db', (ev :: added).
      rewrite Hrun, Hev. subst db1.
      cbn [prompt_evaluations with_evaluations].
      rewrite <- !app_assoc. cbn [app map].
      split; [reflexivity|]. split; [reflexivity|].
      split; [|constructor; [reflexivity|exact Hnow]].
      rewrite Hids. f_equal. f_equal. apply filter_ext_in. intros w Hw.
      f_equal. apply Bool.eq_iff_eq_true. rewrite !evaluated_iff.
      cbn [prompt_evaluations with_evaluations].
      rewrite map_app, in_app_iff. cbn [map In].
      split; [|tauto]. intros [H|[H|[]]]; [exact H|].
      exfalso. apply Hv. change (v_id v = v_id w) in H. rewrite H.
      now apply in_map.
Qed.

(** X18. When the owner asks to evaluate all versions of a prompt, the
    request succeeds. It appends one evaluation, stamped with the time of
    the request, for each version that had none, walking the versions from
    the highest number down, and none for a version that had one; prompts
    and versions are untouched. Afterwards every version of the prompt has
    an evaluation, and repeating the request creates nothing and changes
    nothing. *)
Theorem evaluate_all_versions_outcome (libs : AiEngine.TextLibs)
    (now later u pid : Z) (db : DB) (prompt : Prompt) :
  well_formed db ->
  get_prompt_of_user db pid u = Some prompt ->
  exists db' created,
    evaluate_all_versions libs now u pid db = (db', Success 200 created) /\
    prompts db' = prompts db /\
    prompt_versions db' = prompt_versions db /\
    prompt_evaluations db' = prompt_evaluations db ++ created /\
    map e_version_id created =
      map v_id (filter (fun v => negb (evaluated db v))
                       (versions_newest_first db pid)) /\
    Forall (fun e => e_evaluated_at e = now) created /\
    (forall v, In v (versions_of db pid) -> evaluated db' v = true) /\
    evaluate_all_versions libs later u pid db' = (db', Success 200 []).
Proof.
  intros [Hnd _] Hp.
  destruct (get_prompt_of_user_some _ _ _ _ Hp) as [_ [Hid _]].
  assert (Hnd' : NoDup (map v_id (versions_newest_first db pid))).
  { unfold versions_newest_first.
    eapply Permutation_NoDup;
      [apply Permutation_map, Permutation_sym, order_by_desc_perm|].
    now apply NoDup_map_filter. }
  destruct (evaluate_missing_all libs now prompt _ db [] Hnd')
    as [db' [created [Hrun [Hev [Hids Hnow]]]]].
  cbn [app] in Hrun.
  destruct (evaluate_missing_tables _ _ _ _ _ _ _ _ Hrun) as [Hps Hvs].
  assert (Hall : forall v, In v (versions_of db pid) -> evaluated db' v = true).
  { intros v Hv. apply evaluated_iff. rewrite Hev, map_app, in_app_iff.
    destruct (evaluated db v) eqn:Ev.
    - left. now apply evaluated_iff.
    - right. rewrite Hids. apply in_map. apply filter_In.
      split; [|now rewrite Ev].
      now apply order_by_desc_In. }
  exists db', created.
  split.
  { unfold evaluate_all_versions. rewrite Hp, Hid.
    fold (versions_newest_first db pid). now rewrite Hrun. }
  repeat (split; [assumption|]).
  unfold evaluate_all_versions, get_prompt_of_user, versions_of.
  rewrite Hps, Hvs.
  fold (get_prompt_of_user db pid u). rewrite Hp, Hid.
  fold (versions_of db pid).
  rewrite evaluate_missing_done; [reflexivity|].
  intros v Hv. apply Hall. now apply order_by_desc_In in Hv.
Qed.

(** Alice's two unevaluated versions: version 2 is evaluated first. *)
Lemma evaluate_all_versions_outcome_witness :
  well_formed two_versions /\
  exists db' created,
    evaluate_all_versions plain_libs 3 alice 1 two_versions
      = (db', Success 200 created) /\
    prompts db' = prompts two_versions /\
    prompt_versions db' = prompt_versions two_versions /\
    prompt_evaluations db' = prompt_evaluations two_versions ++ created /\
    map e_version_id created =
      map v_id (filter (fun v => negb (evaluated two_versions v))
                       (versions_newest_first two_versions 1)) /\
    Forall (fun e => e_evaluated_at e = 3) created /\
    (forall v, In v (versions_of two_versions 1) -> evaluated db' v = true) /\
    evaluate_all_versions plain_libs 4 alice 1 db' = (db', Success 200 []).
Proof.
  assert (Hwf : well_formed two_versions)
    by (apply well_formedb_ok; vm_compute; reflexivity).
  split; [exact Hwf|].
  refine (evaluate_all_versions_outcome plain_libs 3 4 alice 1 two_versions
            {| p_id := 1; p_user_id := alice; p_title := "Helper";
               p_description := ""; p_task_type := "generation";
               p_domain := Some "coding"; p_is_public := false;
               p_tags := [] |} Hwf _).
  vm_compute; reflexivity.
Defined.

(** ** Reading an evaluation back *)

Lemma first_order_by_desc_last {A} (key : A -> Z) (l : list A) (x : A) :
  (forall y, In y l -> key y < key x) ->
  first (order_by_desc key (l ++ [x])) = Some x.
Proof.
  intros H. unfold order_by_desc. rewrite fold_right_app.
  cbn [fold_right insert_desc].
  assert (Hx : exists rest, fold_right (insert_desc key) [x] l = x :: rest).
  { induction l as [|y l IH]; [now exists []|].
    destruct IH as [rest IH]; [intros z Hz; apply H; now right|].
    cbn [fold_right]. rewrite IH. cbn [insert_desc].
    specialize (H y (or_introl eq_refl)).
    destruct (key x <=? key y) eqn:E; [apply Z.leb_le in E; lia|].
    now eexists. }
  destruct Hx as [rest ->]. reflexivity.
Qed.

(** X19. After the owner has evaluated a version at a time later than the
    version's earlier evaluations, the evaluation just created is the one
    the read handlers show: [get_version_evaluation] returns it, with the
    same version object as the evaluate response, and [get_version]
    embeds it in the version. *)
Theorem new_evaluation_is_read_back (libs : AiEngine.TextLibs)
    (now u vid : Z) (db : DB) (version : PromptVersion) (prompt : Prompt) :
  get_version db vid = Some version ->
  prompt_of db version = Some prompt ->
  p_user_id prompt = u ->
  (forall e, In e (prompt_evaluations db) -> e_version_id e = vid ->
             e_evaluated_at e < now) ->
  exists db' body,
    evaluate_version libs now u vid db = (db', Success 200 body) /\
    Reads.get_version_evaluation u vid db' =
      Success 200
        {| Reads.ve_evaluation := Some (eb_evaluation body);
           Reads.ve_message := None;
           Reads.ve_version := eb_version body |} /\
    exists shown,
      Reads.get_version u vid db' = Success 200 shown /\
      vd_version (Reads.gv_version shown) = version /\
      vd_evaluation (Reads.gv_version shown) = Some (eb_evaluation body).
Proof.
  intros Hv Hp Hu Hearlier.
  destruct (find_by_id _ _ _ Hv) as [_ Hid].
  unfold evaluate_version. rewrite Hv, Hp, Hu, Z.eqb_refl. cbn [negb].
  destruct (evaluate_prompt_returns libs (v_prompt_text version)
              (Some (p_task_type prompt)) (p_domain prompt))
    as [result [-> _]].
  cbv zeta.
  set (ev := new_evaluation now db version result).
  set (db' := with_evaluations db (prompt_evaluations db ++ [ev])).
  assert (Hlatest : get_latest_evaluation db' version = Some ev).
  { unfold get_latest_evaluation. subst db'.
    cbn [prompt_evaluations with_evaluations]. rewrite filter_app.
    cbn [filter]. change (e_version_id ev) with (v_id version).
    rewrite Z.eqb_refl. apply first_order_by_desc_last.
    intros e He. apply filter_In in He. destruct He as [He Hve].
    apply Z.eqb_eq in Hve. change (e_evaluated_at ev) with now.
    apply Hearlier; [exact He|]. now rewrite Hve. }
  assert (Hv' : get_version db' vid = Some version) by exact Hv.
  assert (Hp' : prompt_of db' version = Some prompt) by exact Hp.
  do 2 eexists. split; [reflexivity|].
  cbn [eb_evaluation eb_version].
  split.
  - unfold Reads.get_version_evaluation.
    rewrite Hv', Hp', Hu, Z.eqb_refl, Hlatest. reflexivity.
  - unfold Reads.get_version.
    rewrite Hv', Hp', Hu, Z.eqb_refl. cbn [negb].
    eexists. split; [reflexivity|].
    cbn [Reads.gv_version vd_version vd_evaluation version_to_dict].
    split; [reflexivity|exact Hlatest].
Qed.

(** Bob evaluates his version, evaluated at times 2 and 3, at time 5. *)
Lemma new_evaluation_is_read_back_witness :
  exists db' body,
    evaluate_version plain_libs 5 bob 1 evaluated_twice
      = (db', Success 200 body) /\
    Reads.get_version_evaluation bob 1 db' =
      Success 200
        {| Reads.ve_evaluation := Some (eb_evaluation body);
           Reads.ve_message := None;
           Reads.ve_version := eb_version body |} /\
    exists shown,
      Reads.get_version bob 1 db' = Success 200 shown /\
      vd_version (Reads.gv_version shown) =
        {| v_id := 1; v_prompt_id := 1; v_version_number := 1;
           v_prompt_text := "Summarize the report.";
           v_change_notes := "Initial version"; v_is_current := true;
           v_created_at := 1 |} /\
      vd_evaluation (Reads.gv_version shown) = Some (eb_evaluation body).
Proof.
  refine (new_evaluation_is_read_back plain_libs 5 bob 1 evaluated_twice
            {| v_id := 1; v_prompt_id := 1; v_version_number := 1;
               v_prompt_text := "Summarize the report.";
               v_change_notes := "Initial version"; v_is_current := true;
               v_created_at := 1 |}
            {| p_id := 1; p_user_id := bob; p_title := "Summary";
               p_description := ""; p_task_type := "summarization";
               p_domain := None; p_is_public := false; p_tags := [] |}
            _ _ _ _).
  - vm_compute; reflexivity.
  - vm_compute; reflexivity.
  - reflexivity.
  - intros e He Hid. vm_compute in He.
    destruct He as [<-|[<-|[]]]; vm_compute; reflexivity.
Defined.

(** ** Quick evaluation *)

(** X20. [quick_evaluate] answers 400 exactly when the request has no
    body, no [prompt_text] or an empty one, and 200 otherwise: the text is
    not stripped, so a blank text is scored, and the engine never makes
    the handler fail. *)
Theorem quick_evaluate_status (libs : AiEngine.TextLibs)
    (data : option Reads.QuickData) :
  status_of (Reads.quick_evaluate libs data) =
    match data with
    | Some d =>
        if AiEngine.truthy_str (Reads.q_prompt_text d) then 200 else 400
    | None => 400
    end.
Proof.
  unfold Reads.quick_evaluate. destruct data as [d|]; [|reflexivity].
  destruct (Reads.q_prompt_text d) as [[|c text]|];
    [reflexivity| |reflexivity].
  cbn [empty_str AiEngine.truthy_str].
  destruct (evaluate_prompt_returns libs (String c text)
              (Reads.q_task_type d) (Reads.q_domain d)) as [r [-> _]].
  reflexivity.
Qed.

(** X21. What [evaluate_version] stores for a version is what
    [quick_evaluate] shows for the version's text under the prompt's task
    type and domain: the four stored scores are the shown ones in
    hundredths, and notes, details and suggestions are the same. *)
Theorem quick_evaluate_previews_evaluation (libs : AiEngine.TextLibs)
    (now u vid : Z) (db : DB) (version : PromptVersion) (prompt : Prompt) :
  get_version db vid = Some version ->
  prompt_of db version = Some prompt ->
  p_user_id prompt = u ->
  v_prompt_text version <> "" ->
  exists db' saved shown,
    evaluate_version libs now u vid db = (db', Success 200 saved) /\
    Reads.quick_evaluate libs
      (Some {| Reads.q_prompt_text := Some (v_prompt_text version);
               Reads.q_task_type := Some (p_task_type prompt);
               Reads.q_domain := p_domain prompt |})
      = Success 200 shown /\
    e_clarity_score (eb_evaluation saved) =
      hundredths (Reads.qs_clarity_score (Reads.qb_evaluation shown)) /\
    e_relevance_score (eb_evaluation saved) =
      hundredths (Reads.qs_relevance_score (Reads.qb_evaluation shown)) /\
    e_length_score (eb_evaluation saved) =
      hundredths (Reads.qs_length_score (Reads.qb_evaluation shown)) /\
    e_final_score (eb_evaluation saved) =
      hundredths (Reads.qs_final_score (Reads.qb_evaluation shown)) /\
    e_evaluation_notes (eb_evaluation saved) =
      Reads.qs_notes (Reads.qb_evaluation shown) /\
    eb_details saved = Reads.qb_details shown /\
    eb_suggestions saved = Reads.qb_suggestions shown.
Proof.
  intros Hv Hp Hu Htext.
  unfold evaluate_version, Reads.quick_evaluate.
  rewrite Hv, Hp, Hu, Z.eqb_refl.
  cbn [negb Reads.q_prompt_text Reads.q_task_type Reads.q_domain].
  destruct (v_prompt_text version) as [|c text] eqn:Et; [now destruct Htext|].
  cbn [empty_str].
  destruct (evaluate_prompt_returns libs (String c text)
              (Some (p_task_type prompt)) (p_domain prompt)) as [r [-> _]].
  cbv zeta. do 3 eexists. split; [reflexivity|]. split; [reflexivity|].
  cbn [eb_evaluation eb_details eb_suggestions new_evaluation
       e_clarity_score e_relevance_score e_length_score e_final_score
       e_evaluation_notes Reads.qb_evaluation Reads.qb_details
       Reads.qb_suggestions Reads.qs_clarity_score Reads.qs_relevance_score
       Reads.qs_length_score Reads.qs_final_score Reads.qs_notes].
  repeat split.
Qed.

Lemma quick_evaluate_previews_evaluation_witness :
  exists db' saved shown,
    evaluate_version plain_libs 5 bob 1 one_version
      = (db', Success 200 saved) /\
    Reads.quick_evaluate plain_libs
      (Some {| Reads.q_prompt_text := Some "Summarize the report.";
               Reads.q_task_type := Some "summarization";
               Reads.q_domain := None |})
      = Success 200 shown /\
    e_clarity_score (eb_evaluation saved) =
      hundredths (Reads.qs_clarity_score (Reads.qb_evaluation shown)) /\
    e_relevance_score (eb_evaluation saved) =
      hundredths (Reads.qs_relevance_score (Reads.qb_evaluation shown)) /\
    e_length_score (eb_evaluation saved) =
      hundredths (Reads.qs_length_score (Reads.qb_evaluation shown)) /\
    e_final_score (eb_evaluation saved) =
      hundredths (Reads.qs_final_score (Reads.qb_evaluation shown)) /\
    e_evaluation_notes (eb_evaluation saved) =
      Reads.qs_notes (Reads.qb_evaluation shown) /\
    eb_details saved = Reads.qb_details shown /\
    eb_suggestions saved = Reads.qb_suggestions shown.
Proof.
  refine (quick_evaluate_previews_evaluation plain_libs 5 bob 1 one_version
            {| v_id := 1; v_prompt_id := 1; v_version_number := 1;
               v_prompt_text := "Summarize the report.";
               v_change_notes := "Initial version"; v_is_current := true;
               v_created_at := 1 |}
            {| p_id := 1; p_user_id := bob; p_title := "Summary";
               p_description := ""; p_task_type := "summarization";
               p_domain := None; p_is_public := false; p_tags := [] |}
            _ _ _ _).
  - vm_compute; reflexivity.
  - vm_compute; reflexivity.
  - reflexivity.
  - discriminate.
Defined.

(* ===================================================================== *)
(** * The read-only handlers                                             *)
(* ===================================================================== *)

(** ** Comparing two versions *)

Lemma in_set_In s w : Reads.in_set s w = true <-> In w s.
Proof.
  unfold Reads.in_set. rewrite existsb_exists. split.
  - intros [x [Hx E]]. apply String.eqb_eq in E. now subst x.
  - intros H. exists w. split; [exact H|apply String.eqb_refl].
Qed.

(** [len(a - b) + len(a & b) == len(a)] *)
Lemma difference_intersection a b :
  Reads.difference_size a b + Reads.intersection_size a b = count a.
Proof.
  unfold Reads.difference_size, Reads.intersection_size, count.
  induction a as [|w a IH]; [reflexivity|].
  cbn [filter]. destruct (Reads.in_set b w); cbn [negb List.length]; lia.
Qed.

(** [len(a & b) == len(b & a)] for sets. *)
Lemma intersection_size_le a b :
  NoDup a ->
  Reads.intersection_size a b <= Reads.intersection_size b a.
Proof.
  intros Ha. unfold Reads.intersection_size, count.
  apply inj_le. apply NoDup_incl_length; [now apply NoDup_filter|].
  intros w Hw. apply filter_In in Hw. destruct Hw as [Hwa Hwb].
  apply filter_In. split; [now apply in_set_In|now apply in_set_In].
Qed.

Lemma intersection_size_swap a b :
  NoDup a -> NoDup b ->
  Reads.intersection_size a b = Reads.intersection_size b a.
Proof.
  intros Ha Hb. apply Z.le_antisymm; now apply intersection_size_le.
Qed.

(** X22. For two versions of one prompt of the caller, [compare_versions]
    succeeds in either order. The distinct words of the second text are
    the added and the unchanged ones, those of the first text the removed
    and the unchanged ones; swapping the two versions swaps added and
    removed, keeps unchanged and negates the change of length. *)
Theorem compare_versions_counts (u i j : Z) (db : DB)
    (v1 v2 : PromptVersion) (prompt : Prompt) :
  i <> 0 -> j <> 0 ->
  get_version db i = Some v1 -> get_version db j = Some v2 ->
  v_prompt_id v1 = v_prompt_id v2 ->
  prompt_of db v1 = Some prompt -> p_user_id prompt = u ->
  exists there back,
    Reads.compare_versions u (Some i) (Some j) db = Success 200 there /\
    Reads.compare_versions u (Some j) (Some i) db = Success 200 back /\
    let d := Reads.cmp_diff there in
    let d' := Reads.cmp_diff back in
    Reads.words_added d + Reads.words_unchanged d =
      count (Reads.word_set (v_prompt_text v2)) /\
    Reads.words_removed d + Reads.words_unchanged d =
      count (Reads.word_set (v_prompt_text v1)) /\
    Reads.words_added d' = Reads.words_removed d /\
    Reads.words_removed d' = Reads.words_added d /\
    Reads.words_unchanged d' = Reads.words_unchanged d /\
    Reads.length_change d' = - Reads.length_change d.
Proof.
  intros Hi Hj H1 H2 Hsame Hp Hu.
  assert (Hp2 : prompt_of db v2 = Some prompt).
  { unfold prompt_of in *. now rewrite <- Hsame. }
  apply Z.eqb_neq in Hi, Hj.
  unfold Reads.compare_versions. cbn [Reads.missing_id].
  rewrite Hi, Hj, H1, H2, Hp, Hp2, Hu, Z.eqb_refl, <- Hsame, Z.eqb_refl.
  cbn [orb negb]. cbv zeta. do 2 eexists.
  split; [reflexivity|]. split; [reflexivity|].
  cbn [Reads.cmp_diff Reads.words_added Reads.words_removed
       Reads.words_unchanged Reads.length_change].
  set (a := Reads.word_set (v_prompt_text v1)).
  set (b := Reads.word_set (v_prompt_text v2)).
  assert (Hswap : Reads.intersection_size a b = Reads.intersection_size b a)
    by (apply intersection_size_swap; apply NoDup_nodup).
  split; [rewrite Hswap; apply difference_intersection|].
  split; [apply difference_intersection|].
  split; [reflexivity|]. split; [reflexivity|].
  split; [now symmetry|]. lia.
Qed.

(** Alice compares her version 1, "Write a function.", with her version 2,
    "Write a Python function.". *)
Lemma compare_versions_counts_witness :
  exists there back,
    Reads.compare_versions alice (Some 1) (Some 2) two_versions
      = Success 200 there /\
    Reads.compare_versions alice (Some 2) (Some 1) two_versions
      = Success 200 back /\
    let d := Reads.cmp_diff there in
    let d' := Reads.cmp_diff back in
    Reads.words_added d + Reads.words_unchanged d =
      count (Reads.word_set "Write a Python function.") /\
    Reads.words_removed d + Reads.words_unchanged d =
      count (Reads.word_set "Write a function.") /\
    Reads.words_added d' = Reads.words_removed d /\
    Reads.words_removed d' = Reads.words_added d /\
    Reads.words_unchanged d' = Reads.words_unchanged d /\
    Reads.length_change d' = - Reads.length_change d.
Proof.
  refine (compare_versions_counts alice 1 2 two_versions
            {| v_id := 1; v_prompt_id := 1; v_version_number := 1;
               v_prompt_text := "Write a function.";
               v_change_notes := "Initial version"; v_is_current := false;
               v_created_at := 1 |}
            {| v_id := 2; v_prompt_id := 1; v_version_number := 2;
               v_prompt_text := "Write a Python function.";
               v_change_notes := "Version 2"; v_is_current := true;
               v_created_at := 2 |}
            {| p_id := 1; p_user_id := alice; p_title := "Helper";
               p_description := ""; p_task_type := "generation";
               p_domain := Some "coding"; p_is_public := false;
               p_tags := [] |}
            _ _ _ _ _ _ _).
  - discriminate.
  - discriminate.
  - vm_compute; reflexivity.
  - vm_compute; reflexivity.
  - reflexivity.
  - vm_compute; reflexivity.
  - reflexivity.
Defined.

(** ** Listing versions *)

Lemma owner_owns db u pid prompt :
  get_prompt_of_user db pid u = Some prompt -> owns db u pid = true.
Proof.
  unfold get_prompt_of_user, owns. intros H. apply find_some in H.
  apply existsb_exists. now exists prompt.
Qed.

Lemma owns_cases db u pid :
  (owns db u pid = false /\ get_prompt_of_user db pid u = None) \/
  (owns db u pid = true /\
   exists prompt, get_prompt_of_user db pid u = Some prompt).
Proof.
  destruct (get_prompt_of_user db pid u) as [prompt|] eqn:E.
  - right. split; [now apply owner_owns in E|now exists prompt].
  - left. split; [|reflexivity].
    destruct (owns db u pid) eqn:Ho; [|reflexivity].
    unfold owns in Ho. apply existsb_exists in Ho. destruct Ho as [p [Hp Hk]].
    unfold get_prompt_of_user in E.
    now rewrite (find_none _ _ E p Hp) in Hk.
Qed.

(** X23. [list_versions] answers 404 to anyone but the owner. To the owner
    it shows every version of the prompt once, from the highest version
    number down, each with its latest evaluation, and [total] is their
    number; [get_prompt] shows the same list and the same count. *)
Theorem list_versions_outcome (u pid : Z) (db : DB) :
  match Reads.list_versions u pid db with
  | Failure status _ => status = 404 /\ owns db u pid = false
  | Success status body =>
      let shown := map vd_version (Reads.lv_versions body) in
      status = 200 /\ owns db u pid = true /\
      Permutation shown (versions_of db pid) /\
      StronglySorted (desc v_version_number) shown /\
      Reads.lv_total body = count (versions_of db pid) /\
      (forall d, In d (Reads.lv_versions body) ->
                 vd_evaluation d = get_latest_evaluation db (vd_version d)) /\
      exists full,
        Reads.get_prompt u pid db = Success 200 full /\
        pd_versions full = Some (Reads.lv_versions body) /\
        pd_version_count full = Reads.lv_total body
  end.
Proof.
  unfold Reads.list_versions, Reads.get_prompt.
  destruct (owns_cases db u pid) as [[Ho ->]|[Ho [prompt Hp]]];
    [now split|].
  rewrite Hp. destruct (get_prompt_of_user_some _ _ _ _ Hp) as [_ [Hid _]].
  cbv zeta. cbn [Reads.lv_versions Reads.lv_total].
  rewrite map_map. cbn [version_to_dict vd_version]. rewrite map_id.
  split; [reflexivity|]. split; [exact Ho|].
  split; [apply order_by_desc_perm|].
  split; [apply order_by_desc_sorted|].
  assert (Hcount : count (order_by_desc v_version_number (versions_of db pid))
                   = count (versions_of db pid)).
  { unfold count. f_equal. apply Permutation_length, order_by_desc_perm. }
  split; [exact Hcount|].
  split.
  - intros d Hd. apply in_map_iff in Hd. now destruct Hd as [v [<- _]].
  - eexists. split; [reflexivity|].
    cbn [pd_versions pd_version_count prompt_to_dict]. rewrite Hid.
    split; [reflexivity|now symmetry].
Qed.

(** ** The evaluations of a prompt *)

Lemma len_slice_to n text :
  len (Reads.slice_to n text) = Z.min (Z.of_nat n) (len text).
Proof.
  revert n. induction text as [|c t IH]; intros n.
  - cbn [Reads.slice_to len]. lia.
  - cbn [Reads.slice_to len].
    destruct ((128 <=? code c) && (code c <? 192)) eqn:E.
    + cbn [len]. rewrite E, IH. lia.
    + destruct n as [|m].
      * cbn [len]. assert (0 <= len t); [|lia].
        clear. induction t as [|c t IH]; cbn [len]; [lia|].
        destruct ((128 <=? code c) && (code c <? 192)); lia.
      * cbn [len]. rewrite E, IH. lia.
Qed.

Lemma len_append s t : len (s ++ t)%string = len s + len t.
Proof.
  induction s as [|c s IH]; [reflexivity|].
  cbn [String.append len]. rewrite IH. lia.
Qed.

(** A preview is the text itself up to 100 characters, and 103 characters
    otherwise. *)
Lemma preview_length text :
  (len text <= 100 /\ Reads.preview text = text) \/
  (100 < len text /\ len (Reads.preview text) = 103).
Proof.
  unfold Reads.preview. destruct (100 <? len text) eqn:E.
  - apply Z.ltb_lt in E. right. split; [exact E|].
    rewrite len_append, len_slice_to.
    change (len "...") with 3. change (Z.of_nat 100) with 100. lia.
  - apply Z.ltb_ge in E. now left.
Qed.

Lemma ranked_ok db es :
  (forall e, In e es -> exists v, version_of db e = Some v) ->
  exists rows,
    Reads.ranked db es = Ok rows /\
    map Reads.re_evaluation rows = es /\
    Forall (fun r =>
              exists v,
                version_of db (Reads.re_evaluation r) = Some v /\
                Reads.re_version_number r = v_version_number v /\
                Reads.re_prompt_text_preview r =
                  Reads.preview (v_prompt_text v))
           rows.
Proof.
  induction es as [|e es IH]; intros H.
  - exists []. repeat split. constructor.
  - destruct (H e (or_introl eq_refl)) as [v Hv].
    destruct IH as [rows [Hrows [Hmap Hall]]];
      [intros x Hx; apply H; now right|].
    cbn [Reads.ranked]. rewrite Hv, Hrows. cbn [bind].
    eexists. split; [reflexivity|].
    cbn [map Reads.re_evaluation]. split; [now rewrite Hmap|].
    constructor; [|exact Hall].
    exists v. cbn [Reads.re_evaluation Reads.re_version_number
                   Reads.re_prompt_text_preview]. now repeat split.
Qed.

Section EvaluationsFacts.

Variable row_order : list PromptEvaluation -> list PromptEvaluation.
Hypothesis row_order_perm : forall l, Permutation (row_order l) l.

(** X24. [get_evaluations] never fails on an evaluation whose version is
    gone, since it only reads evaluations joined to a version. To the
    owner it answers 200 with one row for each evaluation of the prompt's
    versions, by descending final score; each row carries the number of
    its version and a preview of the version's text of at most 103
    characters; the first row, if any, is the evaluation that
    [get_recommendation] recommends under the same row order. *)
Theorem get_evaluations_outcome (u pid : Z) (db : DB) (prompt : Prompt) :
  get_prompt_of_user db pid u = Some prompt ->
  exists rows,
    Reads.get_evaluations row_order u pid db =
      Success 200
        {| Reads.ev_prompt_id := pid;
           Reads.ev_prompt_title := p_title prompt;
           Reads.ev_evaluations := rows |} /\
    Permutation (map Reads.re_evaluation rows)
                (evaluations_of_prompt db pid) /\
    StronglySorted (desc e_final_score) (map Reads.re_evaluation rows) /\
    Forall (fun r =>
              len (Reads.re_prompt_text_preview r) <= 103 /\
              exists v,
                version_of db (Reads.re_evaluation r) = Some v /\
                Reads.re_version_number r = v_version_number v /\
                Reads.re_prompt_text_preview r =
                  Reads.preview (v_prompt_text v))
           rows /\
    option_map Reads.re_evaluation (first rows) =
      best_evaluation row_order db pid.
Proof.
  intros Hp. unfold Reads.get_evaluations. rewrite Hp. cbv zeta.
  destruct (ranked_ok db
              (by_final_score_desc row_order (evaluations_of_prompt db pid)))
    as [rows [Hrows [Hmap Hall]]].
  { intros e He. apply by_final_score_desc_In in He; [|exact row_order_perm].
    destruct (version_of_joined _ _ _ He) as [v [Hv _]]. now exists v. }
  rewrite Hrows. exists rows. split; [reflexivity|].
  rewrite Hmap. split.
  { unfold by_final_score_desc.
    eapply Permutation_trans; [apply order_by_desc_perm|].
    apply row_order_perm. }
  split; [apply order_by_desc_sorted|].
  split.
  - eapply Forall_impl; [|exact Hall].
    intros r [v [Hv [Hn Ht]]]. split; [|now exists v].
    rewrite Ht. destruct (preview_length (v_prompt_text v))
      as [[Hle ->]|[_ ->]]; lia.
  - unfold best_evaluation. rewrite <- Hmap. now destruct rows.
Qed.

End EvaluationsFacts.

(** Alice's two evaluations, read in primary-key order. *)
Lemma get_evaluations_outcome_witness :
  exists rows,
    Reads.get_evaluations key_order alice 1 tied =
      Success 200
        {| Reads.ev_prompt_id := 1;
           Reads.ev_prompt_title := "Helper";
           Reads.ev_evaluations := rows |} /\
    Permutation (map Reads.re_evaluation rows)
                (evaluations_of_prompt tied 1) /\
    StronglySorted (desc e_final_score) (map Reads.re_evaluation rows) /\
    Forall (fun r =>
              len (Reads.re_prompt_text_preview r) <= 103 /\
              exists v,
                version_of tied (Reads.re_evaluation r) = Some v /\
                Reads.re_version_number r = v_version_number v /\
                Reads.re_prompt_text_preview r =
                  Reads.preview (v_prompt_text v))
           rows /\
    option_map Reads.re_evaluation (first rows) =
      best_evaluation key_order tied 1.
Proof.
  refine (get_evaluations_outcome key_order key_order_perm alice 1 tied
            {| p_id := 1; p_user_id := alice; p_title := "Helper";
               p_description := ""; p_task_type := "generation";
               p_domain := Some "coding"; p_is_public := false;
               p_tags := [] |} _).
  vm_compute; reflexivity.
Defined.

(** ** Reading somebody else's prompt *)

Lemma compare_versions_foreign u vid other db version :
  well_formed db ->
  get_version db vid = Some version ->
  owns db u (v_prompt_id version) = false ->
  (exists status error,
     Reads.compare_versions u (Some vid) other db = Failure status error /\
     (status = 400 \/ status = 403 \/ status = 404)) /\
  (exists status error,
     Reads.compare_versions u other (Some vid) db = Failure status error /\
     (status = 400 \/ status = 403 \/ status = 404)).
Proof.
  intros Hwf Hv Ho.
  destruct (find_by_id _ _ _ Hv) as [Hin _].
  destruct (prompt_of_exists db version Hwf Hin) as [prompt Hp].
  pose proof (not_owner_of_version db u version prompt Ho Hp) as Hn.
  unfold Reads.compare_versions.
  destruct other as [j|]; cbn [Reads.missing_id orb].
  - destruct (vid =? 0); destruct (j =? 0); cbn [orb];
      try (split; do 2 eexists; (split; [reflexivity|auto])).
    rewrite Hv. destruct (get_version db j) as [v2|] eqn:Hj;
      [|split; do 2 eexists; (split; [reflexivity|auto])].
    destruct (find_by_id _ _ _ Hj) as [Hin2 _].
    destruct (prompt_of_exists db v2 Hwf Hin2) as [p2 Hp2].
    rewrite Hp, Hp2, Hn. cbn [orb]. rewrite Bool.orb_true_r.
    split; do 2 eexists; (split; [reflexivity|auto]).
  - rewrite Bool.orb_true_r.
    split; do 2 eexists; (split; [reflexivity|auto]).
Qed.

(** X25. The read handlers show nothing of a prompt to a user who does not
    own it: listing its versions, reading it, listing its evaluations and
    asking for a recommendation answer 404, reading one of its versions or
    the evaluation of one answers 403, and a comparison that names one of
    its versions, on either side, fails with 400, 403 or 404. *)
Theorem foreign_reads_are_refused
    (row_order : list PromptEvaluation -> list PromptEvaluation)
    (u pid : Z) (db : DB) :
  well_formed db ->
  owns db u pid = false ->
  Reads.list_versions u pid db = Failure 404 "Prompt not found" /\
  Reads.get_prompt u pid db = Failure 404 "Prompt not found" /\
  Reads.get_evaluations row_order u pid db = Failure 404 "Prompt not found" /\
  get_recommendation row_order u pid db = Failure 404 "Prompt not found" /\
  forall vid version,
    get_version db vid = Some version -> v_prompt_id version = pid ->
    Reads.get_version u vid db = Failure 403 "Access denied" /\
    Reads.get_version_evaluation u vid db = Failure 403 "Access denied" /\
    forall other,
      (exists status error,
         Reads.compare_versions u (Some vid) other db = Failure status error /\
         (status = 400 \/ status = 403 \/ status = 404)) /\
      (exists status error,
         Reads.compare_versions u other (Some vid) db = Failure status error /\
         (status = 400 \/ status = 403 \/ status = 404)).
Proof.
  intros Hwf Ho. pose proof (not_owner_no_prompt db u pid Ho) as Hnone.
  unfold Reads.list_versions, Reads.get_prompt, Reads.get_evaluations,
    get_recommendation.
  rewrite Hnone. repeat (split; [reflexivity|]).
  intros vid version Hv Hpid. subst pid.
  destruct (find_by_id _ _ _ Hv) as [Hin _].
  destruct (prompt_of_exists db version Hwf Hin) as [prompt Hp].
  pose proof (not_owner_of_version db u version prompt Ho Hp) as Hn.
  unfold Reads.get_version, Reads.get_version_evaluation.
  rewrite Hv, Hp, Hn. repeat (split; [reflexivity|]).
  intros other. now apply compare_versions_foreign with (version := version).
Qed.

(** Bob asks about Alice's prompt and its versions. *)
Lemma foreign_reads_are_refused_witness :
  well_formed two_versions /\ owns two_versions bob 1 = false /\
  Reads.list_versions bob 1 two_versions = Failure 404 "Prompt not found" /\
  Reads.get_prompt bob 1 two_versions = Failure 404 "Prompt not found" /\
  Reads.get_evaluations key_order bob 1 two_versions
    = Failure 404 "Prompt not found" /\
  get_recommendation key_order bob 1 two_versions
    = Failure 404 "Prompt not found" /\
  forall vid version,
    get_version two_versions vid = Some version -> v_prompt_id version = 1 ->
    Reads.get_version bob vid two_versions = Failure 403 "Access denied" /\
    Reads.get_version_evaluation bob vid two_versions
      = Failure 403 "Access denied" /\
    forall other,
      (exists status error,
         Reads.compare_versions bob (Some vid) other two_versions
           = Failure status error /\
         (status = 400 \/ status = 403 \/ status = 404)) /\
      (exists status error,
         Reads.compare_versions bob other (Some vid) two_versions
           = Failure status error /\
         (status = 400 \/ status = 403 \/ status = 404)).
Proof.
  assert (Hwf : well_formed two_versions)
    by (apply well_formedb_ok; vm_compute; reflexivity).
  assert (Ho : owns two_versions bob 1 = false) by (vm_compute; reflexivity).
  split; [exact Hwf|]. split; [exact Ho|].
  exact (foreign_reads_are_refused key_order bob 1 two_versions Hwf Ho).
Defined.

(* ===================================================================== *)
(** * Scores and the NUMERIC(5,2) columns                                *)
(* ===================================================================== *)

(** ** The mantissa of a float *)

Lemma digits2_pos_bound m : Z.pos m < 2 ^ Z.pos (digits2_pos m).
Proof.
  induction m as [m IH|m IH|]; cbn [digits2_pos];
    [rewrite Pos2Z.inj_xI|rewrite Pos2Z.inj_xO|reflexivity];
    rewrite Pos2Z.inj_succ, Z.pow_succ_r by lia; lia.
Qed.

Lemma valid_mantissa m e :
  bounded prec emax m e = true -> Z.pos m < 2 ^ 53.
Proof.
  unfold bounded, canonical_mantissa, fexp, prec. intros H.
  apply andb_prop in H. destruct H as [H _]. apply Z.eqb_eq in H.
  assert (Hd : Z.pos (digits2_pos m) <= 53) by lia.
  eapply Z.lt_le_trans; [apply digits2_pos_bound|].
  apply Z.pow_le_mono_r; lia.
Qed.

(** ** Rounding to hundredths *)

Lemma round_half_even_bounds n d k :
  0 < d -> 0 <= n <= k * d -> 0 <= round_half_even n d <= k.
Proof.
  intros Hd [Hn Hk]. unfold round_half_even.
  pose proof (Z.div_mod n d ltac:(lia)) as Hdm.
  pose proof (Z.mod_pos_bound n d Hd) as Hr.
  assert (Hq : 0 <= n / d) by (apply Z.div_pos; lia).
  assert (Hqk : n / d <= k) by (apply Z.div_le_upper_bound; lia).
  destruct (Z.compare_spec (2 * (n mod d)) d) as [E|E|E];
    [destruct (Z.even (n / d))|..]; try lia; nia.
Qed.

(** A float between 0 and 100 shows between 0.00 and 100.00. *)
Lemma hundredths_in_bounds x : in_bounds x -> 0 <= hundredths x <= 10000.
Proof.
  unfold in_bounds. rewrite !FloatAxioms.leb_spec.
  change (Prim2SF 0) with (S754_zero false).
  change (Prim2SF 100) with (S754_finite false 7036874417766400 (-46)).
  pose proof (FloatAxioms.Prim2SF_valid x) as Hvalid.
  unfold hundredths.
  destruct (Prim2SF x) as [s|s| |s m e]; try lia.
  intros [Hlo Hhi]. unfold SFleb, SFcompare in Hlo, Hhi.
  destruct s; [discriminate Hlo|].
  apply valid_mantissa in Hvalid.
  cbv beta iota zeta.
  assert (He : e < -46 \/ (e = -46 /\ Z.pos m <= 7036874417766400)).
  { destruct (Z.compare_spec e (-46)) as [E|E|E];
      [right; split; [exact E|]|now left|discriminate Hhi].
    apply Pos2Z.pos_le_pos. unfold Pos.le, Pos.compare. intros Hc.
    rewrite Hc in Hhi. discriminate Hhi. }
  destruct (0 <=? e) eqn:E0; [apply Z.leb_le in E0; lia|].
  apply round_half_even_bounds; [apply Z.pow_pos_nonneg; lia|].
  split; [lia|].
  destruct He as [He|[-> Hm]].
  - assert (Hp : 2 ^ 47 <= 2 ^ (- e)) by (apply Z.pow_le_mono_r; lia).
    change (2 ^ 53) with (64 * 2 ^ 47) in Hvalid. nia.
  - change (2 ^ (- -46)) with 70368744177664. lia.
Qed.

(** The two-decimal value [h / 100] shows as [h]. *)
Lemma hundredths_round_trip h :
  0 <= h <= 10000 -> hundredths (float_of_int h / 100) = h.
Proof.
  intros H.
  assert (Hall : forallb (fun h => hundredths (float_of_int h / 100) =? h)
                         (map Z.of_nat (seq 0 (Z.to_nat 10001))) = true)
    by (vm_compute; reflexivity).
  rewrite forallb_forall in Hall. apply Z.eqb_eq. apply (Hall h).
  apply in_map_iff. exists (Z.to_nat h). split; [lia|].
  apply in_seq. lia.
Qed.

(** Rounding a score to two decimals does not change what it shows. *)
Lemma hundredths_round2 x :
  in_bounds x -> hundredths (round2 x) = hundredths x.
Proof.
  intros H. unfold round2.
  destruct (Prim2SF x) as [s|s| |s m e] eqn:E; try reflexivity.
  apply hundredths_round_trip. now apply hundredths_in_bounds.
Qed.

Lemma evaluate_prompt_sub_scores libs text task_type domain :
  exists r,
    AiEngine.evaluate_prompt libs text task_type domain = Ok r /\
    AiEngine.clarity_score r =
      round2 (AiEngine.clarity_score_of
                (AiEngine._calculate_clarity_score text)) /\
    AiEngine.relevance_score r =
      round2 (AiEngine.relevance_score_of
                (AiEngine._calculate_relevance_score text task_type domain)) /\
    AiEngine.length_score r =
      round2 (AiEngine.length_score_of
                (AiEngine._calculate_length_score text)).
Proof.
  unfold AiEngine.evaluate_prompt, AiEngine.evaluate.
  destruct evaluator_weights as [-> [-> ->]].
  cbn [bind]. eexists. split; [reflexivity|].
  cbn [AiEngine.clarity_score AiEngine.relevance_score AiEngine.length_score].
  repeat split.
Qed.

(** X26. The three sub-scores of every evaluation fit their NUMERIC(5,2)
    columns: the stored value, in hundredths, lies between 0 and 10000,
    and rounding the score to two decimals before storing it loses
    nothing against storing the score itself. *)
Theorem stored_sub_scores_fit (libs : AiEngine.TextLibs) (text : string)
    (task_type domain : option string) :
  exists r,
    AiEngine.evaluate_prompt libs text task_type domain = Ok r /\
    forall now db version,
      let e := new_evaluation now db version r in
      (0 <= e_clarity_score e <= 10000 /\
       e_clarity_score e =
         hundredths (AiEngine.clarity_score_of
                       (AiEngine._calculate_clarity_score text))) /\
      (0 <= e_relevance_score e <= 10000 /\
       e_relevance_score e =
         hundredths (AiEngine.relevance_score_of
                       (AiEngine._calculate_relevance_score
                          text task_type domain))) /\
      (0 <= e_length_score e <= 10000 /\
       e_length_score e =
         hundredths (AiEngine.length_score_of
                       (AiEngine._calculate_length_score text))).
Proof.
  destruct (evaluate_prompt_sub_scores libs text task_type domain)
    as [r [Hr [Hc [Hrel Hl]]]].
  exists r. split; [exact Hr|]. intros now db version.
  cbv zeta.
  cbn [new_evaluation e_clarity_score e_relevance_score e_length_score].
  rewrite Hc, Hrel, Hl.
  destruct (clarity_score_clamped text) as [c ->].
  destruct (relevance_score_clamped text task_type domain) as [s ->].
  destruct (length_score_clamped text) as [l ->].
  rewrite !hundredths_round2 by apply clamp_in_bounds.
  repeat split; apply hundredths_in_bounds, clamp_in_bounds.
Qed.
